(** * Conversation checkpoint store (backend/utils.py)

    A shallow embedding of the Cosmos DB checkpoint saver of
    [business_use_cases/intelligent_portfolio_management/backend/utils.py]:
    the object codec ([serialize_for_cosmosdb], [deserialize_from_cosmosdb]),
    the typed codec ([dumps_typed], [loads_typed], [dumps], [loads]), the
    checkpoint store ([aget_tuple], [alist], [aput], [aput_writes]) and the
    conversation directory ([_update_conversation_document],
    [get_conversations_by_user], [get_or_create_user_conversation],
    [cleanup_old_conversations], [delete_conversation]).

    Python values are a tagged union [pyval]; the three Cosmos DB containers
    are lists of documents in storage order; exceptions are values of [exn]
    carried by [result]; the stateful methods thread the database through a
    small state-and-exception monad [M].  What the code prints to standard
    output is not modelled; what it sends to [logger] is. *)

From Stdlib Require Import ZArith Ascii Bool Lia.
From stdpp Require Import base option list strings gmap pretty sorting.


(* ================================================================= *)
(** ** Python values *)

(** A [datetime] is represented by the text its [isoformat()] prints. *)
Record datetime := mk_datetime { isoformat : string }.

(** The values the codec distinguishes, in the order of its [isinstance]
    tests.  [PMessage] is an object that has a [__dict__] and both a
    [content] and a [type] attribute (the LangChain message classes); the
    three attributes read through [getattr] with a default are optional.
    [others] holds the further attributes of the message ([name],
    [tool_calls], [usage_metadata], [tool_call_id], ...), each listed
    where its value differs from the one the constructor of the class
    gives it when called with [content], [additional_kwargs],
    [response_metadata] and [id] alone: a message built by that call has
    none.  [PObject] is any other object with a [__dict__]; [POther] is a
    value of any remaining type, with the text [str(obj)] returns ([None]
    when [str] raises).  A float is the bit pattern of its IEEE double.
    Dict keys are strings (the documents are JSON); a dict is the list of
    its items in insertion order.  A [str] is the string of the bytes of
    its UTF-8 encoding. *)
#[warnings="-register-all"]
Inductive pyval : Type :=
| PNone
| PBool (b : bool)
| PInt (n : Z)
| PFloat (bits : Z)
| PStr (s : string)
| PList (items : list pyval)
| PTuple (items : list pyval)
| PDict (items : list (string * pyval))
| PDatetime (d : datetime)
| PMessage (class_name type_ : string) (content : pyval)
    (additional_kwargs response_metadata id : option pyval)
    (others : list (string * pyval))
| PObject (class_name : string) (attrs : list (string * pyval))
| POther (class_name : string) (str : option string).

Definition dict := list (string * pyval).

(** [k in d] and [d.get(k)]. *)
Fixpoint dict_get (k : string) (d : dict) : option pyval :=
  match d with
  | [] => None
  | (k', v) :: d' => if String.eqb k' k then Some v else dict_get k d'
  end.

Definition dict_contains (k : string) (d : dict) : bool :=
  match dict_get k d with Some _ => true | None => false end.

(** [d[k] = v]: an existing key keeps its place. *)
Fixpoint dict_set (k : string) (v : pyval) (d : dict) : dict :=
  match d with
  | [] => [(k, v)]
  | (k', v') :: d' =>
      if String.eqb k' k then (k, v) :: d' else (k', v') :: dict_set k v d'
  end.

(** [d.update(other)]. *)
Definition dict_update (d other : dict) : dict :=
  fold_left (fun acc kv => dict_set kv.1 kv.2 acc) other d.

(** Python truthiness of a string ([if s:]) and of an optional string. *)
Definition str_truthy (s : string) : bool := negb (String.eqb s "").

Definition opt_truthy (o : option string) : bool :=
  match o with Some s => str_truthy s | None => false end.

(* ================================================================= *)
(** ** Texts *)

(** [len], indices and slices of a [str] count characters (code points).
    In the UTF-8 encoding every byte other than a continuation byte
    ([10xxxxxx]) starts one character. *)
Definition chars (s : string) : list ascii := String.list_ascii_of_string s.

Definition is_continuation (c : ascii) : bool :=
  (128 <=? nat_of_ascii c) && (nat_of_ascii c <? 192).

(** [len(s)] *)
Definition str_len (s : string) : nat :=
  length (List.filter (fun c => negb (is_continuation c)) (chars s)).

(** [s[:n]] *)
Fixpoint str_take (n : nat) (s : string) : string :=
  match s with
  | EmptyString => EmptyString
  | String c rest =>
      if is_continuation c then String c (str_take n rest)
      else match n with
           | 0 => EmptyString
           | S n' => String c (str_take n' rest)
           end
  end.

(** The bytes of the last [n] characters, read from the end of the text
    backwards. *)
Fixpoint last_chars_rev (n : nat) (reversed : list ascii) : list ascii :=
  match reversed with
  | [] => []
  | c :: before =>
      match n with
      | 0 => []
      | S n' => c :: last_chars_rev (if is_continuation c then n else n') before
      end
  end.

(* ================================================================= *)
(** ** Object codec *)

(** [c in s] and [s.endswith(c)] for an ASCII character [c], on the
    bytes of [s]. *)
Definition contains_char (c : ascii) (l : list ascii) : bool :=
  existsb (Ascii.eqb c) l.

Definition endswith_char (c : ascii) (l : list ascii) : bool :=
  match last l with Some c' => Ascii.eqb c' c | None => false end.

(** [l[-n:]] for a positive [n], on the bytes [l] of a text. *)
Definition last_n (n : nat) (l : list ascii) : list ascii :=
  rev (last_chars_rev n (rev l)).

(** The test [deserialize_from_cosmosdb] applies to a string before it
    tries [datetime.fromisoformat]:
    [len(obj) > 10 and 'T' in obj and (obj.endswith('Z') or '+' in obj[-6:])]. *)
Definition looks_like_iso (s : string) : bool :=
  (10 <? str_len s)
  && contains_char "T" (chars s)
  && (endswith_char "Z" (chars s) || contains_char "+" (last_n 6 (chars s))).

(** [obj.replace('Z', '+00:00')] *)
Fixpoint replace_Z (s : string) : string :=
  match s with
  | EmptyString => EmptyString
  | String c r =>
      if Ascii.eqb c "Z" then "+00:00" +:+ replace_Z r
      else String c (replace_Z r)
  end.

(** [serialize_for_cosmosdb] (utils.py, lines 135-171). *)
Fixpoint serialize_for_cosmosdb (obj : pyval) : pyval :=
  match obj with
  | PMessage class_name type_ content additional_kwargs response_metadata id _ =>
      PDict [("_type", PStr class_name);
             ("content", content);
             ("type", PStr type_);
             ("additional_kwargs", default (PDict []) additional_kwargs);
             ("response_metadata", default (PDict []) response_metadata);
             ("id", default PNone id)]
  | PObject class_name attrs =>
      PDict (dict_update [("_type", PStr class_name)]
               (map (fun kv => (kv.1, serialize_for_cosmosdb kv.2)) attrs))
  | PDict items =>
      PDict (map (fun kv => (kv.1, serialize_for_cosmosdb kv.2)) items)
  | PList items | PTuple items => PList (map serialize_for_cosmosdb items)
  | PNone | PBool _ | PInt _ | PFloat _ | PStr _ => obj
  | PDatetime d => PStr (isoformat d)
  | POther class_name (Some s) => PStr s
  | POther class_name None => PStr ("<unserializable: " +:+ class_name +:+ ">")
  end.

(** The message class a [_type] tag names and the [type] attribute that
    class fixes, for the three classes the decoder rebuilds. *)
Definition message_type_of_class (class_name : string) : option string :=
  if String.eqb class_name "HumanMessage" then Some "human"
  else if String.eqb class_name "AIMessage" then Some "ai"
  else if String.eqb class_name "SystemMessage" then Some "system"
  else None.

Definition message_class_of_tag (obj_type : pyval) : option (string * string) :=
  match obj_type with
  | PStr class_name =>
      match message_type_of_class class_name with
      | Some type_ => Some (class_name, type_)
      | None => None
      end
  | _ => None
  end.

(* ================================================================= *)
(** ** Exceptions *)

(** The exceptions the module raises or catches.  [ValueError] and
    [RuntimeError] carry the fixed part of their message and the exception
    they wrap ([f"...: {e}"]). *)
#[warnings="-register-all"]
Inductive exn : Type :=
| AssertionError
| KeyError (key : string)
| TypeError
| ValueError (msg : string) (cause : option exn)
| RuntimeError (msg : string) (cause : exn)
| SerdeError
| BinasciiError
| CosmosHttpResponseError
| CosmosResourceNotFoundError.

Inductive result (A : Type) : Type :=
| Ok (a : A)
| Raise (e : exn).

Arguments Ok {A} a.
Arguments Raise {A} e.

Definition result_bind {A B} (r : result A) (k : A -> result B) : result B :=
  match r with
  | Ok a => k a
  | Raise e => Raise e
  end.

Notation "'let?' x ':=' r 'in' k" := (result_bind r (fun x => k))
  (at level 10, x pattern, r at level 100, k at level 200).

Fixpoint result_mapM {A B} (f : A -> result B) (l : list A) : result (list B) :=
  match l with
  | [] => Ok []
  | a :: l' =>
      let? b := f a in
      let? bs := result_mapM f l' in
      Ok (b :: bs)
  end.

(* ================================================================= *)
(** ** Documents and the database *)

(** Checkpoints container, partitioned by [thread_id]. *)
Record checkpoint_doc := {
  ck_id : string;
  ck_parent_checkpoint_id : option string;
  ck_type : string;
  ck_checkpoint : string;
  ck_metadata : string;
  ck_thread_id : string;
  ck_checkpoint_ns : string;
  ck_checkpoint_id : string }.

(** Checkpoint-writes container, partitioned by [thread_id]. *)
Record write_doc := {
  w_id : string;
  w_thread_id : string;
  w_checkpoint_ns : string;
  w_checkpoint_id : string;
  w_task_id : string;
  w_idx : nat;
  w_channel : string;
  w_type : string;
  w_value : string }.

(** Conversations container, partitioned by [userId]. *)
Record conversation_doc := {
  conv_id : string;
  conv_userId : string;
  conv_lastUpdated : string;
  conv_messages : pyval;
  conv_checkpointId : string;
  conv_metadata : pyval }.

Inductive container_name := Conversations | Checkpoints | Writes.

(** One request to the database service: what a fault can hit. *)
Inductive cosmos_op :=
| QueryItems (c : container_name)
| UpsertItem (c : container_name) (partition_key item : string)
| DeleteItem (c : container_name) (partition_key item : string).

Inductive log_record :=
| LogInfo (msg : string)
| LogWarning (msg : string)
| LogError (msg : string) (e : exn).

(** The world the saver runs against: the three containers (documents in
    storage order, which is the order a query without ORDER BY returns
    them in), the requests the service currently fails with an HTTP
    error, whether the service rejects a query text whose parameter was
    not supplied, and the records written to [logger]. *)
Record state := {
  conversations_container : list conversation_doc;
  checkpoints_container : list checkpoint_doc;
  writes_container : list write_doc;
  unavailable : cosmos_op -> bool;
  rejects_unbound_parameter : bool;
  log : list log_record }.

Definition set_conversations (c : list conversation_doc) (s : state) : state :=
  {| conversations_container := c;
     checkpoints_container := checkpoints_container s;
     writes_container := writes_container s;
     unavailable := unavailable s;
     rejects_unbound_parameter := rejects_unbound_parameter s;
     log := log s |}.

Definition set_checkpoints (c : list checkpoint_doc) (s : state) : state :=
  {| conversations_container := conversations_container s;
     checkpoints_container := c;
     writes_container := writes_container s;
     unavailable := unavailable s;
     rejects_unbound_parameter := rejects_unbound_parameter s;
     log := log s |}.

Definition set_writes (c : list write_doc) (s : state) : state :=
  {| conversations_container := conversations_container s;
     checkpoints_container := checkpoints_container s;
     writes_container := c;
     unavailable := unavailable s;
     rejects_unbound_parameter := rejects_unbound_parameter s;
     log := log s |}.

Definition add_log (r : log_record) (s : state) : state :=
  {| conversations_container := conversations_container s;
     checkpoints_container := checkpoints_container s;
     writes_container := writes_container s;
     unavailable := unavailable s;
     rejects_unbound_parameter := rejects_unbound_parameter s;
     log := log s ++ [r] |}.

(** A container of documents of type [D]: its name, where it lives in the
    state, and the partition key and id of a document. *)
Record container (D : Type) := {
  c_name : container_name;
  c_get : state -> list D;
  c_set : list D -> state -> state;
  c_partition_key : D -> string;
  c_item_id : D -> string }.

Arguments c_name {D}.
Arguments c_get {D}.
Arguments c_set {D}.
Arguments c_partition_key {D}.
Arguments c_item_id {D}.

Definition conversations : container conversation_doc :=
  {| c_name := Conversations;
     c_get := conversations_container;
     c_set := set_conversations;
     c_partition_key := conv_userId;
     c_item_id := conv_id |}.

Definition checkpoints : container checkpoint_doc :=
  {| c_name := Checkpoints;
     c_get := checkpoints_container;
     c_set := set_checkpoints;
     c_partition_key := ck_thread_id;
     c_item_id := ck_id |}.

Definition writes : container write_doc :=
  {| c_name := Writes;
     c_get := writes_container;
     c_set := set_writes;
     c_partition_key := w_thread_id;
     c_item_id := w_id |}.

(** An item of a container is identified by partition key and id. *)
Definition is_item {D} (C : container D) (pk id : string) (d : D) : bool :=
  String.eqb (c_partition_key C d) pk && String.eqb (c_item_id C d) id.

Definition read_item {D} (C : container D) (pk id : string) (l : list D) : option D :=
  List.find (is_item C pk id) l.

(** Upsert: replace the item with the same partition key and id where it
    stands, or add the document at the end. *)
Fixpoint upsert {D} (C : container D) (d : D) (l : list D) : list D :=
  match l with
  | [] => [d]
  | x :: l' =>
      if is_item C (c_partition_key C d) (c_item_id C d) x then d :: l'
      else x :: upsert C d l'
  end.

Definition remove {D} (C : container D) (pk id : string) (l : list D) : list D :=
  List.filter (fun d => negb (is_item C pk id d)) l.

(** [ORDER BY c.<key> DESC] on a string property. *)
Definition desc_by {D} (key : D -> string) (a b : D) : Prop :=
  Is_true (String.leb (key b) (key a)).

Definition order_by_desc {D} (key : D -> string) (l : list D) : list D :=
  merge_sort (desc_by key) l.

Global Arguments order_by_desc : simpl never.

(* ================================================================= *)
(** ** The state-and-exception monad of the asynchronous methods *)

Definition M (A : Type) : Type := state -> result A * state.

Definition ret {A} (a : A) : M A := fun s => (Ok a, s).

Definition raise {A} (e : exn) : M A := fun s => (Raise e, s).

Definition bind {A B} (m : M A) (k : A -> M B) : M B :=
  fun s =>
    match m s with
    | (Ok a, s') => k a s'
    | (Raise e, s') => (Raise e, s')
    end.

(** [try: m except Exception as e: handler e] *)
Definition try_except {A} (m : M A) (handler : exn -> M A) : M A :=
  fun s =>
    match m s with
    | (Ok a, s') => (Ok a, s')
    | (Raise e, s') => handler e s'
    end.

Definition lift {A} (r : result A) : M A := fun s => (r, s).

(** A computation that only reads the state. *)
Definition reads {A} (f : state -> result A) : M A := fun s => (f s, s).

Notation "'let!' x ':=' m 'in' k" := (bind m (fun x => k))
  (at level 10, x pattern, m at level 100, k at level 200).

(** [for x in l: body x] *)
Fixpoint for_each {A} (l : list A) (body : A -> M unit) : M unit :=
  match l with
  | [] => ret tt
  | x :: l' => let! _ := body x in for_each l' body
  end.

Definition logger (r : log_record) : M unit := fun s => (Ok tt, add_log r s).

(** [container.query_items(query, parameters)] with the WHERE clause as a
    predicate; the documents come in storage order. *)
Definition query_items {D} (C : container D) (where_ : D -> bool) (s : state)
  : result (list D) :=
  if unavailable s (QueryItems (c_name C)) then Raise CosmosHttpResponseError
  else Ok (List.filter where_ (c_get C s)).

(** [container.query_items(query)] for a query text that compares a
    property with a parameter that is not supplied: where the service
    accepts the text, the comparison is undefined for every document. *)
Definition query_items_unbound {D} (C : container D) (s : state) : result (list D) :=
  if unavailable s (QueryItems (c_name C)) || rejects_unbound_parameter s
  then Raise CosmosHttpResponseError
  else Ok [].

Definition upsert_item {D} (C : container D) (d : D) : M unit :=
  fun s =>
    if unavailable s (UpsertItem (c_name C) (c_partition_key C d) (c_item_id C d))
    then (Raise CosmosHttpResponseError, s)
    else (Ok tt, c_set C (upsert C d (c_get C s)) s).

Definition delete_item {D} (C : container D) (item partition_key : string) : M unit :=
  fun s =>
    if unavailable s (DeleteItem (c_name C) partition_key item)
    then (Raise CosmosHttpResponseError, s)
    else
      match read_item C partition_key item (c_get C s) with
      | None => (Raise CosmosResourceNotFoundError, s)
      | Some _ => (Ok tt, c_set C (remove C partition_key item (c_get C s)) s)
      end.

(* ================================================================= *)
(** ** Configs, checkpoints and checkpoint tuples *)

(** A [RunnableConfig]: the [configurable] mapping, when the key is there.
    Its values (thread, namespace, checkpoint and user ids) are strings. *)
Record RunnableConfig := { configurable : option (gmap string string) }.

(** The config [{"configurable": {"thread_id": .., "checkpoint_ns": ..,
    "checkpoint_id": ..}}] the store builds. *)
Definition checkpoint_config (thread_id checkpoint_ns checkpoint_id : string)
  : RunnableConfig :=
  {| configurable :=
       Some (<["thread_id" := thread_id]>
             (<["checkpoint_ns" := checkpoint_ns]>
              (<["checkpoint_id" := checkpoint_id]> ∅))) |}.

(** [assert "configurable" in config] *)
Definition assert_configurable (config : RunnableConfig)
  : result (gmap string string) :=
  match configurable config with
  | Some c => Ok c
  | None => Raise AssertionError
  end.

(** [config["configurable"]] *)
Definition config_configurable (config : RunnableConfig)
  : result (gmap string string) :=
  match configurable config with
  | Some c => Ok c
  | None => Raise (KeyError "configurable")
  end.

(** [d[k]] *)
Definition subscript (d : gmap string string) (k : string) : result string :=
  match d !! k with
  | Some v => Ok v
  | None => Raise (KeyError k)
  end.

(** LangGraph's [get_checkpoint_id], applied to the [configurable]
    mapping: the value under ["checkpoint_id"], if any. *)
Definition get_checkpoint_id (c : gmap string string) : option string :=
  c !! "checkpoint_id".

(** A LangGraph [Checkpoint] (a typed dict): its [id], its
    [channel_values] when present, and its other entries. *)
Record Checkpoint := {
  cp_id : string;
  cp_channel_values : option dict;
  cp_other : dict }.

(** The checkpoint as the Python value handed to the serializer. *)
Definition checkpoint_value (checkpoint : Checkpoint) : pyval :=
  PDict (("id", PStr (cp_id checkpoint))
         :: match cp_channel_values checkpoint with
            | Some cv => [("channel_values", PDict cv)]
            | None => []
            end
         ++ cp_other checkpoint).

Definition pending_write : Type := string * string * pyval.

Record CheckpointTuple := {
  ct_config : RunnableConfig;
  ct_checkpoint : pyval;
  ct_metadata : pyval;
  ct_parent_config : option RunnableConfig;
  ct_pending_writes : option (list pending_write) }.

(** One entry of [get_conversations_by_user]. *)
Record message_preview := {
  mp_role : pyval;
  mp_content : pyval;
  mp_timestamp : string }.

Record conversation_summary := {
  cs_thread_id : string;
  cs_user_id : string;
  cs_last_updated : datetime;
  cs_message_count : nat;
  cs_first_message_preview : option message_preview }.

(** The pluggable serializer [self.serde]; byte strings are strings. *)
Record SerializerProtocol := {
  serde_dumps_typed : pyval -> result (string * string);
  serde_loads_typed : string * string -> result pyval;
  serde_dumps : pyval -> result string;
  serde_loads : string -> result pyval }.

(** [base64.b64encode] and [base64.b64decode]. *)
Record Base64 := {
  b64encode : string -> string;
  b64decode : string -> result string }.

(** The ids of the stored documents (the f-strings of [aput] and
    [aput_writes]). *)
Definition checkpoint_doc_id (thread_id checkpoint_ns checkpoint_id : string) : string :=
  thread_id +:+ "_" +:+ checkpoint_ns +:+ "_" +:+ checkpoint_id.

Definition write_doc_id (thread_id checkpoint_ns checkpoint_id task_id : string)
  (idx : nat) : string :=
  thread_id +:+ "_" +:+ checkpoint_ns +:+ "_" +:+ checkpoint_id
    +:+ "_" +:+ task_id +:+ "_" +:+ pretty idx.

(** [content[:100] + "..." if len(content) > 100 else content] on the
    [content] of a stored message. *)
Definition preview_content (content : pyval) : result pyval :=
  match content with
  | PStr s =>
      if 100 <? str_len s
      then Ok (PStr (str_take 100 s +:+ "..."))
      else Ok content
  | PList l => if 100 <? length l then Raise TypeError else Ok content
  | PTuple l => if 100 <? length l then Raise TypeError else Ok content
  | PDict d => if 100 <? length d then Raise TypeError else Ok content
  | _ => Raise TypeError
  end.

(* ================================================================= *)
(** ** Sample collaborators and data (used by the closed examples) *)

(** A parser that accepts every text as the datetime printing it. *)
Definition sample_fromisoformat (s : string) : option datetime :=
  Some (mk_datetime s).

(** A toy serializer: it keeps a string, a checkpoint that holds only an
    id, and a metadata dict that holds only its [source]; every other
    value is written as an opaque blob that loads back as [None]. *)
Definition sample_serde : SerializerProtocol :=
  {| serde_dumps_typed := fun v =>
       match v with
       | PStr s => Ok ("str", s)
       | PDict [("id", PStr i)] => Ok ("checkpoint", i)
       | _ => Ok ("opaque", "")
       end;
     serde_loads_typed := fun data =>
       if String.eqb data.1 "str" then Ok (PStr data.2)
       else if String.eqb data.1 "checkpoint" then Ok (PDict [("id", PStr data.2)])
       else if String.eqb data.1 "opaque" then Ok PNone
       else Raise SerdeError;
     serde_dumps := fun v =>
       match v with
       | PDict [("source", PStr src)] => Ok src
       | _ => Ok ""
       end;
     serde_loads := fun raw => Ok (PDict [("source", PStr raw)]) |}.

(** A stand-in for base64: the text behind a fixed prefix. *)
Definition sample_base64 : Base64 :=
  {| b64encode := fun raw => String "=" raw;
     b64decode := fun text =>
       match text with
       | String "=" raw => Ok raw
       | _ => Raise BinasciiError
       end |}.

Definition sample_checkpoint_doc (checkpoint_id : string) (parent : option string)
  : checkpoint_doc :=
  {| ck_id := checkpoint_doc_id "t1" "" checkpoint_id;
     ck_parent_checkpoint_id := parent;
     ck_type := "checkpoint";
     ck_checkpoint := String "=" checkpoint_id;
     ck_metadata := "=loop";
     ck_thread_id := "t1";
     ck_checkpoint_ns := "";
     ck_checkpoint_id := checkpoint_id |}.

(** A database that answers every request and holds nothing. *)
Definition empty_state : state :=
  {| conversations_container := [];
     checkpoints_container := [];
     writes_container := [];
     unavailable := fun _ => false;
     rejects_unbound_parameter := false;
     log := [] |}.

(** Thread ["t1"] with checkpoint [c1] and its child [c2]. *)
Definition sample_state : state :=
  set_checkpoints [sample_checkpoint_doc "c1" None;
                   sample_checkpoint_doc "c2" (Some "c1")] empty_state.

(** [{"configurable": {"thread_id": thread_id}}] *)
Definition thread_config (thread_id : string) : RunnableConfig :=
  {| configurable := Some {["thread_id" := thread_id]} |}.

(** The config of an identified session:
    [{"configurable": {"thread_id": thread_id, "user_id": user_id}}]. *)
Definition session_config (thread_id user_id : string) : RunnableConfig :=
  {| configurable := Some (<["thread_id" := thread_id]> {["user_id" := user_id]}) |}.

(** The config of an identified session as the execution engine passes
    it to the saver, with the default namespace. *)
Definition engine_config (thread_id user_id : string) : RunnableConfig :=
  {| configurable :=
       Some (<["thread_id" := thread_id]>
             (<["checkpoint_ns" := ""]> {["user_id" := user_id]})) |}.

(** A checkpoint that holds only its id, and one that carries messages. *)
Definition bare_checkpoint (checkpoint_id : string) : Checkpoint :=
  {| cp_id := checkpoint_id; cp_channel_values := None; cp_other := [] |}.

Definition chat_checkpoint (checkpoint_id : string) (messages : list pyval) : Checkpoint :=
  {| cp_id := checkpoint_id;
     cp_channel_values := Some [("messages", PList messages)];
     cp_other := [] |}.

Definition loop_metadata : pyval := PDict [("source", PStr "loop")].

(** Thread ["t1"] of user ["alice"]: the sample checkpoints and the
    conversation document written with the second one. *)
Definition sample_conversation : conversation_doc :=
  {| conv_id := "t1";
     conv_userId := "alice";
     conv_lastUpdated := "2024-05-01T10:00:00";
     conv_messages :=
       PList [PDict [("_type", PStr "HumanMessage"); ("content", PStr "Hi");
                     ("type", PStr "human"); ("additional_kwargs", PDict []);
                     ("response_metadata", PDict []); ("id", PNone)]];
     conv_checkpointId := "c2";
     conv_metadata := loop_metadata |}.

Definition sample_directory_state : state :=
  set_conversations [sample_conversation] sample_state.


(** A checkpoint of thread ["t1"] whose stored payload is not base64. *)
Definition damaged_checkpoint_doc (checkpoint_id : string) : checkpoint_doc :=
  {| ck_id := checkpoint_doc_id "t1" "" checkpoint_id;
     ck_parent_checkpoint_id := None;
     ck_type := "checkpoint";
     ck_checkpoint := "not base64";
     ck_metadata := "=loop";
     ck_thread_id := "t1";
     ck_checkpoint_ns := "";
     ck_checkpoint_id := checkpoint_id |}.

(** Thread ["t1"] with the checkpoints [c1] and [c2] and a newer one,
    [c3], that cannot be read. *)
Definition damaged_state : state :=
  set_checkpoints [sample_checkpoint_doc "c1" None;
                   sample_checkpoint_doc "c2" (Some "c1");
                   damaged_checkpoint_doc "c3"] empty_state.

(** The service with one kind of request failing. *)
Definition failing (down : cosmos_op -> bool) (s : state) : state :=
  {| conversations_container := conversations_container s;
     checkpoints_container := checkpoints_container s;
     writes_container := writes_container s;
     unavailable := down;
     rejects_unbound_parameter := rejects_unbound_parameter s;
     log := log s |}.

Definition conversation_upserts (op : cosmos_op) : bool :=
  match op with UpsertItem Conversations _ _ => true | _ => false end.

Definition checkpoint_queries (op : cosmos_op) : bool :=
  match op with QueryItems Checkpoints => true | _ => false end.

Definition conversation_queries (op : cosmos_op) : bool :=
  match op with QueryItems Conversations => true | _ => false end.

(** A second, older conversation document of ["alice"], on thread
    ["t0"], and the directory that holds both. *)
Definition older_conversation : conversation_doc :=
  {| conv_id := "t0";
     conv_userId := "alice";
     conv_lastUpdated := "2024-04-30T08:00:00";
     conv_messages := PList [];
     conv_checkpointId := "c0";
     conv_metadata := loop_metadata |}.

Definition duplicated_directory_state : state :=
  set_conversations [older_conversation; sample_conversation] sample_state.

(** A serializer like the sample one that refuses [None]. *)
Definition picky_serde : SerializerProtocol :=
  {| serde_dumps_typed := fun v =>
       match v with
       | PNone => Raise SerdeError
       | _ => serde_dumps_typed sample_serde v
       end;
     serde_loads_typed := serde_loads_typed sample_serde;
     serde_dumps := serde_dumps sample_serde;
     serde_loads := serde_loads sample_serde |}.

(** The two bytes of the UTF-8 encoding of U+00E9 (e with acute accent):
    one character. *)
Definition e_acute : string := String "195" (String "169" EmptyString).

(** [c * n] *)
Definition repeated (n : nat) (c : string) : string := String.concat "" (replicate n c).
Section CheckpointStore.

Set Default Proof Using "Type".

(** [datetime.fromisoformat]: [None] stands for [ValueError]. *)
Variable fromisoformat : string -> option datetime.

(** [deserialize_from_cosmosdb] (utils.py, lines 173-212).  The message
    constructor is called with the four keyword arguments the code passes,
    so the message it builds has no further attribute of its own;
    whatever validation the message class itself performs is outside the
    repository. *)
Fixpoint deserialize_from_cosmosdb (obj : pyval) : pyval :=
  match obj with
  | PDict items =>
      match dict_get "_type" items with
      | Some obj_type =>
          match message_class_of_tag obj_type with
          | Some (class_name, type_) =>
              PMessage class_name type_
                (default (PStr "") (dict_get "content" items))
                (Some (default (PDict []) (dict_get "additional_kwargs" items)))
                (Some (default (PDict []) (dict_get "response_metadata" items)))
                (Some (default PNone (dict_get "id" items)))
                []
          | None =>
              PDict ((fix comprehension (l : dict) : dict :=
                        match l with
                        | [] => []
                        | kv :: l' =>
                            if negb (String.eqb kv.1 "_type")
                            then (kv.1, deserialize_from_cosmosdb kv.2) :: comprehension l'
                            else comprehension l'
                        end) items)
          end
      | None =>
          PDict (map (fun kv => (kv.1, deserialize_from_cosmosdb kv.2)) items)
      end
  | PList items => PList (map deserialize_from_cosmosdb items)
  | PStr s =>
      if looks_like_iso s then
        match fromisoformat (replace_Z s) with
        | Some d => PDatetime d
        | None => obj
        end
      else obj
  | _ => obj
  end.


(* ================================================================= *)
(** ** AsyncCosmosDBCheckpointSaver *)

(** The pluggable serializer [self.serde] and the [base64] module. *)
Variable serde : SerializerProtocol.
Variable base64 : Base64.

(** *** Typed codec (utils.py, lines 278-331) *)

Definition dumps_typed (obj : pyval) : result (string * string) :=
  match serde_dumps_typed serde obj with
  | Ok (type_, serialized_) => Ok (type_, b64encode base64 serialized_)
  | Raise e => Raise (ValueError "Failed to serialize object: " (Some e))
  end.

Definition loads_typed (data : string * string) : result pyval :=
  match
    (let? raw := b64decode base64 data.2 in
     serde_loads_typed serde (data.1, raw))
  with
  | Ok v => Ok v
  | Raise e => Raise (ValueError "Failed to deserialize data: " (Some e))
  end.

Definition dumps (obj : pyval) : result string :=
  match serde_dumps serde obj with
  | Ok serialized_ => Ok (b64encode base64 serialized_)
  | Raise e => Raise (ValueError "Failed to serialize object: " (Some e))
  end.

Definition loads (data : string) : result pyval :=
  match (let? raw := b64decode base64 data in serde_loads serde raw) with
  | Ok v => Ok v
  | Raise e => Raise (ValueError "Failed to deserialize data: " (Some e))
  end.

(** *** aget_tuple (utils.py, lines 333-421) *)

Definition parent_config (thread_id checkpoint_ns : string) (doc : checkpoint_doc)
  : option RunnableConfig :=
  if opt_truthy (ck_parent_checkpoint_id doc)
  then Some (checkpoint_config thread_id checkpoint_ns
               (default "" (ck_parent_checkpoint_id doc)))
  else None.

Definition load_pending_write (write_doc_ : write_doc) : result pending_write :=
  let? value := loads_typed (w_type write_doc_, w_value write_doc_) in
  Ok (w_task_id write_doc_, w_channel write_doc_, value).

(** The body of the [try] block. *)
Definition aget_tuple_try (config : RunnableConfig) (s : state)
  : result (option CheckpointTuple) :=
  let? c := assert_configurable config in
  let? thread_id := subscript c "thread_id" in
  let checkpoint_ns := default "" (c !! "checkpoint_ns") in
  let? result_ :=
    (if opt_truthy (get_checkpoint_id c) then
       let checkpoint_id := default "" (get_checkpoint_id c) in
       query_items checkpoints
         (fun d => String.eqb (ck_thread_id d) thread_id
                   && String.eqb (ck_checkpoint_ns d) checkpoint_ns
                   && String.eqb (ck_checkpoint_id d) checkpoint_id) s
     else
       let? rows :=
         query_items checkpoints
           (fun d => String.eqb (ck_thread_id d) thread_id
                     && String.eqb (ck_checkpoint_ns d) checkpoint_ns) s in
       Ok (order_by_desc ck_checkpoint_id rows)) in
  match result_ with
  | [] => Ok None
  | doc :: _ =>
      let? checkpoint := loads_typed (ck_type doc, ck_checkpoint doc) in
      let? serialized_writes :=
        query_items writes
          (fun w => String.eqb (w_thread_id w) thread_id
                    && String.eqb (w_checkpoint_ns w) checkpoint_ns
                    && String.eqb (w_checkpoint_id w) (ck_checkpoint_id doc)) s in
      let? pending_writes := result_mapM load_pending_write serialized_writes in
      let? metadata := loads (ck_metadata doc) in
      Ok (Some {| ct_config :=
                    checkpoint_config thread_id checkpoint_ns (ck_checkpoint_id doc);
                  ct_checkpoint := checkpoint;
                  ct_metadata := metadata;
                  ct_parent_config := parent_config thread_id checkpoint_ns doc;
                  ct_pending_writes := Some pending_writes |})
  end.

(** [except Exception: return None]; the [print] goes to standard
    output and is not part of the state. *)
Definition aget_tuple (config : RunnableConfig) (s : state) : option CheckpointTuple :=
  match aget_tuple_try config s with
  | Ok r => r
  | Raise _ => None
  end.

(** *** alist (utils.py, lines 423-513) *)

(** The query [alist] builds.  A [filter] entry adds
    [AND c.metadata.<key> = <value>]; the stored [metadata] is the base64
    text [dumps] returns, which has no properties, so with a non-empty
    filter no document qualifies. *)
Definition alist_query (config : option RunnableConfig) (filter : option dict)
  (before : option RunnableConfig) (limit : option nat) (s : state)
  : result (list checkpoint_doc) :=
  let? config :=
    match config with
    | Some config => Ok config
    | None => Raise (ValueError "Config is required" None)
    end in
  let? c :=
    match configurable config with
    | Some c => Ok c
    | None => Raise (ValueError "Config.configurable is required" None)
    end in
  let? thread_id := subscript c "thread_id" in
  let checkpoint_ns := default "" (c !! "checkpoint_ns") in
  let filtered := match filter with Some (_ :: _) => true | _ => false end in
  let? before_id :=
    match before with
    | None => Ok None
    | Some before =>
        let? bc := assert_configurable before in
        let? checkpoint_id := subscript bc "checkpoint_id" in
        Ok (Some checkpoint_id)
    end in
  let? rows :=
    query_items checkpoints
      (fun d => String.eqb (ck_thread_id d) thread_id
                && String.eqb (ck_checkpoint_ns d) checkpoint_ns
                && negb filtered
                && match before_id with
                   | Some b => String.ltb (ck_checkpoint_id d) b
                   | None => true
                   end) s in
  let ordered := order_by_desc ck_checkpoint_id rows in
  Ok (match limit with Some n => take n ordered | None => ordered end).

Definition alist_tuple (doc : checkpoint_doc) : result CheckpointTuple :=
  let? checkpoint := loads_typed (ck_type doc, ck_checkpoint doc) in
  let? metadata := loads (ck_metadata doc) in
  Ok {| ct_config :=
          checkpoint_config (ck_thread_id doc) (ck_checkpoint_ns doc)
            (ck_checkpoint_id doc);
        ct_checkpoint := checkpoint;
        ct_metadata := metadata;
        ct_parent_config :=
          parent_config (ck_thread_id doc) (ck_checkpoint_ns doc) doc;
        ct_pending_writes := None |}.

(** The tuples the generator yields, in order; a document that fails to
    load is skipped, a failing query ends the listing. *)
Definition alist (config : option RunnableConfig) (filter : option dict)
  (before : option RunnableConfig) (limit : option nat) (s : state)
  : list CheckpointTuple :=
  match alist_query config filter before limit s with
  | Ok docs =>
      omap (fun doc => match alist_tuple doc with
                       | Ok t => Some t
                       | Raise _ => None
                       end) docs
  | Raise _ => []
  end.

(** *** _update_conversation_document (utils.py, lines 610-652) *)

Definition checkpoint_messages (checkpoint : Checkpoint) : pyval :=
  match cp_channel_values checkpoint with
  | Some channel_values =>
      match dict_get "messages" channel_values with
      | Some messages => messages
      | None => PList []
      end
  | None => PList []
  end.

(** [now] is the value [datetime.utcnow()] takes in this call. *)
Definition _update_conversation_document (config : RunnableConfig)
  (checkpoint : Checkpoint) (metadata : pyval) (now : datetime) : M unit :=
  let! c := lift (config_configurable config) in
  let! thread_id := lift (subscript c "thread_id") in
  let user_id := c !! "user_id" in
  if negb (opt_truthy user_id) then
    logger (LogWarning ("No user_id found in config for thread_id: " +:+ thread_id))
  else
    let user_id := default "" user_id in
    let! _ := logger (LogInfo ("Updating conversation document for user_id: "
                       +:+ user_id +:+ ", thread_id: " +:+ thread_id)) in
    let messages := checkpoint_messages checkpoint in
    let serialized_messages := serialize_for_cosmosdb messages in
    let conversation_doc_ :=
      {| conv_id := thread_id;
         conv_userId := user_id;
         conv_lastUpdated := isoformat now;
         conv_messages := serialized_messages;
         conv_checkpointId := cp_id checkpoint;
         conv_metadata := serialize_for_cosmosdb metadata |} in
    try_except
      (let! _ := upsert_item conversations conversation_doc_ in
       logger (LogInfo ("Successfully saved conversation document for user_id: "
                 +:+ user_id)))
      (fun e =>
         let! _ := logger (LogError "Error saving conversation document: " e) in
         raise e).

(** *** aput (utils.py, lines 515-565) *)

Definition aput_try (config : RunnableConfig) (checkpoint : Checkpoint)
  (metadata : pyval) (now : datetime) : M RunnableConfig :=
  let! c := lift (assert_configurable config) in
  let! thread_id := lift (subscript c "thread_id") in
  let! checkpoint_ns := lift (subscript c "checkpoint_ns") in
  let checkpoint_id := cp_id checkpoint in
  let! (type_, serialized_checkpoint) :=
    lift (dumps_typed (checkpoint_value checkpoint)) in
  let! serialized_metadata := lift (dumps metadata) in
  let doc :=
    {| ck_id := checkpoint_doc_id thread_id checkpoint_ns checkpoint_id;
       ck_parent_checkpoint_id := c !! "checkpoint_id";
       ck_type := type_;
       ck_checkpoint := serialized_checkpoint;
       ck_metadata := serialized_metadata;
       ck_thread_id := thread_id;
       ck_checkpoint_ns := checkpoint_ns;
       ck_checkpoint_id := checkpoint_id |} in
  let! _ := upsert_item checkpoints doc in
  let! _ := _update_conversation_document config checkpoint metadata now in
  ret (checkpoint_config thread_id checkpoint_ns checkpoint_id).

(** [new_versions] is accepted and not used. *)
Definition aput (config : RunnableConfig) (checkpoint : Checkpoint)
  (metadata : pyval) (new_versions : pyval) (now : datetime) : M RunnableConfig :=
  try_except (aput_try config checkpoint metadata now)
    (fun e => raise (RuntimeError "Failed to save checkpoint: " e)).

(** *** aput_writes (utils.py, lines 567-607) *)

(** The loop [for idx, (channel, value) in enumerate(writes)], from
    position [idx] on. *)
Fixpoint store_writes (thread_id checkpoint_ns checkpoint_id task_id : string)
  (idx : nat) (writes_ : list (string * pyval)) : M unit :=
  match writes_ with
  | [] => ret tt
  | (channel, value) :: rest =>
      let! _ :=
        try_except
          (let! (type_, serialized_value) := lift (dumps_typed value) in
           let doc :=
             {| w_id := write_doc_id thread_id checkpoint_ns checkpoint_id task_id idx;
                w_thread_id := thread_id;
                w_checkpoint_ns := checkpoint_ns;
                w_checkpoint_id := checkpoint_id;
                w_task_id := task_id;
                w_idx := idx;
                w_channel := channel;
                w_type := type_;
                w_value := serialized_value |} in
           upsert_item writes doc)
          (fun _ => ret tt) in
      store_writes thread_id checkpoint_ns checkpoint_id task_id (S idx) rest
  end.

Definition aput_writes_try (config : RunnableConfig)
  (writes_ : list (string * pyval)) (task_id : string) : M unit :=
  let! c := lift (assert_configurable config) in
  let! thread_id := lift (subscript c "thread_id") in
  let! checkpoint_ns := lift (subscript c "checkpoint_ns") in
  let! checkpoint_id := lift (subscript c "checkpoint_id") in
  store_writes thread_id checkpoint_ns checkpoint_id task_id 0 writes_.

Definition aput_writes (config : RunnableConfig)
  (writes_ : list (string * pyval)) (task_id : string) : M unit :=
  try_except (aput_writes_try config writes_ task_id)
    (fun e => raise (RuntimeError "Failed to store writes: " e)).

(** *** get_conversations_by_user (utils.py, lines 654-689) *)

Definition conversation_summary_of (doc : conversation_doc)
  : result conversation_summary :=
  let messages := conv_messages doc in
  let message_count := match messages with PList l => length l | _ => 0 end in
  let? first_message_preview :=
    match messages with
    | PList (PDict first_msg :: _) =>
        let content := default (PStr "") (dict_get "content" first_msg) in
        let? shown := preview_content content in
        Ok (Some {| mp_role := default (PStr "") (dict_get "type" first_msg);
                    mp_content := shown;
                    mp_timestamp := conv_lastUpdated doc |})
    | _ => Ok None
    end in
  let? last_updated :=
    match fromisoformat (conv_lastUpdated doc) with
    | Some d => Ok d
    | None => Raise (ValueError "Invalid isoformat string" None)
    end in
  Ok {| cs_thread_id := conv_id doc;
        cs_user_id := conv_userId doc;
        cs_last_updated := last_updated;
        cs_message_count := message_count;
        cs_first_message_preview := first_message_preview |}.

(** [limit] is the [int] of the signature (default 50). *)
Definition get_conversations_by_user (user_id : string) (limit : nat) (s : state)
  : result (list conversation_summary) :=
  let? rows :=
    query_items conversations (fun d => String.eqb (conv_userId d) user_id) s in
  result_mapM conversation_summary_of
    (take limit (order_by_desc conv_lastUpdated rows)).

(** *** get_or_create_user_conversation (utils.py, lines 691-703) *)

(** [uuid4] is the text [str(uuid.uuid4())] takes in this call.  The
    method only queries the conversations: it has no state to return. *)
Definition get_or_create_user_conversation (user_id : string) (uuid4 : string)
  (s : state) : result string :=
  let? rows :=
    query_items conversations (fun d => String.eqb (conv_userId d) user_id) s in
  match take 1 (order_by_desc conv_lastUpdated rows) with
  | doc :: _ => Ok (conv_id doc)
  | [] => Ok uuid4
  end.

(** *** cleanup_old_conversations (utils.py, lines 705-718) *)

Definition cleanup_old_conversations (user_id : string) : M unit :=
  let! found :=
    reads (fun s =>
      let? rows :=
        query_items conversations (fun d => String.eqb (conv_userId d) user_id) s in
      Ok (order_by_desc conv_lastUpdated rows)) in
  if length found <=? 1 then ret tt
  else
    for_each (drop 1 found)
      (fun conv => delete_item conversations (conv_id conv) (conv_userId conv)).

(** *** delete_conversation (utils.py, lines 720-749) *)

(** The body of the [try] block.  The third query reuses the text of the
    second one and passes no parameters. *)
Definition delete_conversation_try (thread_id : string) : M bool :=
  let! found :=
    reads (query_items conversations (fun d => String.eqb (conv_id d) thread_id)) in
  let! _ :=
    match found with
    | conv :: _ => delete_item conversations thread_id (conv_userId conv)
    | [] => ret tt
    end in
  let! found_checkpoints :=
    reads (query_items checkpoints (fun d => String.eqb (ck_thread_id d) thread_id)) in
  let! _ :=
    for_each found_checkpoints
      (fun checkpoint => delete_item checkpoints (ck_id checkpoint) (ck_thread_id checkpoint)) in
  let! found_writes := reads (query_items_unbound writes) in
  let! _ :=
    for_each found_writes
      (fun write => delete_item writes (w_id write) (w_thread_id write)) in
  ret true.

Definition delete_conversation (thread_id : string) : M bool :=
  try_except (delete_conversation_try thread_id)
    (fun e =>
       let! _ := logger (LogError ("Error deleting conversation " +:+ thread_id +:+ ": ") e) in
       ret false).


(* ================================================================= *)
(** ** Predicates used in the statements *)

(** A tree built only from the constructs the codec recognises: the three
    message classes (with their attributes present and the [type] their
    class fixes), dicts, lists, strings, numbers, booleans and [None]. *)
Fixpoint plain_tree (x : pyval) : bool :=
  match x with
  | PNone | PBool _ | PInt _ | PFloat _ | PStr _ => true
  | PList items => forallb plain_tree items
  | PDict items => forallb (fun kv => plain_tree kv.2) items
  | PMessage class_name type_ _ (Some _) (Some _) (Some _) _ =>
      match message_type_of_class class_name with
      | Some t => String.eqb type_ t
      | None => false
      end
  | _ => false
  end.

(** A string the decoder leaves alone: it fails the ISO-8601 test, or the
    parser rejects it. *)
Definition stable_string (s : string) : bool :=
  negb (looks_like_iso s)
  || match fromisoformat (replace_Z s) with Some _ => false | None => true end.

(** A plain tree in which, outside message attributes, no dict has a
    [_type] key and every string is stable. *)
Fixpoint stable_tree (x : pyval) : bool :=
  match x with
  | PNone | PBool _ | PInt _ | PFloat _ => true
  | PStr s => stable_string s
  | PList items => forallb stable_tree items
  | PDict items =>
      negb (dict_contains "_type" items)
      && forallb (fun kv => stable_tree kv.2) items
  | PMessage class_name type_ _ (Some _) (Some _) (Some _) _ =>
      match message_type_of_class class_name with
      | Some t => String.eqb type_ t
      | None => false
      end
  | _ => false
  end.

(** [x] as the codec keeps it: every message of the tree reduced to its
    class, type, content, additional_kwargs, response_metadata and id.
    The attributes of a message are not descended into, as in the codec. *)
Fixpoint kept_fields (x : pyval) : pyval :=
  match x with
  | PList items => PList (map kept_fields items)
  | PDict items => PDict (map (fun kv => (kv.1, kept_fields kv.2)) items)
  | PMessage class_name type_ content additional_kwargs response_metadata id _ =>
      PMessage class_name type_ content additional_kwargs response_metadata id []
  | _ => x
  end.

(** No message of the tree carries a further attribute. *)
Fixpoint bare_messages (x : pyval) : bool :=
  match x with
  | PList items => forallb bare_messages items
  | PDict items => forallb (fun kv => bare_messages kv.2) items
  | PMessage _ _ _ _ _ _ others => match others with [] => true | _ :: _ => false end
  | _ => true
  end.

(** The stored checkpoints of one thread and namespace. *)
Definition in_scope (s : state) (thread_id checkpoint_ns : string)
  (d : checkpoint_doc) : Prop :=
  d ∈ checkpoints_container s
  /\ ck_thread_id d = thread_id /\ ck_checkpoint_ns d = checkpoint_ns.

(** The checkpoint id a config supplies: the value [get_checkpoint_id]
    returns when it is truthy. *)
Definition supplied_checkpoint_id (c : gmap string string) : option string :=
  if opt_truthy (get_checkpoint_id c) then get_checkpoint_id c else None.

(** The checkpoints a lookup may return: those in scope, with the
    supplied id when there is one. *)
Definition candidate (s : state) (thread_id checkpoint_ns : string)
  (supplied : option string) (d : checkpoint_doc) : Prop :=
  in_scope s thread_id checkpoint_ns d
  /\ match supplied with
     | Some checkpoint_id => ck_checkpoint_id d = checkpoint_id
     | None => True
     end.

(** The pending-write documents of one checkpoint, in storage order. *)
Definition writes_of (s : state) (thread_id checkpoint_ns checkpoint_id : string)
  : list write_doc :=
  List.filter
    (fun w => String.eqb (w_thread_id w) thread_id
              && String.eqb (w_checkpoint_ns w) checkpoint_ns
              && String.eqb (w_checkpoint_id w) checkpoint_id)
    (writes_container s).

(** [tup] is the tuple [aget_tuple] builds from the document [doc]. *)
Definition tuple_of_doc (s : state) (thread_id checkpoint_ns : string)
  (doc : checkpoint_doc) (tup : CheckpointTuple) : Prop :=
  ct_config tup = checkpoint_config thread_id checkpoint_ns (ck_checkpoint_id doc)
  /\ loads_typed (ck_type doc, ck_checkpoint doc) = Ok (ct_checkpoint tup)
  /\ loads (ck_metadata doc) = Ok (ct_metadata tup)
  /\ ct_parent_config tup = parent_config thread_id checkpoint_ns doc
  /\ exists pending,
       ct_pending_writes tup = Some pending
       /\ result_mapM load_pending_write
            (writes_of s thread_id checkpoint_ns (ck_checkpoint_id doc))
          = Ok pending.

(** Every stored checkpoint and pending write can be loaded back. *)
Definition loadable (s : state) : Prop :=
  (forall d, d ∈ checkpoints_container s ->
     (exists v, loads_typed (ck_type d, ck_checkpoint d) = Ok v)
     /\ (exists m, loads (ck_metadata d) = Ok m))
  /\ (forall w, w ∈ writes_container s ->
        exists v, loads_typed (w_type w, w_value w) = Ok v).

(** The checkpoint document [aput] writes. *)
Definition aput_doc (c : gmap string string) (thread_id checkpoint_ns : string)
  (checkpoint : Checkpoint) (type_ serialized_checkpoint serialized_metadata : string)
  : checkpoint_doc :=
  {| ck_id := checkpoint_doc_id thread_id checkpoint_ns (cp_id checkpoint);
     ck_parent_checkpoint_id := c !! "checkpoint_id";
     ck_type := type_;
     ck_checkpoint := serialized_checkpoint;
     ck_metadata := serialized_metadata;
     ck_thread_id := thread_id;
     ck_checkpoint_ns := checkpoint_ns;
     ck_checkpoint_id := cp_id checkpoint |}.


(** A string without the character that separates the parts of a
    document id (a UUID, a decimal number). *)
Definition underscore_free (s : string) : bool := negb (contains_char "_" (chars s)).

(** What [aput_writes] reads from the config before its loop; a failure
    here is the batch-level failure. *)
Definition writes_target (config : RunnableConfig) : result (string * string * string) :=
  let? c := assert_configurable config in
  let? thread_id := subscript c "thread_id" in
  let? checkpoint_ns := subscript c "checkpoint_ns" in
  let? checkpoint_id := subscript c "checkpoint_id" in
  Ok (thread_id, checkpoint_ns, checkpoint_id).

(** The pending-write document of [aput_writes]. *)
Definition write_doc_of (thread_id checkpoint_ns checkpoint_id task_id : string)
  (idx : nat) (channel type_ serialized_value : string) : write_doc :=
  {| w_id := write_doc_id thread_id checkpoint_ns checkpoint_id task_id idx;
     w_thread_id := thread_id;
     w_checkpoint_ns := checkpoint_ns;
     w_checkpoint_id := checkpoint_id;
     w_task_id := task_id;
     w_idx := idx;
     w_channel := channel;
     w_type := type_;
     w_value := serialized_value |}.

(** The document [aput_writes] stores for the pair at position [idx],
    when its value serializes and the service takes the upsert. *)
Definition persisted_write (s : state)
  (thread_id checkpoint_ns checkpoint_id task_id : string) (idx : nat)
  (w : string * pyval) : option write_doc :=
  match dumps_typed w.2 with
  | Ok (type_, serialized_value) =>
      if unavailable s (UpsertItem Writes thread_id
                          (write_doc_id thread_id checkpoint_ns checkpoint_id task_id idx))
      then None
      else Some (write_doc_of thread_id checkpoint_ns checkpoint_id task_id idx
                   w.1 type_ serialized_value)
  | Raise _ => None
  end.

(** Two states that differ at most in the pending writes they store. *)
Definition same_but_writes (s s' : state) : Prop :=
  conversations_container s' = conversations_container s
  /\ checkpoints_container s' = checkpoints_container s
  /\ unavailable s' = unavailable s
  /\ rejects_unbound_parameter s' = rejects_unbound_parameter s
  /\ log s' = log s.

(** Every stored checkpoint document carries the id [aput] derives from
    its thread, namespace and checkpoint id. *)
Definition ids_derived (l : list checkpoint_doc) : Prop :=
  forall d, d ∈ l ->
    ck_id d = checkpoint_doc_id (ck_thread_id d) (ck_checkpoint_ns d) (ck_checkpoint_id d).

(** The service answers every request. *)
Definition available (s : state) : Prop := forall op, unavailable s op = false.

(** The conversation document [_update_conversation_document] writes. *)
Definition conversation_doc_of (thread_id user_id : string) (checkpoint : Checkpoint)
  (metadata : pyval) (now : datetime) : conversation_doc :=
  {| conv_id := thread_id;
     conv_userId := user_id;
     conv_lastUpdated := isoformat now;
     conv_messages := serialize_for_cosmosdb (checkpoint_messages checkpoint);
     conv_checkpointId := cp_id checkpoint;
     conv_metadata := serialize_for_cosmosdb metadata |}.

(** The conversation documents of one user. *)
Definition conversations_of (s : state) (user_id : string) : list conversation_doc :=
  List.filter (fun d => String.eqb (conv_userId d) user_id) (conversations_container s).

(** The content the preview of a conversation is cut from: the
    [content] of the first stored message when that message is a dict
    (the empty text when it has no such key); no preview is built
    otherwise. *)
Definition previewed_content (messages : pyval) : option pyval :=
  match messages with
  | PList (PDict first_msg :: _) => Some (default (PStr "") (dict_get "content" first_msg))
  | _ => None
  end.

(** The contents the preview expression can cut: a text, or a list or a
    dict of at most 100 items (which it returns whole). *)
Definition sliceable (content : pyval) : bool :=
  match content with
  | PStr _ => true
  | PList items | PTuple items => length items <=? 100
  | PDict items => length items <=? 100
  | _ => false
  end.

(** The preview of the conversation document written for the messages
    [msgs] can be built, or there is none to build. *)
Definition previewable (msgs : list pyval) : bool :=
  match previewed_content (serialize_for_cosmosdb (PList msgs)) with
  | Some content => sliceable content
  | None => true
  end.

(** The partition key and id of a document, and the invariant the
    service keeps: within a container they identify one document. *)
Definition item_key {D} (C : container D) (d : D) : string * string :=
  (c_partition_key C d, c_item_id C d).

Definition unique_items {D} (C : container D) (l : list D) : Prop :=
  NoDup (map (item_key C) l).

(** What is left of a container after the documents [gone] are deleted. *)
Definition without {D} (C : container D) (gone : list D) (l : list D) : list D :=
  List.filter
    (fun x => negb (existsb (fun d => is_item C (c_partition_key C d) (c_item_id C d) x)
                      gone)) l.

(** A container's accessors read back what they store and touch nothing
    else of the service. *)
Definition lawful {D} (C : container D) : Prop :=
  (forall l s, c_get C (c_set C l s) = l)
  /\ (forall l s, unavailable (c_set C l s) = unavailable s)
  /\ (forall l1 l2 s, c_set C l2 (c_set C l1 s) = c_set C l2 s)
  /\ (forall s, c_set C (c_get C s) s = s).

(** A step of the directory's life for one user: a conversation upsert
    driven by a checkpoint of some thread, or a reconciliation. *)
Inductive directory_op :=
| Upsert (thread_id : string) (checkpoint : Checkpoint) (metadata : pyval) (now : datetime)
| Reconcile.

Definition run_op (user_id : string) (op : directory_op) : M unit :=
  match op with
  | Upsert thread_id checkpoint metadata now =>
      _update_conversation_document (session_config thread_id user_id)
        checkpoint metadata now
  | Reconcile => cleanup_old_conversations user_id
  end.

Definition run_ops (user_id : string) (ops : list directory_op) : M unit :=
  for_each ops (run_op user_id).

(** The thread id and the [lastUpdated] text of every upsert in [ops]. *)
Definition upserted (ops : list directory_op) : list (string * string) :=
  omap (fun op => match op with
                  | Upsert thread_id _ _ now => Some (thread_id, isoformat now)
                  | Reconcile => None
                  end) ops.

(** What holds of the directory of [user_id] after the steps [done]. *)
Definition directory_inv (user_id : string) (done : list directory_op) (s : state)
  : Prop :=
  available s
  /\ NoDup (map conv_id (conversations_of s user_id))
  /\ (forall d, d ∈ conversations_of s user_id ->
        (conv_id d, conv_lastUpdated d) ∈ upserted done)
  /\ (forall p, p ∈ upserted done ->
        exists d, d ∈ conversations_of s user_id
                  /\ String.leb p.2 (conv_lastUpdated d) = true).

(** A computation leaves the observation [f] of the state as it was,
    whatever it returns or raises. *)
Definition preserves {A X} (f : state -> X) (m : M A) : Prop :=
  forall s, f (m s).2 = f s.

(* ================================================================= *)
(** ** Statistics (utils.py, lines 751-779) *)

(** [container.query_items("SELECT VALUE COUNT(1) FROM c")]: one item,
    the number of documents. *)
Definition query_count {D} (C : container D) (s : state) : result (list nat) :=
  if unavailable s (QueryItems (c_name C)) then Raise CosmosHttpResponseError
  else Ok [length (c_get C s)].

(** [container.query_items("SELECT DISTINCT VALUE c.<property> FROM c")]:
    every value of the property, once. *)
Definition query_distinct {D} (C : container D) (property : D -> string) (s : state)
  : result (list string) :=
  if unavailable s (QueryItems (c_name C)) then Raise CosmosHttpResponseError
  else Ok (remove_dups (map property (c_get C s))).

(** [sorted(l)] on a list of strings. *)
Definition sorted (l : list string) : list string :=
  merge_sort (fun a b => Is_true (String.leb a b)) l.

Definition get_total_conversations : M nat :=
  try_except
    (let! result_ := reads (query_count conversations) in
     ret (match result_ with n :: _ => n | [] => 0 end))
    (fun e =>
       let! _ := logger (LogError "Error getting total conversations count: " e) in
       ret 0).

Definition get_all_unique_user_ids : M (list string) :=
  try_except
    (let! user_ids := reads (query_distinct conversations conv_userId) in
     ret (sorted user_ids))
    (fun e =>
       let! _ := logger (LogError "Error getting unique user IDs: " e) in
       ret []).

Definition get_all_unique_thread_ids : M (list string) :=
  try_except
    (let! thread_ids := reads (query_distinct conversations conv_id) in
     ret (sorted thread_ids))
    (fun e =>
       let! _ := logger (LogError "Error getting unique thread IDs: " e) in
       ret []).

(* ================================================================= *)
(** ** SessionAwareLangGraphAgent (utils.py, lines 796-924) *)

(** [_ensure_thread_id] (lines 817-862).  [uuid4] is the text
    [str(uuid.uuid4())] takes in this call (the method draws one id on
    either path).  The method stores the new [configurable] mapping in the
    config it was given and returns that config; the other keys of the
    config are not touched and not represented. *)
Definition _ensure_thread_id (config : RunnableConfig) (uuid4 : string)
  : M RunnableConfig :=
  try_except
    (let configurable_ := default ∅ (configurable config) in
     let user_id := configurable_ !! "user_id" in
     if negb (opt_truthy user_id) then
       let new_thread_id := uuid4 in
       ret {| configurable := Some (<["thread_id" := new_thread_id]> configurable_) |}
     else
       let user_id := default "" user_id in
       let! thread_id :=
         try_except
           (reads (get_or_create_user_conversation user_id uuid4))
           (fun e =>
              let! _ := logger (LogError ("Error getting/creating user conversation for user "
                                  +:+ user_id +:+ ": ") e) in
              raise e) in
       let! _ :=
         try_except
           (cleanup_old_conversations user_id)
           (fun e =>
              let! _ := logger (LogError ("Error cleaning up conversation for user "
                                  +:+ user_id +:+ ": ") e) in
              raise e) in
       ret {| configurable :=
                Some (<["user_id" := user_id]>
                      (<["thread_id" := thread_id]> configurable_)) |})
    (fun e =>
       let! _ := logger (LogError "Unexpected error: " e) in
       raise e).

(* ================================================================= *)
(** ** The HTTP routes over the saver (backend/run.py, lines 174-342) *)

(** What a route body raises: an exception of the saver, the
    [AttributeError] of a method call on a value that lacks the method,
    the [IndexError] of an empty sequence, or FastAPI's [HTTPException],
    itself an [Exception].  A detail built as [f"<text>{str(e)}"] keeps
    the fixed text and the exception [e]. *)
#[warnings="-register-all"]
Inductive raised : Type :=
| Exception (e : exn)
| AttributeError
| IndexError
| HTTPException (status_code : nat) (detail : string) (cause : option raised).

(** The records the routes send to [logger].  They are kept in a list of
    their own, beside the records of the saver in [log]: the order
    between the two is not represented. *)
Inductive route_record : Type :=
| RouteInfo (msg : string)
| RouteError (msg : string) (cause : option raised).

Record server := {
  store : state;
  route_log : list route_record }.

Inductive outcome (A : Type) : Type :=
| Responds (a : A)
| Raises (e : raised).

#[global] Arguments Responds {A} a.
#[global] Arguments Raises {A} e.

(** The monad of a route body. *)
Definition R (A : Type) : Type := server -> outcome A * server.

Definition responds {A} (a : A) : R A := fun w => (Responds a, w).

Definition raises {A} (e : raised) : R A := fun w => (Raises e, w).

Definition route_bind {A B} (m : R A) (k : A -> R B) : R B :=
  fun w =>
    match m w with
    | (Responds a, w') => k a w'
    | (Raises e, w') => (Raises e, w')
    end.

Notation "'let*' x ':=' m 'in' k" := (route_bind m (fun x => k))
  (at level 10, x pattern, m at level 100, k at level 200).

(** [try: m except ...: handler e] *)
Definition attempt {A} (m : R A) (handler : raised -> R A) : R A :=
  fun w =>
    match m w with
    | (Responds a, w') => (Responds a, w')
    | (Raises e, w') => handler e w'
    end.

Definition route_logger (r : route_record) : R unit :=
  fun w => (Responds tt, {| store := store w; route_log := route_log w ++ [r] |}).

(** [await checkpointer.<method>(...)] *)
Definition await {A} (m : M A) : R A :=
  fun w =>
    match m (store w) with
    | (Ok a, s') => (Responds a, {| store := s'; route_log := route_log w |})
    | (Raise e, s') => (Raises (Exception e), {| store := s'; route_log := route_log w |})
    end.

(** An expression that touches neither the store nor the logger. *)
Definition evaluate {A} (o : outcome A) : R A := fun w => (o, w).

(** [except Exception as e: logger.error(f"{text}{str(e)}");
    raise HTTPException(status_code=500, detail=f"{text}{str(e)}")] *)
Definition internal_error {A} (text : string) (e : raised) : R A :=
  let* _ := route_logger (RouteError text (Some e)) in
  raises (HTTPException 500 text (Some e)).

(** A server that has logged nothing yet, over the store [s]. *)
Definition fresh_server (s : state) : server := {| store := s; route_log := [] |}.

(** The response models; the values handed to them have the declared
    types, so their validation passes. *)
Record ConversationResponse := {
  cr_thread_id : string;
  cr_user_id : string;
  cr_last_updated : string;
  cr_message_count : nat;
  cr_first_message_preview : option dict }.

Record DatabaseSummaryResponse := {
  ds_total_conversations : nat;
  ds_unique_users : list string;
  ds_unique_thread_ids : list string }.

(** *** GET /conversation-by-user/{user_id} (lines 174-202) *)

(** The entry of the list comprehension for one summary;
    [first_message_preview] is the dict [get_conversations_by_user]
    built. *)
Definition conversation_response_of (conv : conversation_summary)
  : ConversationResponse :=
  {| cr_thread_id := cs_thread_id conv;
     cr_user_id := cs_user_id conv;
     cr_last_updated := isoformat (cs_last_updated conv);
     cr_message_count := cs_message_count conv;
     cr_first_message_preview :=
       match cs_first_message_preview conv with
       | Some p => Some [("role", mp_role p); ("content", mp_content p);
                         ("timestamp", PStr (mp_timestamp p))]
       | None => None
       end |}.

Definition get_user_conversations (user_id : string) (limit : nat)
  : R (list ConversationResponse) :=
  attempt
    (let* conversations_ := await (reads (get_conversations_by_user user_id limit)) in
     let* conversations_ :=
       (if 1 <? length conversations_ then
          let* _ := await (cleanup_old_conversations user_id) in
          let* _ := route_logger (RouteInfo ("Cleaning up duplicate conversations for the user: "
                                    +:+ user_id)) in
          let* conversations_ :=
            await (reads (get_conversations_by_user user_id limit)) in
          let* _ := route_logger (RouteInfo ("Fetching conversation history for user: "
                                    +:+ user_id)) in
          responds conversations_
        else responds conversations_) in
     responds (map conversation_response_of conversations_))
    (internal_error "Error retrieving conversations: ").

(** *** DELETE /conversations/{thread_id} (lines 223-250) *)

Definition delete_conversation_thread (thread_id : string)
  : R (list (string * string)) :=
  attempt
    (let* _ := route_logger (RouteInfo "deleting conversation") in
     let* items :=
       await (reads (query_items conversations
                       (fun d => String.eqb (conv_id d) thread_id))) in
     match items with
     | [] =>
         let* _ := route_logger (RouteError "Conversation not found" None) in
         raises (HTTPException 404 "Conversation not found" None)
     | doc :: _ =>
         let* deleted := await (delete_conversation (conv_id doc)) in
         if negb deleted then
           let* _ := route_logger (RouteError "Conversation not found" None) in
           raises (HTTPException 404 "Conversation not found" None)
         else responds [("message", "Conversation deleted successfully")]
     end)
    (internal_error "Error deleting conversation: ").

(** *** GET /conversation-by-id/{thread_id} (lines 273-319) *)

(** [len(x)], [if x:], [x[0]] and [x.get(k, "")] on a value read from a
    stored document, which is JSON: a number, a boolean, [None], a string,
    a list or a dict.  On a dict [x[0]] is [KeyError(0)], written with the
    text of the key. *)
Definition py_len (x : pyval) : outcome nat :=
  match x with
  | PStr s => Responds (str_len s)
  | PList l => Responds (length l)
  | PDict d => Responds (length d)
  | _ => Raises (Exception TypeError)
  end.

Definition py_truthy (x : pyval) : bool :=
  match x with
  | PStr s => str_truthy s
  | PList l => negb (Nat.eqb (length l) 0)
  | PDict d => negb (Nat.eqb (length d) 0)
  | PBool b => b
  | PInt n => negb (Z.eqb n 0)
  | PFloat bits => negb (Z.eqb (Z.land bits (Z.ones 63)) 0)
  | _ => false
  end.

Definition py_item0 (x : pyval) : outcome pyval :=
  match x with
  | PStr (String _ _ as s) => Responds (PStr (str_take 1 s))
  | PList (first :: _) => Responds first
  | PStr EmptyString | PList [] => Raises IndexError
  | PDict _ => Raises (Exception (KeyError "0"))
  | _ => Raises (Exception TypeError)
  end.

Definition py_get (x : pyval) (k : string) : outcome pyval :=
  match x with
  | PDict d => Responds (default (PStr "") (dict_get k d))
  | _ => Raises AttributeError
  end.

Definition get_conversation_by_thread (thread_id : string) : R ConversationResponse :=
  attempt
    (let* _ := route_logger (RouteInfo ("Getting conversation with thread_id: "
                              +:+ thread_id)) in
     let* items :=
       await (reads (query_items conversations
                       (fun d => String.eqb (conv_id d) thread_id))) in
     match items with
     | [] =>
         let* _ := route_logger (RouteError ("Conversation with thread_id " +:+ thread_id
                                   +:+ " not found") None) in
         raises (HTTPException 404 "Conversation not found" None)
     | doc :: _ =>
         let* message_count := evaluate (py_len (conv_messages doc)) in
         let messages := conv_messages doc in
         let* first_message_preview :=
           (if py_truthy messages then
              let* first_message := evaluate (py_item0 messages) in
              let* content := evaluate (py_get first_message "content") in
              let* preview_content_ :=
                evaluate (match preview_content content with
                          | Ok shown => Responds shown
                          | Raise e => Raises (Exception e)
                          end) in
              let* first := evaluate (py_item0 messages) in
              let* role := evaluate (py_get first "role") in
              let* timestamp := evaluate (py_get first_message "timestamp") in
              responds (Some [("role", role); ("content", preview_content_);
                              ("timestamp", timestamp)])
            else responds None) in
         responds {| cr_thread_id := conv_id doc;
                     cr_user_id := conv_userId doc;
                     cr_last_updated := conv_lastUpdated doc;
                     cr_message_count := message_count;
                     cr_first_message_preview := first_message_preview |}
     end)
    (fun e =>
       match e with
       | HTTPException _ _ _ => raises e
       | _ => internal_error "Error retrieving conversation: " e
       end).

(** *** GET /database-summary (lines 322-342) *)

Definition get_database_summary : R DatabaseSummaryResponse :=
  attempt
    (let* _ := route_logger (RouteInfo "Getting database summary") in
     let* total_conversations := await get_total_conversations in
     let* unique_users := await get_all_unique_user_ids in
     let* unique_thread_ids := await get_all_unique_thread_ids in
     responds {| ds_total_conversations := total_conversations;
                 ds_unique_users := unique_users;
                 ds_unique_thread_ids := unique_thread_ids |})
    (internal_error "Error retrieving database summary: ").

(* ================================================================= *)
(** ** More predicates used in the statements *)

(** A value Cosmos DB stores as it is: JSON. *)
Fixpoint json_value (x : pyval) : bool :=
  match x with
  | PNone | PBool _ | PInt _ | PFloat _ | PStr _ => true
  | PList items => forallb json_value items
  | PDict items => forallb (fun kv => json_value kv.2) items
  | _ => false
  end.

(** Every message object inside [x] carries JSON attributes. *)
Fixpoint messages_flat (x : pyval) : bool :=
  match x with
  | PMessage _ _ content additional_kwargs response_metadata id _ =>
      json_value content
      && from_option json_value true additional_kwargs
      && from_option json_value true response_metadata
      && from_option json_value true id
  | PList items | PTuple items => forallb messages_flat items
  | PDict items | PObject _ items => forallb (fun kv => messages_flat kv.2) items
  | _ => true
  end.

(** The checkpoint id a returned tuple names. *)
Definition tuple_checkpoint_id (tup : CheckpointTuple) : string :=
  default "" (configurable (ct_config tup) ≫= (fun c => c !! "checkpoint_id")).

(** The entries of a tagged dict the decoder keeps: all but [_type],
    decoded. *)
Definition untagged (items : dict) : dict :=
  map (fun kv => (kv.1, deserialize_from_cosmosdb kv.2))
    (List.filter (fun kv => negb (String.eqb kv.1 "_type")) items).

(** The checkpoint document an [aput] call stores, when the call gets as
    far as its upsert and the service takes it. *)
Definition aput_target (config : RunnableConfig) (checkpoint : Checkpoint)
  (metadata : pyval) (s : state) : option checkpoint_doc :=
  match configurable config with
  | Some c =>
      match c !! "thread_id", c !! "checkpoint_ns" with
      | Some thread_id, Some checkpoint_ns =>
          match dumps_typed (checkpoint_value checkpoint), dumps metadata with
          | Ok (type_, serialized_checkpoint), Ok serialized_metadata =>
              if unavailable s
                   (UpsertItem Checkpoints thread_id
                      (checkpoint_doc_id thread_id checkpoint_ns (cp_id checkpoint)))
              then None
              else Some (aput_doc c thread_id checkpoint_ns checkpoint type_
                           serialized_checkpoint serialized_metadata)
          | _, _ => None
          end
      | _, _ => None
      end
  | None => None
  end.

(* ================================================================= *)
(** * Properties *)

(** ** Induction on Python values *)

(** Structural induction that reaches the elements of lists and the
    values of dicts. *)
Lemma pyval_tree_ind (P : pyval -> Prop) :
  P PNone ->
  (forall b, P (PBool b)) ->
  (forall n, P (PInt n)) ->
  (forall bits, P (PFloat bits)) ->
  (forall s, P (PStr s)) ->
  (forall items, Forall P items -> P (PList items)) ->
  (forall items, P (PTuple items)) ->
  (forall items, Forall (fun kv => P kv.2) items -> P (PDict items)) ->
  (forall d, P (PDatetime d)) ->
  (forall c t content ak rm id others, P (PMessage c t content ak rm id others)) ->
  (forall c attrs, P (PObject c attrs)) ->
  (forall c str, P (POther c str)) ->
  forall x, P x.
Proof.
  intros HNone HBool HInt HFloat HStr HList HTuple HDict HDt HMsg HObj HOther.
  refine (fix IH (x : pyval) : P x :=
            match x with
            | PNone => HNone
            | PBool b => HBool b
            | PInt n => HInt n
            | PFloat bits => HFloat bits
            | PStr s => HStr s
            | PList items =>
                HList items
                  ((fix all (l : list pyval) : Forall P l :=
                      match l with
                      | [] => @List.Forall_nil _ P
                      | y :: l' => @List.Forall_cons _ P y l' (IH y) (all l')
                      end) items)
            | PTuple items => HTuple items
            | PDict items =>
                HDict items
                  ((fix all (l : dict) : Forall (fun kv => P kv.2) l :=
                      match l with
                      | [] => @List.Forall_nil _ (fun kv => P kv.2)
                      | kv :: l' => @List.Forall_cons _ (fun kv => P kv.2) kv l' (IH kv.2) (all l')
                      end) items)
            | PDatetime d => HDt d
            | PMessage c t content ak rm id others => HMsg c t content ak rm id others
            | PObject c attrs => HObj c attrs
            | POther c str => HOther c str
            end).
Qed.

(** ** Object codec *)

Lemma dict_get_map_values (f : pyval -> pyval) (k : string) (items : dict) :
  dict_get k (map (fun kv => (kv.1, f kv.2)) items) = f <$> dict_get k items.
Proof.
  induction items as [ | [k' v] items IH]; simpl; [done | ].
  destruct (String.eqb k' k); [done | apply IH].
Qed.

Lemma message_type_of_class_tag (class_name type_ : string) :
  message_type_of_class class_name = Some type_ ->
  message_class_of_tag (PStr class_name) = Some (class_name, type_).
Proof. intros H. simpl. by rewrite H. Qed.

(** The three message variants survive the round trip with their class,
    type, content, auxiliary metadata and id, and without their further
    attributes. *)
Lemma message_round_trip (class_name type_ : string)
  (content additional_kwargs response_metadata id : pyval) (others : dict) :
  message_type_of_class class_name = Some type_ ->
  deserialize_from_cosmosdb
    (serialize_for_cosmosdb
       (PMessage class_name type_ content (Some additional_kwargs)
          (Some response_metadata) (Some id) others))
  = PMessage class_name type_ content (Some additional_kwargs)
      (Some response_metadata) (Some id) [].
Proof.
  intros Hcls. cbn [serialize_for_cosmosdb deserialize_from_cosmosdb default].
  cbn [dict_get String.eqb Ascii.eqb Bool.eqb].
  rewrite (message_type_of_class_tag _ _ Hcls). reflexivity.
Qed.

(** A tree is what the codec keeps of it exactly when none of its
    messages carries a further attribute. *)
Lemma kept_fields_fixed (x : pyval) : kept_fields x = x <-> bare_messages x = true.
Proof.
  induction x as [ | b | n | bits | s | items IH | items | items IH | d
                 | c t content ak rm id others | c attrs | c str ] using pyval_tree_ind;
    try done.
  - (* a list *)
    cbn [kept_fields bare_messages]. split.
    + intros Heq. injection Heq as Heq.
      induction IH as [ | x items Hx _ IHitems]; [done | ].
      cbn in Heq. injection Heq as Hhead Htail. cbn.
      rewrite (proj1 Hx Hhead). by apply IHitems.
    + intros Hall. f_equal.
      induction IH as [ | x items Hx _ IHitems]; [done | ].
      cbn in Hall. apply andb_prop in Hall as [H1 H2]. cbn.
      by rewrite (proj2 Hx H1), IHitems.
  - (* a dict *)
    cbn [kept_fields bare_messages]. split.
    + intros Heq. injection Heq as Heq.
      induction IH as [ | [k v] items Hx _ IHitems]; [done | ].
      cbn in Heq. injection Heq as Hhead Htail. cbn in *.
      rewrite (proj1 Hx Hhead). by apply IHitems.
    + intros Hall. f_equal.
      induction IH as [ | [k v] items Hx _ IHitems]; [done | ].
      cbn in Hall. apply andb_prop in Hall as [H1 H2]. cbn in *.
      by rewrite (proj2 Hx H1), IHitems.
  - (* a message *)
    cbn. destruct others; split; intros H; done.
Qed.

(** C1 (amended): a message of one of the three variants comes back from
    the round trip with its class, type, content, auxiliary metadata and
    id, and without its further attributes, which the encoder does not
    store.  For a tree built from these messages, dicts without a
    [_type] key, lists, numbers, booleans, [None] and strings the decoder
    does not read as ISO-8601 timestamps, decoding the encoding gives
    the tree with every message so reduced: it gives the tree itself
    exactly when no message in it carries a further attribute. *)
Theorem codec_round_trip (x : pyval) :
  stable_tree x = true ->
  deserialize_from_cosmosdb (serialize_for_cosmosdb x) = kept_fields x
  /\ (deserialize_from_cosmosdb (serialize_for_cosmosdb x) = x
      <-> bare_messages x = true).
Proof.
  intros Hst.
  assert (Hkept : deserialize_from_cosmosdb (serialize_for_cosmosdb x) = kept_fields x).
  { revert Hst.
    induction x as [ | b | n | bits | s | items IH | items | items IH | d
                   | c t content ak rm id others | c attrs | c str ] using pyval_tree_ind;
      intros Hst; try done.
    - (* a string *)
      cbn in *. unfold stable_string in Hst.
      destruct (looks_like_iso s); [ | done].
      destruct (fromisoformat (replace_Z s)); [done | done].
    - (* a list *)
      cbn in *. f_equal. rewrite map_map.
      induction IH as [ | x items Hx _ IHitems]; [done | ].
      cbn in Hst. apply andb_prop in Hst as [H1 H2].
      cbn. rewrite Hx, IHitems; done.
    - (* a dict without [_type] *)
      cbn [stable_tree] in Hst. apply andb_prop in Hst as [Hty Hall].
      unfold dict_contains in Hty.
      cbn [serialize_for_cosmosdb deserialize_from_cosmosdb kept_fields].
      rewrite dict_get_map_values.
      destruct (dict_get "_type" items); [done | ].
      cbn [fmap option_fmap option_map]. f_equal. rewrite map_map. clear Hty.
      induction IH as [ | [k v] items Hx _ IHitems]; [done | ].
      cbn in Hall. apply andb_prop in Hall as [H1 H2].
      cbn in *. rewrite Hx, IHitems; done.
    - (* a message *)
      cbn [stable_tree] in Hst.
      destruct ak as [ak | ]; [ | done]. destruct rm as [rm | ]; [ | done].
      destruct id as [id | ]; [ | done].
      destruct (message_type_of_class c) as [t' | ] eqn:Hc; [ | done].
      apply String.eqb_eq in Hst as ->. by apply message_round_trip. }
  split; [exact Hkept | ]. rewrite Hkept. apply kept_fields_fixed.
Qed.

(** ** String order and ORDER BY *)

Lemma ascii_compare_refl (a : ascii) : Ascii.compare a a = Eq.
Proof. unfold Ascii.compare. apply N.compare_refl. Qed.

Lemma ascii_compare_trans (a b c : ascii) (r : comparison) :
  Ascii.compare a b = r -> Ascii.compare b c = r -> Ascii.compare a c = r.
Proof.
  unfold Ascii.compare. intros H1 H2. destruct r.
  - apply N.compare_eq_iff in H1. apply N.compare_eq_iff in H2.
    apply N.compare_eq_iff. congruence.
  - apply N.compare_lt_iff in H1. apply N.compare_lt_iff in H2.
    apply N.compare_lt_iff. by apply (N.lt_trans _ (N_of_ascii b)).
  - apply N.compare_gt_iff in H1. apply N.compare_gt_iff in H2.
    apply N.compare_gt_iff. by apply (N.lt_trans _ (N_of_ascii b)).
Qed.

Lemma string_leb_refl (a : string) : String.leb a a = true.
Proof.
  unfold String.leb. induction a as [ | x a IH]; [done | ].
  cbn. by rewrite ascii_compare_refl.
Qed.

Lemma string_leb_trans (a b c : string) :
  String.leb a b = true -> String.leb b c = true -> String.leb a c = true.
Proof.
  unfold String.leb. revert b c.
  induction a as [ | x a IH]; intros [ | y b] [ | z c]; cbn; try done.
  intros H1 H2.
  destruct (Ascii.compare x y) eqn:Exy; [ | | done].
  - apply Ascii.compare_eq_iff in Exy as ->.
    destruct (Ascii.compare y z); [by apply (IH b) | done | done].
  - destruct (Ascii.compare y z) eqn:Eyz; [ | | done].
    + apply Ascii.compare_eq_iff in Eyz as <-. by rewrite Exy.
    + by rewrite (ascii_compare_trans _ _ _ _ Exy Eyz).
Qed.

Global Instance desc_by_dec {D} (key : D -> string) (a b : D) :
  Decision (desc_by key a b).
Proof. unfold desc_by. apply _. Defined.

Global Instance desc_by_total {D} (key : D -> string) : Total (desc_by key).
Proof.
  intros a b. unfold desc_by.
  destruct (String.leb_total (key a) (key b)) as [H | H]; rewrite H; cbn; auto.
Qed.

Global Instance desc_by_trans {D} (key : D -> string) : Transitive (desc_by key).
Proof.
  intros a b c. unfold desc_by. rewrite !Is_true_true.
  intros H1 H2. by apply (string_leb_trans _ (key b)).
Qed.

Lemma order_by_desc_perm {D} (key : D -> string) (l : list D) :
  order_by_desc key l ≡ₚ l.
Proof. apply merge_sort_Permutation. Qed.

Lemma order_by_desc_elem_of {D} (key : D -> string) (l : list D) (d : D) :
  d ∈ order_by_desc key l <-> d ∈ l.
Proof. by rewrite order_by_desc_perm. Qed.

Lemma order_by_desc_nil {D} (key : D -> string) (l : list D) :
  order_by_desc key l = [] <-> l = [].
Proof.
  split; intros H.
  - apply Permutation_nil_r. rewrite <- H. symmetry. apply order_by_desc_perm.
  - by subst.
Qed.

(** The first row of [ORDER BY key DESC] carries the greatest key. *)
Lemma order_by_desc_head {D} (key : D -> string) (l rest : list D) (d : D) :
  order_by_desc key l = d :: rest ->
  d ∈ l /\ forall d', d' ∈ l -> String.leb (key d') (key d) = true.
Proof.
  intros H. split.
  - apply (order_by_desc_elem_of key). rewrite H. by left.
  - intros d' Hd'. apply (order_by_desc_elem_of key) in Hd'. rewrite H in Hd'.
    assert (Hs : StronglySorted (desc_by key) (d :: rest)).
    { rewrite <- H. apply Sorted_StronglySorted; [apply _ | ].
      apply Sorted_merge_sort; apply _. }
    apply elem_of_cons in Hd' as [-> | Hin]; [apply string_leb_refl | ].
    apply StronglySorted_inv in Hs as [_ Hall].
    rewrite Forall_forall in Hall. apply Is_true_true. by apply Hall.
Qed.

Lemma elem_of_filter_bool {D} (f : D -> bool) (l : list D) (d : D) :
  d ∈ List.filter f l <-> d ∈ l /\ f d = true.
Proof. rewrite !list_elem_of_In. apply List.filter_In. Qed.

(** ** aget_tuple *)

Lemma result_mapM_ok {A B} (f : A -> result B) (l : list A) :
  (forall a, a ∈ l -> exists b, f a = Ok b) ->
  exists bs, result_mapM f l = Ok bs.
Proof.
  induction l as [ | a l IH]; intros H; [by exists [] | ].
  destruct (H a) as [b Hb]; [by left | ].
  destruct IH as [bs Hbs]; [intros a' Ha'; apply H; by right | ].
  exists (b :: bs). cbn. by rewrite Hb, Hbs.
Qed.

(** The rows the checkpoint query of [aget_tuple] selects, and the tuple
    built from the first of them. *)
Lemma aget_tuple_rows (config : RunnableConfig) (c : gmap string string)
  (thread_id : string) (s : state) :
  configurable config = Some c ->
  c !! "thread_id" = Some thread_id ->
  unavailable s (QueryItems Checkpoints) = false ->
  exists rows,
    (forall d, d ∈ rows <->
       candidate s thread_id (default "" (c !! "checkpoint_ns"))
         (supplied_checkpoint_id c) d)
    /\ (supplied_checkpoint_id c = None ->
        forall doc rest, rows = doc :: rest ->
        forall d', d' ∈ rows ->
          String.leb (ck_checkpoint_id d') (ck_checkpoint_id doc) = true)
    /\ aget_tuple_try config s =
       match rows with
       | [] => Ok None
       | doc :: _ =>
           let? checkpoint := loads_typed (ck_type doc, ck_checkpoint doc) in
           let? serialized_writes :=
             query_items writes
               (fun w => String.eqb (w_thread_id w) thread_id
                         && String.eqb (w_checkpoint_ns w) (default "" (c !! "checkpoint_ns"))
                         && String.eqb (w_checkpoint_id w) (ck_checkpoint_id doc)) s in
           let? pending_writes := result_mapM load_pending_write serialized_writes in
           let? metadata := loads (ck_metadata doc) in
           Ok (Some {| ct_config :=
                         checkpoint_config thread_id (default "" (c !! "checkpoint_ns"))
                           (ck_checkpoint_id doc);
                       ct_checkpoint := checkpoint;
                       ct_metadata := metadata;
                       ct_parent_config :=
                         parent_config thread_id (default "" (c !! "checkpoint_ns")) doc;
                       ct_pending_writes := Some pending_writes |})
       end.
Proof.
  clear fromisoformat. intros Hc Ht Hav.
  unfold aget_tuple_try, assert_configurable, subscript. rewrite Hc; cbn.
  rewrite Ht; cbn. unfold query_items at 1 2. cbn [c_name checkpoints]. rewrite Hav.
  unfold supplied_checkpoint_id, candidate, in_scope.
  destruct (opt_truthy (get_checkpoint_id c)) eqn:Htr.
  - destruct (get_checkpoint_id c) as [cid | ] eqn:Hcid; [ | done]. cbn.
    refine (ex_intro _ _ (conj _ (conj _ eq_refl))); [ | done].
    intros d. rewrite elem_of_filter_bool, !andb_true_iff, !String.eqb_eq. cbn. tauto.
  - cbn. refine (ex_intro _ _ (conj _ (conj _ eq_refl))).
    + intros d. rewrite order_by_desc_elem_of, elem_of_filter_bool.
      rewrite !andb_true_iff, !String.eqb_eq. cbn. tauto.
    + intros _ doc rest Hrows d' Hd'.
      destruct (order_by_desc_head _ _ _ _ Hrows) as [_ Hmax]. apply Hmax.
      by apply (order_by_desc_elem_of ck_checkpoint_id).
Qed.

(** C2: for a config naming a thread (and a namespace, empty by default),
    [aget_tuple] returns the stored checkpoint with the supplied id, or
    the one with the greatest id when none is supplied; it returns [None]
    on a miss and when the storage fails, and it never raises. *)
Theorem aget_tuple_lookup (config : RunnableConfig) (c : gmap string string)
  (thread_id : string) (s : state) :
  configurable config = Some c ->
  c !! "thread_id" = Some thread_id ->
  let checkpoint_ns := default "" (c !! "checkpoint_ns") in
  let supplied := supplied_checkpoint_id c in
  (forall tup, aget_tuple config s = Some tup ->
     exists doc,
       candidate s thread_id checkpoint_ns supplied doc
       /\ (supplied = None ->
           forall d', in_scope s thread_id checkpoint_ns d' ->
             String.leb (ck_checkpoint_id d') (ck_checkpoint_id doc) = true)
       /\ tuple_of_doc s thread_id checkpoint_ns doc tup)
  /\ ((forall d, ~ candidate s thread_id checkpoint_ns supplied d) ->
      aget_tuple config s = None)
  /\ (unavailable s (QueryItems Checkpoints) = true
      \/ unavailable s (QueryItems Writes) = true ->
      aget_tuple config s = None)
  /\ ((exists d, candidate s thread_id checkpoint_ns supplied d) ->
      unavailable s (QueryItems Checkpoints) = false ->
      unavailable s (QueryItems Writes) = false ->
      loadable s ->
      exists tup, aget_tuple config s = Some tup).
Proof.
  intros Hc Ht checkpoint_ns supplied.
  destruct (unavailable s (QueryItems Checkpoints)) eqn:Hav.
  { (* the checkpoint query fails *)
    assert (Hnone : aget_tuple config s = None).
    { unfold aget_tuple, aget_tuple_try, assert_configurable, subscript.
      rewrite Hc; cbn. rewrite Ht; cbn. unfold query_items. cbn [c_name checkpoints].
      rewrite Hav. by destruct (opt_truthy (get_checkpoint_id c)). }
    rewrite Hnone. repeat split; try done. }
  destruct (aget_tuple_rows config c thread_id s Hc Ht Hav) as (rows & Hrows & Hmax & Htry).
  fold checkpoint_ns supplied in Hrows, Hmax, Htry.
  unfold aget_tuple. rewrite Htry. clear Htry.
  destruct rows as [ | doc rest].
  { (* a miss *)
    repeat split; try done.
    intros [d Hd] _ _ _. apply Hrows in Hd. by apply elem_of_nil in Hd. }
  assert (Hdoc : candidate s thread_id checkpoint_ns supplied doc)
    by (apply Hrows; by left).
  unfold query_items. cbn [c_name c_get writes].
  fold (writes_of s thread_id checkpoint_ns (ck_checkpoint_id doc)).
  repeat split.
  - (* what a result is *)
    intros tup Htup. exists doc. split; [done | ]. split.
    + intros Hs d' Hd'. apply (Hmax Hs doc rest eq_refl). apply Hrows.
      split; [done | ]. by rewrite Hs.
    + destruct (loads_typed (ck_type doc, ck_checkpoint doc)) as [v | ] eqn:Hv;
        [ | done]. cbn in Htup.
      destruct (unavailable s (QueryItems Writes)); [done | ]. cbn in Htup.
      destruct (result_mapM load_pending_write _) as [pw | ] eqn:Hpw; [ | done].
      cbn in Htup.
      destruct (loads (ck_metadata doc)) as [m | ] eqn:Hm; [ | done].
      cbn in Htup. injection Htup as <-. cbn.
      repeat split; try done. by exists pw.
  - (* no candidate *)
    intros Hno. by destruct (Hno doc).
  - (* the writes query fails *)
    intros [ | Hw]; [done | ]. rewrite Hw.
    by destruct (loads_typed (ck_type doc, ck_checkpoint doc)).
  - (* a hit *)
    intros _ _ Hw [Hck Hwr]. rewrite Hw.
    destruct Hdoc as [(Hin & _ & _) _].
    destruct (Hck doc Hin) as [[v Hv] [m Hm]]. rewrite Hv, Hm. cbn.
    destruct (result_mapM_ok load_pending_write
                (writes_of s thread_id checkpoint_ns (ck_checkpoint_id doc)))
      as [pw Hpw].
    { intros w Hin'. apply elem_of_filter_bool in Hin' as [Hin' _].
      destruct (Hwr w Hin') as [x Hx]. unfold load_pending_write. rewrite Hx.
      by eexists. }
    rewrite Hpw. cbn. by eexists.
Qed.

(** ** The namespace key on the write and read paths *)

Ltac run_monad :=
  unfold bind, lift, ret, raise, try_except, reads, logger; cbn beta iota.

(** C10: with a [configurable] mapping that has no [checkpoint_ns] key,
    [aput] and [aput_writes] raise a [RuntimeError] wrapping the
    [KeyError] (and store nothing), while [aget_tuple] and [alist] answer
    as for the empty namespace. *)
Theorem missing_namespace (config : RunnableConfig) (c : gmap string string)
  (s : state) :
  configurable config = Some c ->
  c !! "checkpoint_ns" = None ->
  let missing :=
    KeyError (match c !! "thread_id" with
              | Some _ => "checkpoint_ns"
              | None => "thread_id"
              end) in
  let defaulted := {| configurable := Some (<["checkpoint_ns" := ""]> c) |} in
  (forall checkpoint metadata new_versions now,
     aput config checkpoint metadata new_versions now s
     = (Raise (RuntimeError "Failed to save checkpoint: " missing), s))
  /\ (forall writes_ task_id,
        aput_writes config writes_ task_id s
        = (Raise (RuntimeError "Failed to store writes: " missing), s))
  /\ aget_tuple config s = aget_tuple defaulted s
  /\ (forall filter before limit,
        alist (Some config) filter before limit s
        = alist (Some defaulted) filter before limit s).
Proof.
  intros Hc Hns missing defaulted. subst missing defaulted.
  assert (Hid : forall k, k <> "checkpoint_ns" ->
                  (<["checkpoint_ns" := ""]> c : gmap string string) !! k = c !! k)
    by (intros k Hk; by rewrite lookup_insert_ne).
  repeat split.
  - intros checkpoint metadata new_versions now.
    unfold aput, aput_try, assert_configurable, subscript. rewrite Hc.
    run_monad. destruct (c !! "thread_id"); [ | done]. by rewrite Hns.
  - intros writes_ task_id.
    unfold aput_writes, aput_writes_try, assert_configurable, subscript.
    rewrite Hc. run_monad. destruct (c !! "thread_id"); [ | done]. by rewrite Hns.
  - unfold aget_tuple, aget_tuple_try, assert_configurable, subscript, get_checkpoint_id.
    rewrite Hc. cbn [configurable result_bind].
    rewrite !Hid by done. rewrite Hns, lookup_insert_eq. reflexivity.
  - intros filter before limit. unfold alist, alist_query, subscript.
    cbn [configurable result_bind]. rewrite Hc. cbn [result_bind].
    rewrite !Hid by done. rewrite Hns, lookup_insert_eq. reflexivity.
Qed.

(** ** Containers *)

Lemma is_item_true {D} (C : container D) (pk id : string) (d : D) :
  is_item C pk id d = true <-> c_partition_key C d = pk /\ c_item_id C d = id.
Proof. unfold is_item. by rewrite andb_true_iff, !String.eqb_eq. Qed.

Lemma is_item_self {D} (C : container D) (d : D) :
  is_item C (c_partition_key C d) (c_item_id C d) d = true.
Proof. by apply is_item_true. Qed.

Lemma read_item_upsert_eq {D} (C : container D) (d : D) (l : list D) :
  read_item C (c_partition_key C d) (c_item_id C d) (upsert C d l) = Some d.
Proof.
  unfold read_item. induction l as [ | x l IH]; cbn.
  - by rewrite is_item_self.
  - destruct (is_item C _ _ x) eqn:Hx; cbn; [by rewrite is_item_self | ].
    by rewrite Hx.
Qed.

Lemma read_item_upsert_ne {D} (C : container D) (d : D) (l : list D)
  (pk id : string) :
  is_item C pk id d = false ->
  read_item C pk id (upsert C d l) = read_item C pk id l.
Proof.
  intros Hne. unfold read_item. induction l as [ | x l IH]; cbn.
  - by rewrite Hne.
  - destruct (is_item C (c_partition_key C d) (c_item_id C d) x) eqn:Hx; cbn.
    + rewrite Hne. apply is_item_true in Hx as [Hx1 Hx2].
      unfold is_item in *. by rewrite Hx1, Hx2, Hne.
    + by rewrite IH.
Qed.

Lemma elem_of_upsert {D} (C : container D) (d x : D) (l : list D) :
  x ∈ upsert C d l -> x = d \/ x ∈ l.
Proof.
  induction l as [ | y l IH]; cbn.
  - intros H. apply list_elem_of_singleton in H. by left.
  - destruct (is_item C _ _ y).
    + intros H. apply elem_of_cons in H as [-> | H]; [by left | right; by right].
    + intros H. apply elem_of_cons in H as [-> | H]; [right; by left | ].
      destruct (IH H); [by left | right; by right].
Qed.

Lemma elem_of_map_upsert {D} (C : container D) (d : D) (l : list D)
  (k : string * string) :
  k ∈ map (item_key C) (upsert C d l) -> k = item_key C d \/ k ∈ map (item_key C) l.
Proof.
  intros Hk. apply list_elem_of_fmap in Hk as (x & -> & Hx).
  apply elem_of_upsert in Hx as [-> | Hx]; [by left | right].
  apply list_elem_of_fmap. by exists x.
Qed.

(** The service's invariant survives an upsert. *)
Lemma unique_items_upsert {D} (C : container D) (d : D) (l : list D) :
  unique_items C l -> unique_items C (upsert C d l).
Proof.
  unfold unique_items. induction l as [ | x l IH]; intros Hnd; cbn [upsert].
  - cbn. apply NoDup_singleton.
  - cbn [map] in Hnd. apply NoDup_cons in Hnd as [Hx Hnd].
    destruct (is_item C _ _ x) eqn:Hitem; cbn [map]; apply NoDup_cons.
    + apply is_item_true in Hitem as [H1 H2].
      assert (Hk : item_key C d = item_key C x) by (unfold item_key; by rewrite H1, H2).
      by rewrite Hk.
    + split; [ | by apply IH]. intros Hin.
      apply elem_of_map_upsert in Hin as [Hin | Hin]; [ | done].
      unfold item_key in Hin. injection Hin as H1 H2.
      assert (Htrue : is_item C (c_partition_key C d) (c_item_id C d) x = true)
        by (by apply is_item_true).
      by rewrite Htrue in Hitem.
Qed.

(** [aput] up to the call of [_update_conversation_document]. *)
Lemma aput_try_unfold (config : RunnableConfig) (c : gmap string string)
  (thread_id checkpoint_ns : string) (checkpoint : Checkpoint)
  (metadata : pyval) (now : datetime) (s : state)
  (type_ serialized_checkpoint serialized_metadata : string) :
  configurable config = Some c ->
  c !! "thread_id" = Some thread_id ->
  c !! "checkpoint_ns" = Some checkpoint_ns ->
  dumps_typed (checkpoint_value checkpoint) = Ok (type_, serialized_checkpoint) ->
  dumps metadata = Ok serialized_metadata ->
  unavailable s (UpsertItem Checkpoints thread_id
                   (checkpoint_doc_id thread_id checkpoint_ns (cp_id checkpoint)))
  = false ->
  aput_try config checkpoint metadata now s =
  (let! _ := _update_conversation_document config checkpoint metadata now in
   ret (checkpoint_config thread_id checkpoint_ns (cp_id checkpoint)))
    (set_checkpoints
       (upsert checkpoints
          (aput_doc c thread_id checkpoint_ns checkpoint type_ serialized_checkpoint
             serialized_metadata)
          (checkpoints_container s)) s).
Proof.
  intros Hc Ht Hns Hck Hmd Hav.
  unfold aput_try, assert_configurable. rewrite Hc. cbn [bind lift].
  unfold subscript at 1. rewrite Ht. cbn [bind lift].
  unfold subscript at 1. rewrite Hns. cbn [bind lift].
  rewrite Hck. cbn [bind lift]. rewrite Hmd. cbn [bind lift].
  unfold bind at 1. unfold upsert_item at 1. cbn [c_name c_partition_key c_item_id
    checkpoints ck_thread_id ck_id]. rewrite Hav. reflexivity.
Qed.

Lemma update_conversation_skipped (config : RunnableConfig)
  (c : gmap string string) (thread_id : string) (checkpoint : Checkpoint)
  (metadata : pyval) (now : datetime) (s : state) :
  configurable config = Some c ->
  c !! "thread_id" = Some thread_id ->
  opt_truthy (c !! "user_id") = false ->
  _update_conversation_document config checkpoint metadata now s
  = (Ok tt, add_log (LogWarning ("No user_id found in config for thread_id: "
                                   +:+ thread_id)) s).
Proof.
  intros Hc Ht Hu. unfold _update_conversation_document, config_configurable.
  rewrite Hc. cbn [bind lift]. unfold subscript. rewrite Ht. cbn [bind lift].
  rewrite Hu. reflexivity.
Qed.

(** C9: when the config carries no user id (absent or empty), [aput]
    stores the checkpoint and returns the updated config; the
    conversation container is left as it was and a warning is logged. *)
Theorem aput_without_user_id (config : RunnableConfig) (c : gmap string string)
  (thread_id checkpoint_ns : string) (checkpoint : Checkpoint)
  (metadata new_versions : pyval) (now : datetime) (s : state)
  (type_ serialized_checkpoint serialized_metadata : string) :
  configurable config = Some c ->
  c !! "thread_id" = Some thread_id ->
  c !! "checkpoint_ns" = Some checkpoint_ns ->
  opt_truthy (c !! "user_id") = false ->
  dumps_typed (checkpoint_value checkpoint) = Ok (type_, serialized_checkpoint) ->
  dumps metadata = Ok serialized_metadata ->
  unavailable s (UpsertItem Checkpoints thread_id
                   (checkpoint_doc_id thread_id checkpoint_ns (cp_id checkpoint)))
  = false ->
  exists s',
    aput config checkpoint metadata new_versions now s
    = (Ok (checkpoint_config thread_id checkpoint_ns (cp_id checkpoint)), s')
    /\ conversations_container s' = conversations_container s
    /\ checkpoints_container s'
       = upsert checkpoints
           (aput_doc c thread_id checkpoint_ns checkpoint type_ serialized_checkpoint
              serialized_metadata)
           (checkpoints_container s)
    /\ writes_container s' = writes_container s
    /\ log s' = log s ++ [LogWarning ("No user_id found in config for thread_id: "
                                      +:+ thread_id)].
Proof.
  clear fromisoformat. intros Hc Ht Hns Hu Hck Hmd Hav.
  unfold aput, try_except.
  rewrite (aput_try_unfold _ _ _ _ _ _ _ _ _ _ _ Hc Ht Hns Hck Hmd Hav).
  unfold bind at 1. rewrite (update_conversation_skipped _ _ _ _ _ _ _ Hc Ht Hu).
  eexists. split; [reflexivity | ]. by cbn.
Qed.

(** ** aput_writes *)

(** Within one checkpoint and task the document id determines the
    position. *)
Lemma write_doc_id_inj (thread_id checkpoint_ns checkpoint_id task_id : string)
  (i j : nat) :
  write_doc_id thread_id checkpoint_ns checkpoint_id task_id i
  = write_doc_id thread_id checkpoint_ns checkpoint_id task_id j ->
  i = j.
Proof.
  unfold write_doc_id. intros H.
  repeat apply String.app_inj in H. by apply (inj pretty) in H.
Qed.

Lemma chars_app (a b : string) : chars (a +:+ b) = chars a ++ chars b.
Proof.
  unfold chars. induction a as [ | x a IH]; [done | ].
  change (x :: String.list_ascii_of_string (a +:+ b)
          = x :: (String.list_ascii_of_string a ++ String.list_ascii_of_string b)).
  by f_equal.
Qed.

Lemma chars_inj (a b : string) : chars a = chars b -> a = b.
Proof.
  unfold chars. intros H.
  rewrite <- (String.string_of_list_ascii_of_string a),
          <- (String.string_of_list_ascii_of_string b). by rewrite H.
Qed.

Lemma pretty_N_go_underscore_free (x : N) (s : string) :
  underscore_free s = true -> underscore_free (pretty_N_go x s) = true.
Proof.
  revert s. induction (N.lt_wf_0 x) as [x _ IH]; intros s Hs.
  assert (x = 0 \/ 0 < x)%N as [-> | Hx] by lia.
  - by rewrite pretty_N_go_0.
  - rewrite pretty_N_go_step by done. apply IH; [by apply N.div_lt | ].
    unfold underscore_free, contains_char, chars in *. cbn [String.list_ascii_of_string existsb].
    apply negb_true_iff, orb_false_iff. split; [ | by apply negb_true_iff].
    unfold pretty_N_char. by repeat case_match.
Qed.

Lemma pretty_nat_underscore_free (n : nat) : underscore_free (pretty n) = true.
Proof.
  unfold pretty, pretty_nat, pretty, pretty_N.
  case_decide; [done | ]. by apply pretty_N_go_underscore_free.
Qed.

(** A text is split in one way only at its last separator. *)
Lemma split_at_last (c : ascii) (l1 l2 u v : list ascii) :
  contains_char c u = false ->
  contains_char c v = false ->
  l1 ++ c :: u = l2 ++ c :: v ->
  l1 = l2 /\ u = v.
Proof.
  intros Hu Hv. revert l2.
  assert (Hin : forall w r, contains_char c w = false -> w <> r ++ c :: v /\ w <> r ++ c :: u).
  { intros w r Hw. split; intros ->; unfold contains_char in Hw;
      rewrite List.existsb_app in Hw; cbn in Hw; rewrite Ascii.eqb_refl in Hw;
      by destruct (existsb _ r). }
  induction l1 as [ | a l1 IH]; intros [ | x l2] Heq; cbn in Heq.
  - injection Heq as ->. done.
  - injection Heq as <- ->. by destruct (Hin (l2 ++ c :: v) l2 Hu) as [? _].
  - injection Heq as -> <-. by destruct (Hin (l1 ++ c :: u) l1 Hv) as [_ ?].
  - injection Heq as -> Heq. destruct (IH l2 Heq) as [-> ->]. done.
Qed.

Lemma split_string_at_last (a b u v : string) :
  underscore_free u = true ->
  underscore_free v = true ->
  a +:+ "_" +:+ u = b +:+ "_" +:+ v ->
  a = b /\ u = v.
Proof.
  unfold underscore_free. rewrite !negb_true_iff. intros Hu Hv Heq.
  apply (f_equal chars) in Heq. rewrite !chars_app in Heq.
  destruct (split_at_last "_" (chars a) (chars b) (chars u) (chars v) Hu Hv Heq)
    as [Ha Hb].
  split; by apply chars_inj.
Qed.

Lemma string_app_assoc (a b c : string) : (a +:+ b) +:+ c = a +:+ b +:+ c.
Proof.
  induction a as [ | x a IH]; [done | ].
  change (String x ((a +:+ b) +:+ c) = String x (a +:+ b +:+ c)). by f_equal.
Qed.

(** Within a thread, pending writes whose checkpoint and task ids hold no
    underscore (UUIDs) get the same document id only when namespace,
    checkpoint, task and position are the same. *)
Lemma write_doc_id_unique (thread_id ns ns' cid cid' task task' : string) (i j : nat) :
  underscore_free cid = true -> underscore_free cid' = true ->
  underscore_free task = true -> underscore_free task' = true ->
  write_doc_id thread_id ns cid task i = write_doc_id thread_id ns' cid' task' j ->
  ns = ns' /\ cid = cid' /\ task = task' /\ i = j.
Proof.
  intros Hc Hc' Hk Hk' Heq. unfold write_doc_id in Heq.
  assert (Hassoc : forall n c k p,
            thread_id +:+ "_" +:+ n +:+ "_" +:+ c +:+ "_" +:+ k +:+ "_" +:+ p
            = (((thread_id +:+ "_" +:+ n) +:+ "_" +:+ c) +:+ "_" +:+ k) +:+ "_" +:+ p).
  { intros n c k p. by rewrite !string_app_assoc. }
  rewrite !Hassoc in Heq.
  apply split_string_at_last in Heq as [Heq Hp]; [ | apply pretty_nat_underscore_free..].
  apply split_string_at_last in Heq as [Heq ->]; [ | done..].
  apply split_string_at_last in Heq as [Heq ->]; [ | done..].
  repeat apply String.app_inj in Heq. by apply (inj pretty) in Hp.
Qed.

Lemma store_writes_step (thread_id checkpoint_ns checkpoint_id task_id : string)
  (idx : nat) (w : string * pyval) (rest : list (string * pyval)) (s : state) :
  store_writes thread_id checkpoint_ns checkpoint_id task_id idx (w :: rest) s
  = store_writes thread_id checkpoint_ns checkpoint_id task_id (S idx) rest
      (match persisted_write s thread_id checkpoint_ns checkpoint_id task_id idx w with
       | Some doc => set_writes (upsert writes doc (writes_container s)) s
       | None => s
       end).
Proof.
  destruct w as [channel value]. unfold persisted_write. cbn [store_writes fst snd].
  unfold bind at 1. unfold try_except.
  destruct (dumps_typed value) as [[type_ serialized_value] | e]; cbn [bind lift];
    [ | reflexivity].
  unfold upsert_item.
  cbn [c_name c_partition_key c_item_id c_get c_set writes w_thread_id w_id].
  by destruct (unavailable s _).
Qed.

Lemma store_writes_spec (thread_id checkpoint_ns checkpoint_id task_id : string)
  (writes_ : list (string * pyval)) :
  forall (idx : nat) (s : state),
  exists s',
    store_writes thread_id checkpoint_ns checkpoint_id task_id idx writes_ s = (Ok tt, s')
    /\ same_but_writes s s'
    /\ (forall k w, writes_ !! k = Some w ->
         read_item writes thread_id
           (write_doc_id thread_id checkpoint_ns checkpoint_id task_id (idx + k))
           (writes_container s')
         = match persisted_write s thread_id checkpoint_ns checkpoint_id task_id
                   (idx + k) w with
           | Some doc => Some doc
           | None =>
               read_item writes thread_id
                 (write_doc_id thread_id checkpoint_ns checkpoint_id task_id (idx + k))
                 (writes_container s)
           end)
    /\ (forall pk id,
         (forall k, k < length writes_ ->
            ~ (pk = thread_id
               /\ id = write_doc_id thread_id checkpoint_ns checkpoint_id task_id (idx + k))) ->
         read_item writes pk id (writes_container s')
         = read_item writes pk id (writes_container s)).
Proof.
  clear fromisoformat.
  induction writes_ as [ | w rest IH]; intros idx s.
  - exists s. cbn. repeat split; try done.
  - rewrite store_writes_step.
    set (s1 := match persisted_write s _ _ _ _ idx w with
               | Some doc => set_writes (upsert writes doc (writes_container s)) s
               | None => s
               end).
    assert (Hframe1 : same_but_writes s s1)
      by (subst s1; destruct (persisted_write s _ _ _ _ idx w); by repeat split).
    assert (Hother : forall pk id,
               ~ (pk = thread_id
                  /\ id = write_doc_id thread_id checkpoint_ns checkpoint_id task_id idx) ->
               read_item writes pk id (writes_container s1)
               = read_item writes pk id (writes_container s)).
    { intros pk id Hne. subst s1.
      destruct (persisted_write s _ _ _ _ idx w) as [doc | ] eqn:Hdoc; [ | done].
      cbn. apply read_item_upsert_ne.
      unfold persisted_write in Hdoc.
      destruct (dumps_typed w.2) as [[type_ value] | ]; [ | done].
      destruct (unavailable s _); [done | ]. injection Hdoc as <-.
      destruct (is_item writes pk id _) eqn:Hitem; [ | done].
      apply is_item_true in Hitem as [H1 H2]. cbn in H1, H2. by destruct Hne. }
    assert (Hsame : forall k w',
               persisted_write s1 thread_id checkpoint_ns checkpoint_id task_id k w'
               = persisted_write s thread_id checkpoint_ns checkpoint_id task_id k w').
    { intros k w'. unfold persisted_write.
      destruct Hframe1 as (_ & _ & Hu & _). by rewrite Hu. }
    destruct (IH (S idx) s1) as (s' & Hrun & Hframe & Hat & Hrest).
    exists s'. split; [done | ]. split.
    { destruct Hframe1 as (? & ? & ? & ? & ?), Hframe as (? & ? & ? & ? & ?).
      repeat split; congruence. }
    split.
    + intros [ | k] w' Hk.
      * injection Hk as <-. rewrite Nat.add_0_r.
        rewrite Hrest.
        2:{ intros k _ [_ Heq]. apply write_doc_id_inj in Heq. lia. }
        subst s1.
        destruct (persisted_write s _ _ _ _ idx w) as [doc | ] eqn:Hdoc; [ | done].
        unfold persisted_write in Hdoc.
        destruct (dumps_typed w.2) as [[type_ value] | ]; [ | done].
        destruct (unavailable s _); [done | ]. injection Hdoc as <-.
        exact (read_item_upsert_eq writes _ (writes_container s)).
      * cbn in Hk. replace (idx + S k) with (S idx + k) by lia.
        rewrite (Hat k w' Hk), Hsame.
        destruct (persisted_write s _ _ _ _ (S idx + k) w'); [done | ].
        apply Hother. intros [_ Heq]. apply write_doc_id_inj in Heq. lia.
    + intros pk id Hne. rewrite Hrest.
      * apply Hother. specialize (Hne 0). rewrite Nat.add_0_r in Hne.
        apply Hne. cbn. lia.
      * intros k Hk. replace (S idx + k) with (idx + S k) by lia.
        apply Hne. cbn. lia.
Qed.

(** C7: [aput_writes] upserts one document per pair, under an id built
    from thread, namespace, checkpoint, task and position: distinct for
    distinct positions, and for checkpoint and task ids without
    underscores (UUIDs) shared by no other namespace, checkpoint, task or
    position of the thread.  A pair whose value does not serialize or
    whose upsert the service refuses is skipped and leaves the item as it
    was, the other pairs are stored all the same, nothing else changes
    and the call returns normally; only a failure to read the ids from
    the config raises, as a [RuntimeError], with nothing stored. *)
Theorem aput_writes_batch (config : RunnableConfig)
  (writes_ : list (string * pyval)) (task_id : string) (s : state) :
  match writes_target config with
  | Raise e =>
      aput_writes config writes_ task_id s
      = (Raise (RuntimeError "Failed to store writes: " e), s)
  | Ok (thread_id, checkpoint_ns, checkpoint_id) =>
      let key := write_doc_id thread_id checkpoint_ns checkpoint_id task_id in
      exists s',
        aput_writes config writes_ task_id s = (Ok tt, s')
        /\ same_but_writes s s'
        /\ (forall idx w, writes_ !! idx = Some w ->
             read_item writes thread_id (key idx) (writes_container s')
             = match persisted_write s thread_id checkpoint_ns checkpoint_id task_id
                       idx w with
               | Some doc => Some doc
               | None => read_item writes thread_id (key idx) (writes_container s)
               end)
        /\ (forall pk id,
             (forall idx, idx < length writes_ -> ~ (pk = thread_id /\ id = key idx)) ->
             read_item writes pk id (writes_container s')
             = read_item writes pk id (writes_container s))
        /\ (forall i j, key i = key j -> i = j)
        /\ (forall checkpoint_ns' checkpoint_id' task_id' i j,
             underscore_free checkpoint_id = true ->
             underscore_free checkpoint_id' = true ->
             underscore_free task_id = true ->
             underscore_free task_id' = true ->
             key i = write_doc_id thread_id checkpoint_ns' checkpoint_id' task_id' j ->
             checkpoint_ns = checkpoint_ns' /\ checkpoint_id = checkpoint_id'
             /\ task_id = task_id' /\ i = j)
  end.
Proof.
  clear fromisoformat.
  unfold writes_target, aput_writes, aput_writes_try, try_except.
  destruct (assert_configurable config) as [c | e]; cbn [result_bind bind lift];
    [ | reflexivity].
  destruct (subscript c "thread_id") as [thread_id | e]; cbn [result_bind bind lift];
    [ | reflexivity].
  destruct (subscript c "checkpoint_ns") as [checkpoint_ns | e];
    cbn [result_bind bind lift]; [ | reflexivity].
  destruct (subscript c "checkpoint_id") as [checkpoint_id | e];
    cbn [result_bind bind lift]; [ | reflexivity].
  destruct (store_writes_spec thread_id checkpoint_ns checkpoint_id task_id writes_ 0 s)
    as (s' & Hrun & Hframe & Hat & Hrest).
  exists s'. rewrite Hrun.
  split; [done | ]. split; [done | ]. split; [ | split; [ | split]].
  - intros idx w Hw. apply (Hat idx w Hw).
  - intros pk id Hne. apply Hrest. intros k Hk. by apply Hne.
  - apply write_doc_id_inj.
  - intros checkpoint_ns' checkpoint_id' task_id' i j H1 H2 H3 H4.
    by apply write_doc_id_unique.
Qed.

(** ** Parent chain *)

Lemma checkpoint_config_lookup (thread_id checkpoint_ns checkpoint_id : string) :
  exists c : gmap string string,
    configurable (checkpoint_config thread_id checkpoint_ns checkpoint_id) = Some c
    /\ c !! "thread_id" = Some thread_id
    /\ c !! "checkpoint_ns" = Some checkpoint_ns
    /\ c !! "checkpoint_id" = Some checkpoint_id
    /\ c !! "user_id" = None.
Proof. eexists. split; [reflexivity | ]. by simplify_map_eq. Qed.

(** With the service available, the directory update succeeds and
    touches only the conversations and the log. *)
Lemma update_conversation_available (config : RunnableConfig)
  (c : gmap string string) (thread_id : string) (checkpoint : Checkpoint)
  (metadata : pyval) (now : datetime) (s : state) :
  configurable config = Some c ->
  c !! "thread_id" = Some thread_id ->
  available s ->
  exists s',
    _update_conversation_document config checkpoint metadata now s = (Ok tt, s')
    /\ checkpoints_container s' = checkpoints_container s
    /\ writes_container s' = writes_container s
    /\ unavailable s' = unavailable s
    /\ rejects_unbound_parameter s' = rejects_unbound_parameter s
    /\ conversations_container s'
       = if opt_truthy (c !! "user_id")
         then upsert conversations
                (conversation_doc_of thread_id (default "" (c !! "user_id"))
                   checkpoint metadata now)
                (conversations_container s)
         else conversations_container s.
Proof.
  intros Hc Ht Hav.
  destruct (opt_truthy (c !! "user_id")) eqn:Hu.
  - unfold _update_conversation_document, config_configurable.
    rewrite Hc. cbn [bind lift]. unfold subscript. rewrite Ht. cbn [bind lift].
    rewrite Hu. cbn [negb]. unfold bind at 1. unfold logger at 1.
    unfold try_except, bind at 1, upsert_item at 1. cbn [unavailable add_log].
    rewrite (Hav _). unfold logger. eexists. split; [reflexivity | ]. by cbn.
  - rewrite (update_conversation_skipped _ _ _ _ _ _ _ Hc Ht Hu).
    eexists. split; [reflexivity | ]. by cbn.
Qed.

(** The exact lookup finds the document just upserted first. *)
Lemma filter_upsert_head (doc : checkpoint_doc) (l : list checkpoint_doc) :
  ids_derived l ->
  ck_id doc
  = checkpoint_doc_id (ck_thread_id doc) (ck_checkpoint_ns doc) (ck_checkpoint_id doc) ->
  exists rest,
    List.filter
      (fun d => String.eqb (ck_thread_id d) (ck_thread_id doc)
                && String.eqb (ck_checkpoint_ns d) (ck_checkpoint_ns doc)
                && String.eqb (ck_checkpoint_id d) (ck_checkpoint_id doc))
      (upsert checkpoints doc l)
    = doc :: rest.
Proof.
  intros Hids Hdoc. induction l as [ | x l IH]; cbn [upsert List.filter].
  - rewrite !String.eqb_refl. cbn. by eexists.
  - destruct (is_item checkpoints _ _ x) eqn:Hx; cbn [List.filter].
    + rewrite !String.eqb_refl. cbn. by eexists.
    + destruct (String.eqb (ck_thread_id x) (ck_thread_id doc)
                && String.eqb (ck_checkpoint_ns x) (ck_checkpoint_ns doc)
                && String.eqb (ck_checkpoint_id x) (ck_checkpoint_id doc)) eqn:Hm.
      * exfalso. apply andb_prop in Hm as [Hm H3]. apply andb_prop in Hm as [H1 H2].
        apply String.eqb_eq in H1, H2, H3.
        assert (Hitem : is_item checkpoints (c_partition_key checkpoints doc)
                          (c_item_id checkpoints doc) x = true).
        { apply is_item_true. cbn. split; [done | ].
          rewrite Hdoc, (Hids x) by (by left). by rewrite H1, H2, H3. }
        by rewrite Hitem in Hx.
      * apply IH. intros d Hd. apply Hids. by right.
Qed.

(** The checkpoints written by [aput] keep their ids derived from their
    keys. *)
Lemma ids_derived_upsert (c : gmap string string) (thread_id checkpoint_ns : string)
  (checkpoint : Checkpoint) (type_ serialized_checkpoint serialized_metadata : string)
  (l : list checkpoint_doc) :
  ids_derived l ->
  ids_derived
    (upsert checkpoints
       (aput_doc c thread_id checkpoint_ns checkpoint type_ serialized_checkpoint
          serialized_metadata) l).
Proof.
  intros Hl d Hd. apply elem_of_upsert in Hd as [-> | Hd]; [reflexivity | by apply Hl].
Qed.

(** C3: when the incoming config carries checkpoint id [X], [aput] stores
    the checkpoint document with [parent_checkpoint_id = X] and returns the
    config of the new checkpoint, and [aget_tuple] on that config returns
    the checkpoint with a parent config that names [X] in the same thread
    and namespace. *)
Theorem aput_parent_chain (config : RunnableConfig) (c : gmap string string)
  (thread_id checkpoint_ns X : string) (checkpoint : Checkpoint)
  (metadata new_versions : pyval) (now : datetime) (s : state)
  (type_ serialized_checkpoint serialized_metadata : string) :
  configurable config = Some c ->
  c !! "thread_id" = Some thread_id ->
  c !! "checkpoint_ns" = Some checkpoint_ns ->
  c !! "checkpoint_id" = Some X ->
  X <> "" ->
  cp_id checkpoint <> "" ->
  available s ->
  ids_derived (checkpoints_container s) ->
  dumps_typed (checkpoint_value checkpoint) = Ok (type_, serialized_checkpoint) ->
  loads_typed (type_, serialized_checkpoint) = Ok (checkpoint_value checkpoint) ->
  dumps metadata = Ok serialized_metadata ->
  loads serialized_metadata = Ok metadata ->
  (forall w, w ∈ writes_container s ->
     exists v, loads_typed (w_type w, w_value w) = Ok v) ->
  exists s' doc tup,
    aput config checkpoint metadata new_versions now s
    = (Ok (checkpoint_config thread_id checkpoint_ns (cp_id checkpoint)), s')
    /\ read_item checkpoints thread_id
         (checkpoint_doc_id thread_id checkpoint_ns (cp_id checkpoint))
         (checkpoints_container s') = Some doc
    /\ ck_parent_checkpoint_id doc = Some X
    /\ aget_tuple (checkpoint_config thread_id checkpoint_ns (cp_id checkpoint)) s'
       = Some tup
    /\ ct_checkpoint tup = checkpoint_value checkpoint
    /\ ct_metadata tup = metadata
    /\ ct_parent_config tup = Some (checkpoint_config thread_id checkpoint_ns X).
Proof.
  clear fromisoformat.
  intros Hc Ht Hns HX HXne Hidne Hav Hids Hck Hck' Hmd Hmd' Hwr.
  set (doc := aput_doc c thread_id checkpoint_ns checkpoint type_
                serialized_checkpoint serialized_metadata).
  unfold aput, try_except.
  rewrite (aput_try_unfold _ _ _ _ _ _ _ _ _ _ _ Hc Ht Hns Hck Hmd (Hav _)).
  fold doc. set (s1 := set_checkpoints _ s).
  destruct (update_conversation_available config c thread_id checkpoint metadata now s1
              Hc Ht) as (s' & Hrun & Hcks & Hws & Hun & _ & _); [exact Hav | ].
  unfold bind at 1. rewrite Hrun. cbn [ret].
  destruct (filter_upsert_head doc (checkpoints_container s) Hids eq_refl)
    as [rest Hrest].
  destruct (result_mapM_ok load_pending_write
              (writes_of s' thread_id checkpoint_ns (cp_id checkpoint)))
    as [pending Hpending].
  { intros w Hw. apply elem_of_filter_bool in Hw as [Hw _]. rewrite Hws in Hw.
    destruct (Hwr w Hw) as [v Hv]. unfold load_pending_write. rewrite Hv. by eexists. }
  eexists s', doc, _. split; [reflexivity | ].
  split; [rewrite Hcks; exact (read_item_upsert_eq checkpoints doc _) | ].
  split; [exact HX | ].
  destruct (checkpoint_config_lookup thread_id checkpoint_ns (cp_id checkpoint))
    as (c' & Hc' & Ht' & Hns' & Hid' & _).
  unfold aget_tuple, aget_tuple_try, assert_configurable, subscript, get_checkpoint_id.
  rewrite Hc'. cbn [result_bind]. rewrite Ht'. cbn [result_bind].
  rewrite Hns', Hid'. cbn [from_option opt_truthy]. unfold id.
  assert (Htruthy : str_truthy (cp_id checkpoint) = true).
  { unfold str_truthy. apply negb_true_iff. by apply String.eqb_neq. }
  rewrite Htruthy. unfold query_items at 1. rewrite Hun.
  change (unavailable s1) with (unavailable s). rewrite (Hav _).
  cbn [c_get checkpoints]. rewrite Hcks.
  change (checkpoints_container s1) with (upsert checkpoints doc (checkpoints_container s)).
  cbn [ck_thread_id ck_checkpoint_ns ck_checkpoint_id doc aput_doc] in Hrest.
  rewrite Hrest. cbn [result_bind].
  cbn [ck_type ck_checkpoint ck_metadata ck_checkpoint_id doc aput_doc].
  rewrite Hck'. cbn [result_bind].
  unfold query_items. rewrite Hun. change (unavailable s1) with (unavailable s).
  rewrite (Hav _). cbn [c_get writes result_bind].
  fold (writes_of s' thread_id checkpoint_ns (cp_id checkpoint)).
  rewrite Hpending. cbn [result_bind]. rewrite Hmd'. cbn [result_bind].
  split; [reflexivity | ]. cbn.
  repeat split. unfold parent_config. cbn. rewrite HX. cbn.
  assert (HtruthyX : str_truthy X = true).
  { unfold str_truthy. apply negb_true_iff. by apply String.eqb_neq. }
  by rewrite HtruthyX.
Qed.

(** ** Lazy thread creation *)

Lemma filter_upsert_fresh {D} (C : container D) (f : D -> bool) (d : D) (l : list D) :
  (forall x, x ∈ l -> f x = false) ->
  (forall x, is_item C (c_partition_key C d) (c_item_id C d) x = true -> f x = true) ->
  f d = true ->
  List.filter f (upsert C d l) = [d].
Proof.
  intros Hl Hitem Hd. induction l as [ | x l IH]; cbn [upsert List.filter].
  - by rewrite Hd.
  - destruct (is_item C _ _ x) eqn:Hx.
    + apply Hitem in Hx. rewrite Hl in Hx by (by left). done.
    + cbn [List.filter]. rewrite Hl by (by left). apply IH.
      intros y Hy. apply Hl. by right.
Qed.

Lemma order_by_desc_singleton {D} (key : D -> string) (d : D) :
  order_by_desc key [d] = [d].
Proof. reflexivity. Qed.

Lemma aput_available (config : RunnableConfig) (c : gmap string string)
  (thread_id checkpoint_ns : string) (checkpoint : Checkpoint)
  (metadata new_versions : pyval) (now : datetime) (s : state)
  (type_ serialized_checkpoint serialized_metadata : string) :
  configurable config = Some c ->
  c !! "thread_id" = Some thread_id ->
  c !! "checkpoint_ns" = Some checkpoint_ns ->
  dumps_typed (checkpoint_value checkpoint) = Ok (type_, serialized_checkpoint) ->
  dumps metadata = Ok serialized_metadata ->
  available s ->
  exists s',
    aput config checkpoint metadata new_versions now s
    = (Ok (checkpoint_config thread_id checkpoint_ns (cp_id checkpoint)), s')
    /\ checkpoints_container s'
       = upsert checkpoints
           (aput_doc c thread_id checkpoint_ns checkpoint type_ serialized_checkpoint
              serialized_metadata)
           (checkpoints_container s)
    /\ writes_container s' = writes_container s
    /\ unavailable s' = unavailable s
    /\ rejects_unbound_parameter s' = rejects_unbound_parameter s
    /\ conversations_container s'
       = if opt_truthy (c !! "user_id")
         then upsert conversations
                (conversation_doc_of thread_id (default "" (c !! "user_id"))
                   checkpoint metadata now)
                (conversations_container s)
         else conversations_container s.
Proof.
  clear fromisoformat. intros Hc Ht Hns Hck Hmd Hav.
  unfold aput, try_except.
  rewrite (aput_try_unfold _ _ _ _ _ _ _ _ _ _ _ Hc Ht Hns Hck Hmd (Hav _)).
  set (s1 := set_checkpoints _ s).
  destruct (update_conversation_available config c thread_id checkpoint metadata now s1
              Hc Ht) as (s' & Hrun & Hcks & Hws & Hun & Hrej & Hconv); [exact Hav | ].
  unfold bind at 1. rewrite Hrun. cbn [ret].
  exists s'. by repeat split.
Qed.

(** The preview expression succeeds on the contents it can cut and
    raises [TypeError] on the others. *)
Lemma preview_content_sliceable (content : pyval) :
  match preview_content content with
  | Ok _ => sliceable content = true
  | Raise e => sliceable content = false /\ e = TypeError
  end.
Proof.
  destruct content as [ | | | | text | items | items | items | | | | ];
    cbn [preview_content sliceable]; try done.
  - by destruct (100 <? str_len text).
  - destruct (Nat.ltb_spec 100 (length items)) as [Hlong | Hshort].
    + split; [ | done]. apply Nat.leb_gt. lia.
    + apply Nat.leb_le. lia.
  - destruct (Nat.ltb_spec 100 (length items)) as [Hlong | Hshort].
    + split; [ | done]. apply Nat.leb_gt. lia.
    + apply Nat.leb_le. lia.
  - destruct (Nat.ltb_spec 100 (length items)) as [Hlong | Hshort].
    + split; [ | done]. apply Nat.leb_gt. lia.
    + apply Nat.leb_le. lia.
Qed.

(** The entry listed for the document an upsert writes: it counts the
    messages of the checkpoint, and building it fails only on a preview
    that cannot be cut. *)
Lemma summary_of_conversation_doc (thread_id user_id : string)
  (checkpoint : Checkpoint) (metadata : pyval) (now : datetime) (msgs : list pyval) :
  checkpoint_messages checkpoint = PList msgs ->
  fromisoformat (isoformat now) = Some now ->
  if previewable msgs then
    exists summary,
      conversation_summary_of
        (conversation_doc_of thread_id user_id checkpoint metadata now) = Ok summary
      /\ cs_thread_id summary = thread_id
      /\ cs_user_id summary = user_id
      /\ cs_last_updated summary = now
      /\ cs_message_count summary = length msgs
  else
    conversation_summary_of
      (conversation_doc_of thread_id user_id checkpoint metadata now) = Raise TypeError.
Proof.
  intros Hmsgs Hnow.
  unfold conversation_summary_of, conversation_doc_of, previewable, previewed_content.
  cbn [conv_messages conv_lastUpdated conv_id conv_userId].
  rewrite Hmsgs, Hnow. cbn [serialize_for_cosmosdb].
  assert (Hlen : length (map serialize_for_cosmosdb msgs) = length msgs)
    by apply length_map.
  destruct (map serialize_for_cosmosdb msgs) as [ | first stored];
    [cbn [result_bind]; eexists; split; [reflexivity | by cbn] | ].
  destruct first as [ | | | | | | | first_msg | | | | ];
    try (cbn [result_bind]; eexists; split; [reflexivity | by cbn]).
  pose proof (preview_content_sliceable (default (PStr "") (dict_get "content" first_msg)))
    as Hcut.
  destruct (preview_content (default (PStr "") (dict_get "content" first_msg)))
    as [shown | e].
  - rewrite Hcut. cbn [result_bind]. eexists. split; [reflexivity | by cbn].
  - destruct Hcut as [-> ->]. reflexivity.
Qed.

(** C8 (amended): [get_or_create_user_conversation] returns the thread id
    of the user's most recently updated conversation when there is one,
    and otherwise the fresh id, with nothing stored, so that the user's
    listing is empty right afterwards.  After the first [aput] for that
    thread and user a listing of at least one entry has exactly one,
    whose [message_count] is the number of messages in the checkpoint,
    provided the preview of the first message can be cut; when it cannot
    the listing raises, and a listing of no entry is empty. *)
Theorem lazy_thread_creation (user_id uuid4 : string) (limit : nat) (s : state) :
  available s ->
  user_id <> "" ->
  (forall d, d ∈ conversations_of s user_id ->
     exists latest,
       get_or_create_user_conversation user_id uuid4 s = Ok (conv_id latest)
       /\ latest ∈ conversations_of s user_id
       /\ forall d', d' ∈ conversations_of s user_id ->
            String.leb (conv_lastUpdated d') (conv_lastUpdated latest) = true)
  /\ (conversations_of s user_id = [] ->
      get_or_create_user_conversation user_id uuid4 s = Ok uuid4
      /\ get_conversations_by_user user_id limit s = Ok []
      /\ forall config c checkpoint_ns checkpoint metadata new_versions now msgs
           type_ serialized_checkpoint serialized_metadata,
           configurable config = Some c ->
           c !! "thread_id" = Some uuid4 ->
           c !! "checkpoint_ns" = Some checkpoint_ns ->
           c !! "user_id" = Some user_id ->
           dumps_typed (checkpoint_value checkpoint) = Ok (type_, serialized_checkpoint) ->
           dumps metadata = Ok serialized_metadata ->
           checkpoint_messages checkpoint = PList msgs ->
           fromisoformat (isoformat now) = Some now ->
           exists s',
             aput config checkpoint metadata new_versions now s
             = (Ok (checkpoint_config uuid4 checkpoint_ns (cp_id checkpoint)), s')
             /\ (limit = 0 -> get_conversations_by_user user_id limit s' = Ok [])
             /\ (0 < limit -> previewable msgs = true ->
                 exists summary,
                   get_conversations_by_user user_id limit s' = Ok [summary]
                   /\ cs_thread_id summary = uuid4
                   /\ cs_user_id summary = user_id
                   /\ cs_message_count summary = length msgs)
             /\ (0 < limit -> previewable msgs = false ->
                 exists e, get_conversations_by_user user_id limit s' = Raise e)).
Proof.
  intros Hav Huser. split.
  - (* an existing conversation *)
    intros d Hd. unfold get_or_create_user_conversation, query_items.
    rewrite (Hav _). cbn [result_bind c_get conversations].
    fold (conversations_of s user_id).
    destruct (order_by_desc conv_lastUpdated (conversations_of s user_id))
      as [ | latest rest] eqn:Hsort.
    { apply order_by_desc_nil in Hsort. rewrite Hsort in Hd.
      by apply elem_of_nil in Hd. }
    destruct (order_by_desc_head _ _ _ _ Hsort) as [Hin Hmax].
    exists latest. by repeat split.
  - (* no conversation yet *)
    intros Hnone. split; [ | split].
    + unfold get_or_create_user_conversation, query_items.
      rewrite (Hav _). cbn [result_bind c_get conversations].
      fold (conversations_of s user_id). by rewrite Hnone.
    + unfold get_conversations_by_user, query_items.
      rewrite (Hav _). cbn [result_bind c_get conversations].
      fold (conversations_of s user_id). rewrite Hnone.
      by destruct limit.
    + intros config c checkpoint_ns checkpoint metadata new_versions now msgs
        type_ serialized_checkpoint serialized_metadata
        Hc Ht Hns Hu Hck Hmd Hmsgs Hnow.
      destruct (aput_available config c uuid4 checkpoint_ns checkpoint metadata
                  new_versions now s type_ serialized_checkpoint serialized_metadata
                  Hc Ht Hns Hck Hmd Hav)
        as (s' & Hrun & _ & _ & Hun & _ & Hconv).
      rewrite Hu in Hconv. cbn [opt_truthy from_option] in Hconv. unfold id in Hconv.
      assert (Htruthy : str_truthy user_id = true).
      { unfold str_truthy. apply negb_true_iff. by apply String.eqb_neq. }
      rewrite Htruthy in Hconv.
      assert (Hlisting : forall n,
                get_conversations_by_user user_id (S n) s'
                = result_mapM conversation_summary_of
                    [conversation_doc_of uuid4 user_id checkpoint metadata now]).
      { intros n. unfold get_conversations_by_user, query_items.
        rewrite Hun, (Hav _). cbn [result_bind c_get conversations]. rewrite Hconv.
        rewrite (filter_upsert_fresh conversations).
        - rewrite order_by_desc_singleton. cbn [take]. by rewrite take_nil.
        - intros x Hx. destruct (String.eqb (conv_userId x) user_id) eqn:Hxu; [ | done].
          assert (Hin : x ∈ conversations_of s user_id)
            by (apply elem_of_filter_bool; by split).
          rewrite Hnone in Hin. by apply elem_of_nil in Hin.
        - intros x Hx. apply is_item_true in Hx as [Hx _]. cbn in Hx.
          by apply String.eqb_eq.
        - cbn. apply String.eqb_refl. }
      pose proof (summary_of_conversation_doc uuid4 user_id checkpoint metadata now msgs
                    Hmsgs Hnow) as Hsummary.
      exists s'. split; [exact Hrun | ]. split; [ | split].
      * intros ->. unfold get_conversations_by_user, query_items.
        rewrite Hun, (Hav _). reflexivity.
      * intros Hlimit Hcut. destruct limit as [ | n]; [lia | ].
        rewrite Hcut in Hsummary.
        destruct Hsummary as (summary & Hsum & Hthread & Hwho & _ & Hcount).
        exists summary. rewrite Hlisting. cbn [result_mapM]. rewrite Hsum.
        by repeat split.
      * intros Hlimit Hcut. destruct limit as [ | n]; [lia | ].
        rewrite Hcut in Hsummary. rewrite Hlisting. cbn [result_mapM].
        rewrite Hsummary. by eexists.
Qed.

(** ** Pending writes read back *)

Lemma aput_writes_unfold (config : RunnableConfig) (c : gmap string string)
  (thread_id checkpoint_ns checkpoint_id task_id : string)
  (writes_ : list (string * pyval)) (s s' : state) :
  configurable config = Some c ->
  c !! "thread_id" = Some thread_id ->
  c !! "checkpoint_ns" = Some checkpoint_ns ->
  c !! "checkpoint_id" = Some checkpoint_id ->
  store_writes thread_id checkpoint_ns checkpoint_id task_id 0 writes_ s = (Ok tt, s') ->
  aput_writes config writes_ task_id s = (Ok tt, s').
Proof.
  intros Hc Ht Hns Hid Hrun.
  unfold aput_writes, aput_writes_try, try_except, assert_configurable, subscript.
  rewrite Hc. cbn [bind lift]. rewrite Ht. cbn [bind lift].
  rewrite Hns. cbn [bind lift]. rewrite Hid. cbn [bind lift]. by rewrite Hrun.
Qed.

Lemma read_item_Some {D} (C : container D) (pk id : string) (d : D) (l : list D) :
  read_item C pk id l = Some d -> d ∈ l /\ item_key C d = (pk, id).
Proof.
  unfold read_item. intros Hfind. apply List.find_some in Hfind as [Hin Hitem].
  apply is_item_true in Hitem as [H1 H2].
  split; [by apply list_elem_of_In | ]. unfold item_key. by rewrite H1, H2.
Qed.

Lemma NoDup_filter_bool {A} (f : A -> bool) (l : list A) :
  NoDup l -> NoDup (List.filter f l).
Proof.
  induction l as [ | x l IH]; intros Hnd; [done | ].
  apply NoDup_cons in Hnd as [Hx Hnd]. cbn [List.filter].
  destruct (f x); [ | by apply IH].
  apply NoDup_cons. split; [ | by apply IH].
  intros Hin. apply elem_of_filter_bool in Hin as [Hin _]. done.
Qed.

(** Under the service's invariant, two stored documents with the same
    partition key and id are one document. *)
Lemma unique_items_eq {D} (C : container D) (l : list D) (x y : D) :
  unique_items C l -> x ∈ l -> y ∈ l -> item_key C x = item_key C y -> x = y.
Proof.
  unfold unique_items. induction l as [ | a l IH]; intros Hnd Hx Hy Hkey.
  - by apply elem_of_nil in Hx.
  - cbn [map] in Hnd. apply NoDup_cons in Hnd as [Ha Hnd].
    apply elem_of_cons in Hx as [-> | Hx], Hy as [-> | Hy]; [done | | | by apply IH].
    + destruct Ha. rewrite Hkey. apply list_elem_of_fmap. by exists y.
    + destruct Ha. rewrite <- Hkey. apply list_elem_of_fmap. by exists x.
Qed.

(** What [aput_writes] stores for a position is the document of that
    position. *)
Lemma persisted_write_doc (s : state)
  (thread_id checkpoint_ns checkpoint_id task_id : string) (idx : nat)
  (w : string * pyval) (doc : write_doc) :
  persisted_write s thread_id checkpoint_ns checkpoint_id task_id idx w = Some doc ->
  exists type_ value,
    dumps_typed w.2 = Ok (type_, value)
    /\ doc = write_doc_of thread_id checkpoint_ns checkpoint_id task_id idx w.1 type_ value.
Proof.
  unfold persisted_write.
  destruct (dumps_typed w.2) as [[type_ value] | ]; [ | done].
  destruct (unavailable s _); [done | ]. intros H. injection H as <-. by eexists _, _.
Qed.

Lemma persisted_write_ok (s : state)
  (thread_id checkpoint_ns checkpoint_id task_id : string) (idx : nat)
  (w : string * pyval) (type_ value : string) :
  available s ->
  dumps_typed w.2 = Ok (type_, value) ->
  persisted_write s thread_id checkpoint_ns checkpoint_id task_id idx w
  = Some (write_doc_of thread_id checkpoint_ns checkpoint_id task_id idx w.1 type_ value).
Proof. intros Hav Hd. unfold persisted_write. by rewrite Hd, (Hav _). Qed.

(** The loop of [aput_writes] keeps the service's invariant, and every
    document it leaves was there before or is the document of one of its
    positions. *)
Lemma store_writes_unique (thread_id checkpoint_ns checkpoint_id task_id : string)
  (writes_ : list (string * pyval)) :
  forall (idx : nat) (s : state),
    unique_items writes (writes_container s) ->
    unique_items writes
      (writes_container
         (store_writes thread_id checkpoint_ns checkpoint_id task_id idx writes_ s).2).
Proof.
  clear fromisoformat.
  induction writes_ as [ | w rest IH]; intros idx s Hunique; [done | ].
  rewrite store_writes_step. apply IH.
  destruct (persisted_write s _ _ _ _ idx w); [ | done].
  cbn [writes_container set_writes]. by apply unique_items_upsert.
Qed.

Lemma store_writes_elem_of (thread_id checkpoint_ns checkpoint_id task_id : string)
  (writes_ : list (string * pyval)) (x : write_doc) :
  forall (idx : nat) (s : state),
    x ∈ writes_container
          (store_writes thread_id checkpoint_ns checkpoint_id task_id idx writes_ s).2 ->
    x ∈ writes_container s
    \/ exists k w,
         writes_ !! k = Some w
         /\ persisted_write s thread_id checkpoint_ns checkpoint_id task_id (idx + k) w
            = Some x.
Proof.
  clear fromisoformat.
  induction writes_ as [ | w rest IH]; intros idx s Hx; [by left | ].
  rewrite store_writes_step in Hx.
  set (s1 := match persisted_write s _ _ _ _ idx w with
             | Some doc => set_writes (upsert writes doc (writes_container s)) s
             | None => s
             end) in Hx.
  assert (Hsame : forall k w',
             persisted_write s1 thread_id checkpoint_ns checkpoint_id task_id k w'
             = persisted_write s thread_id checkpoint_ns checkpoint_id task_id k w').
  { intros k w'. subst s1. by destruct (persisted_write s _ _ _ _ idx w). }
  destruct (IH (S idx) s1 Hx) as [Hin | (k & w' & Hk & Hdoc)].
  - subst s1. destruct (persisted_write s _ _ _ _ idx w) as [doc | ] eqn:Hdoc; [ | by left].
    cbn [writes_container set_writes] in Hin.
    apply elem_of_upsert in Hin as [-> | Hin]; [ | by left].
    right. exists 0, w. by rewrite Nat.add_0_r.
  - right. exists (S k), w'. split; [done | ].
    rewrite <- Hsame. by replace (idx + S k) with (S idx + k) by lia.
Qed.

(** C6 (amended): the index of a pending write is its position in the
    batch of one call.  For a stored, loadable checkpoint that has no
    pending write yet, after an earlier call for a task with at most two
    pairs, serializable or not, a call for the same task with two pairs
    that serialize leaves exactly its two writes for the checkpoint, as
    distinct documents with idx 0 and 1, and [aget_tuple] on the owning
    checkpoint returns exactly these two writes.  The order in which it
    returns them is the order in which the service returns the documents:
    the query for the writes has no ORDER BY. *)
Theorem pending_writes_read_back (config : RunnableConfig) (c : gmap string string)
  (thread_id checkpoint_ns checkpoint_id task_id : string)
  (earlier : list (string * pyval)) (channel0 channel1 : string) (value0 value1 : pyval)
  (type0 serialized0 type1 serialized1 : string) (s : state) :
  configurable config = Some c ->
  c !! "thread_id" = Some thread_id ->
  c !! "checkpoint_ns" = Some checkpoint_ns ->
  c !! "checkpoint_id" = Some checkpoint_id ->
  checkpoint_id <> "" ->
  available s ->
  unique_items writes (writes_container s) ->
  writes_of s thread_id checkpoint_ns checkpoint_id = [] ->
  (exists d, in_scope s thread_id checkpoint_ns d /\ ck_checkpoint_id d = checkpoint_id) ->
  (forall d, in_scope s thread_id checkpoint_ns d -> ck_checkpoint_id d = checkpoint_id ->
     (exists v, loads_typed (ck_type d, ck_checkpoint d) = Ok v)
     /\ (exists m, loads (ck_metadata d) = Ok m)) ->
  length earlier <= 2 ->
  dumps_typed value0 = Ok (type0, serialized0) ->
  loads_typed (type0, serialized0) = Ok value0 ->
  dumps_typed value1 = Ok (type1, serialized1) ->
  loads_typed (type1, serialized1) = Ok value1 ->
  exists s1 s2 tup pending,
    aput_writes config earlier task_id s = (Ok tt, s1)
    /\ aput_writes config [(channel0, value0); (channel1, value1)] task_id s1 = (Ok tt, s2)
    /\ writes_of s2 thread_id checkpoint_ns checkpoint_id
       ≡ₚ [write_doc_of thread_id checkpoint_ns checkpoint_id task_id 0
             channel0 type0 serialized0;
           write_doc_of thread_id checkpoint_ns checkpoint_id task_id 1
             channel1 type1 serialized1]
    /\ write_doc_id thread_id checkpoint_ns checkpoint_id task_id 0
       <> write_doc_id thread_id checkpoint_ns checkpoint_id task_id 1
    /\ aget_tuple config s2 = Some tup
    /\ ct_pending_writes tup = Some pending
    /\ pending ≡ₚ [(task_id, channel0, value0); (task_id, channel1, value1)].
Proof.
  clear fromisoformat.
  intros Hc Ht Hns Hid Hidne Hav Hunique Hnone Hck Hload Hlen Hd0 Hl0 Hd1 Hl1.
  set (doc0 := write_doc_of thread_id checkpoint_ns checkpoint_id task_id 0
                 channel0 type0 serialized0).
  set (doc1 := write_doc_of thread_id checkpoint_ns checkpoint_id task_id 1
                 channel1 type1 serialized1).
  (* the two calls *)
  destruct (store_writes_spec thread_id checkpoint_ns checkpoint_id task_id earlier 0 s)
    as (s1 & Hrun1 & Hframe1 & _ & _).
  destruct (store_writes_spec thread_id checkpoint_ns checkpoint_id task_id
              [(channel0, value0); (channel1, value1)] 0 s1)
    as (s2 & Hrun2 & Hframe2 & Hat2 & _).
  assert (Hav1 : available s1).
  { intros op. destruct Hframe1 as (_ & _ & Hu & _). rewrite Hu. apply Hav. }
  assert (Hav2 : available s2).
  { intros op. destruct Hframe2 as (_ & _ & Hu & _). rewrite Hu. apply Hav1. }
  assert (Hunique2 : unique_items writes (writes_container s2)).
  { pose proof (store_writes_unique thread_id checkpoint_ns checkpoint_id task_id
                  [(channel0, value0); (channel1, value1)] 0 s1) as H2.
    rewrite Hrun2 in H2. apply H2.
    pose proof (store_writes_unique thread_id checkpoint_ns checkpoint_id task_id
                  earlier 0 s Hunique) as H1.
    by rewrite Hrun1 in H1. }
  (* the documents of the second call are stored *)
  assert (Hin0 : doc0 ∈ writes_container s2).
  { pose proof (Hat2 0 (channel0, value0) eq_refl) as H.
    rewrite (persisted_write_ok s1 _ _ _ _ _ (channel0, value0) _ _ Hav1 Hd0) in H.
    by apply read_item_Some in H as [H _]. }
  assert (Hin1 : doc1 ∈ writes_container s2).
  { pose proof (Hat2 1 (channel1, value1) eq_refl) as H.
    rewrite (persisted_write_ok s1 _ _ _ _ _ (channel1, value1) _ _ Hav1 Hd1) in H.
    by apply read_item_Some in H as [H _]. }
  (* and they are the only ones of the checkpoint *)
  assert (Honly : forall x, x ∈ writes_of s2 thread_id checkpoint_ns checkpoint_id ->
                    x = doc0 \/ x = doc1).
  { intros x Hx. apply elem_of_filter_bool in Hx as [Hx Hfields].
    pose proof (store_writes_elem_of thread_id checkpoint_ns checkpoint_id task_id
                  [(channel0, value0); (channel1, value1)] x 0 s1) as Hsecond.
    rewrite Hrun2 in Hsecond.
    destruct (Hsecond Hx) as [Hx1 | (k & w & Hk & Hdoc)].
    - pose proof (store_writes_elem_of thread_id checkpoint_ns checkpoint_id task_id
                    earlier x 0 s) as Hfirst.
      rewrite Hrun1 in Hfirst.
      destruct (Hfirst Hx1) as [Hx0 | (k & w & Hk & Hdoc)].
      + assert (Hstored : x ∈ writes_of s thread_id checkpoint_ns checkpoint_id)
          by (apply elem_of_filter_bool; by split).
        rewrite Hnone in Hstored. by apply elem_of_nil in Hstored.
      + apply persisted_write_doc in Hdoc as (t & v & _ & Hdoc).
        apply lookup_lt_Some in Hk.
        destruct k as [ | [ | k]]; [left | right | lia].
        * apply (unique_items_eq writes (writes_container s2)); try done.
          by rewrite Hdoc.
        * apply (unique_items_eq writes (writes_container s2)); try done.
          by rewrite Hdoc.
    - destruct k as [ | [ | k]]; [left | right | done].
      + injection Hk as <-.
        rewrite (persisted_write_ok s1 _ _ _ _ _ (channel0, value0) _ _ Hav1 Hd0) in Hdoc.
        by injection Hdoc as <-.
      + injection Hk as <-.
        rewrite (persisted_write_ok s1 _ _ _ _ _ (channel1, value1) _ _ Hav1 Hd1) in Hdoc.
        by injection Hdoc as <-. }
  assert (Hwrites : writes_of s2 thread_id checkpoint_ns checkpoint_id ≡ₚ [doc0; doc1]).
  { apply NoDup_Permutation.
    - unfold writes_of. apply NoDup_filter_bool.
      by apply (NoDup_fmap_1 (item_key writes)).
    - apply NoDup_cons. split; [ | apply NoDup_singleton].
      intros H. apply list_elem_of_singleton in H. discriminate H.
    - intros x. split.
      + intros Hx. destruct (Honly x Hx) as [-> | ->]; [by left | right; by left].
      + intros Hx. apply elem_of_filter_bool.
        apply elem_of_cons in Hx as [-> | Hx];
          [ | apply list_elem_of_singleton in Hx as ->];
          (split; [done | cbn; by rewrite !String.eqb_refl]). }
  (* reading back *)
  assert (Hcks : checkpoints_container s2 = checkpoints_container s).
  { destruct Hframe1 as (_ & H1 & _), Hframe2 as (_ & H2 & _). congruence. }
  destruct (aget_tuple_rows config c thread_id s2 Hc Ht (Hav2 _))
    as (rows & Hrows & _ & Htry).
  assert (Hsup : supplied_checkpoint_id c = Some checkpoint_id).
  { unfold supplied_checkpoint_id, get_checkpoint_id. rewrite Hid. cbn.
    unfold str_truthy. by rewrite (proj2 (String.eqb_neq _ _) Hidne). }
  rewrite Hsup, Hns in Hrows. cbn [from_option] in Hrows. unfold id in Hrows.
  rewrite Hns in Htry. cbn [from_option] in Htry. unfold id in Htry.
  destruct rows as [ | doc rest].
  { destruct Hck as (d & (Hin & Hdt & Hdns) & Hdid).
    assert (Hd : d ∈ @nil checkpoint_doc).
    { apply Hrows. split; [ | done]. split; [by rewrite Hcks | done]. }
    by apply elem_of_nil in Hd. }
  assert (Hdoc : candidate s2 thread_id checkpoint_ns (Some checkpoint_id) doc)
    by (apply Hrows; by left).
  destruct Hdoc as [(Hin & Hdoct & Hdocns) Hdocid]. rewrite Hcks in Hin.
  destruct (Hload doc) as [[v Hv] [m Hm]]; [done | done | ].
  assert (Hread : forall stored pending,
            writes_of s2 thread_id checkpoint_ns checkpoint_id = stored ->
            result_mapM load_pending_write stored = Ok pending ->
            exists tup,
              aget_tuple config s2 = Some tup /\ ct_pending_writes tup = Some pending).
  { intros stored pending Hstored Hpending.
    unfold aget_tuple. rewrite Htry, Hv. cbn [result_bind].
    unfold query_items. rewrite (Hav2 _). cbn [c_get writes result_bind].
    rewrite Hdocid. fold (writes_of s2 thread_id checkpoint_ns checkpoint_id).
    rewrite Hstored, Hpending. cbn [result_bind]. rewrite Hm. cbn [result_bind].
    by eexists. }
  assert (Hload0 : load_pending_write doc0 = Ok (task_id, channel0, value0)).
  { unfold load_pending_write. cbn [w_type w_value w_task_id w_channel write_doc_of doc0].
    by rewrite Hl0. }
  assert (Hload1 : load_pending_write doc1 = Ok (task_id, channel1, value1)).
  { unfold load_pending_write. cbn [w_type w_value w_task_id w_channel write_doc_of doc1].
    by rewrite Hl1. }
  exists s1, s2.
  apply Permutation_sym in Hwrites as Horder.
  apply Permutation_length_2_inv in Horder as [Horder | Horder].
  - destruct (Hread _ [(task_id, channel0, value0); (task_id, channel1, value1)] Horder)
      as (tup & Hget & Hpending).
    { cbn [result_mapM]. by rewrite Hload0, Hload1. }
    exists tup, [(task_id, channel0, value0); (task_id, channel1, value1)].
    split; [by apply (aput_writes_unfold _ c thread_id checkpoint_ns checkpoint_id) | ].
    split; [by apply (aput_writes_unfold _ c thread_id checkpoint_ns checkpoint_id) | ].
    split; [exact Hwrites | ].
    split; [intros H; by apply write_doc_id_inj in H | ].
    by repeat split.
  - destruct (Hread _ [(task_id, channel1, value1); (task_id, channel0, value0)] Horder)
      as (tup & Hget & Hpending).
    { cbn [result_mapM]. by rewrite Hload1, Hload0. }
    exists tup, [(task_id, channel1, value1); (task_id, channel0, value0)].
    split; [by apply (aput_writes_unfold _ c thread_id checkpoint_ns checkpoint_id) | ].
    split; [by apply (aput_writes_unfold _ c thread_id checkpoint_ns checkpoint_id) | ].
    split; [exact Hwrites | ].
    split; [intros H; by apply write_doc_id_inj in H | ].
    split; [exact Hget | ]. split; [exact Hpending | apply Permutation_swap].
Qed.

(** ** Deleting documents *)

Lemma lawful_conversations : lawful conversations.
Proof. repeat split; try done. by intros []. Qed.

Lemma lawful_checkpoints : lawful checkpoints.
Proof. repeat split; try done. by intros []. Qed.

Lemma lawful_writes : lawful writes.
Proof. repeat split; try done. by intros []. Qed.

Lemma read_item_elem_of {D} (C : container D) (d : D) (l : list D) :
  d ∈ l -> is_Some (read_item C (c_partition_key C d) (c_item_id C d) l).
Proof.
  intros Hd. unfold read_item.
  destruct (List.find _ l) as [x | ] eqn:Hfind; [by eexists | ].
  apply list_elem_of_In in Hd.
  pose proof (List.find_none _ _ Hfind d Hd) as Hnone.
  by rewrite is_item_self in Hnone.
Qed.

Lemma elem_of_remove {D} (C : container D) (pk id : string) (x : D) (l : list D) :
  x ∈ remove C pk id l <-> x ∈ l /\ is_item C pk id x = false.
Proof. unfold remove. rewrite elem_of_filter_bool. by rewrite negb_true_iff. Qed.

Lemma elem_of_without {D} (C : container D) (gone l : list D) (x : D) :
  x ∈ without C gone l <->
  x ∈ l /\ forall d, d ∈ gone -> is_item C (c_partition_key C d) (c_item_id C d) x = false.
Proof.
  unfold without. rewrite elem_of_filter_bool. apply and_iff_compat_l.
  rewrite negb_true_iff. split.
  - intros Hex d Hd. destruct (is_item C _ _ x) eqn:Hx; [ | done].
    assert (Htrue : existsb (fun d => is_item C (c_partition_key C d) (c_item_id C d) x)
                      gone = true).
    { apply List.existsb_exists. exists d. split; [by apply list_elem_of_In | done]. }
    by rewrite Htrue in Hex.
  - intros Hall. apply not_true_is_false. intros Hex.
    apply List.existsb_exists in Hex as (d & Hd & Hx).
    apply list_elem_of_In in Hd. by rewrite (Hall d Hd) in Hx.
Qed.

Lemma without_cons {D} (C : container D) (d : D) (gone l : list D) :
  without C gone (remove C (c_partition_key C d) (c_item_id C d) l)
  = without C (d :: gone) l.
Proof.
  unfold without, remove. induction l as [ | x l IH]; [done | ].
  cbn [List.filter existsb].
  destruct (is_item C (c_partition_key C d) (c_item_id C d) x); cbn [negb orb List.filter].
  - apply IH.
  - destruct (existsb _ gone); cbn [negb]; by rewrite IH.
Qed.

Lemma filter_all {D} (l : list D) : List.filter (fun _ : D => true) l = l.
Proof. induction l as [ | x l IH]; [done | ]. cbn. by rewrite IH. Qed.

(** Deleting found documents one by one succeeds and leaves the
    container without them. *)
Lemma for_each_delete {D} (C : container D) (items : list D) :
  lawful C ->
  forall s,
    available s ->
    unique_items C items ->
    (forall d, d ∈ items -> d ∈ c_get C s) ->
    for_each items (fun d => delete_item C (c_item_id C d) (c_partition_key C d)) s
    = (Ok tt, c_set C (without C items (c_get C s)) s).
Proof.
  intros (Hget & Hun & Hset & Hid).
  induction items as [ | d items IH]; intros s Hav Huniq Hin.
  - cbn. unfold ret, without. cbn.
    by rewrite filter_all, Hid.
  - cbn [for_each]. unfold bind at 1. unfold delete_item at 1. rewrite (Hav _).
    destruct (read_item_elem_of C d (c_get C s)) as [x Hx]; [apply Hin; by left | ].
    rewrite Hx. apply NoDup_cons in Huniq as [Hd Huniq].
    rewrite IH.
    + by rewrite Hget, Hset, without_cons.
    + intros op. by rewrite Hun.
    + done.
    + intros d' Hd'. rewrite Hget. apply elem_of_remove. split; [apply Hin; by right | ].
      destruct (is_item C _ _ d') eqn:Hitem; [ | done].
      apply is_item_true in Hitem as [H1 H2]. destruct Hd.
      apply list_elem_of_fmap. exists d'. split; [ | done].
      unfold item_key. by rewrite H1, H2.
Qed.

(** ** delete_conversation *)

Lemma find_filter {D} (f : D -> bool) (l : list D) :
  List.find f l = match List.filter f l with x :: _ => Some x | [] => None end.
Proof. induction l as [ | x l IH]; [done | ]. cbn. by destruct (f x). Qed.

Lemma unique_items_filter {D} (C : container D) (f : D -> bool) (l : list D) :
  unique_items C l -> unique_items C (List.filter f l).
Proof.
  unfold unique_items. induction l as [ | x l IH]; [done | ].
  cbn. intros Hnd. apply NoDup_cons in Hnd as [Hx Hnd].
  destruct (f x); [ | by apply IH]. cbn. apply NoDup_cons. split; [ | by apply IH].
  intros Hin. apply Hx. apply list_elem_of_fmap in Hin as (y & Hy & Hin).
  apply list_elem_of_fmap. exists y. split; [done | ].
  by apply elem_of_filter_bool in Hin as [Hin _].
Qed.

(** With the service answering, the [try] block of [delete_conversation]
    runs to its end. *)
Lemma delete_conversation_try_ok (thread_id : string) (s : state) :
  available s ->
  rejects_unbound_parameter s = false ->
  unique_items checkpoints (checkpoints_container s) ->
  delete_conversation_try thread_id s
  = (Ok true,
     set_checkpoints
       (without checkpoints
          (List.filter (fun d => String.eqb (ck_thread_id d) thread_id)
             (checkpoints_container s))
          (checkpoints_container s))
       (set_conversations
          (match List.find (fun d => String.eqb (conv_id d) thread_id)
                   (conversations_container s) with
           | Some conv =>
               remove conversations (conv_userId conv) thread_id
                 (conversations_container s)
           | None => conversations_container s
           end) s)).
Proof.
  intros Hav Hrej Huniq.
  unfold delete_conversation_try. unfold bind at 1. unfold reads at 1.
  unfold query_items at 1. rewrite (Hav _). cbn [c_get conversations].
  rewrite find_filter.
  set (found := List.filter _ (conversations_container s)).
  set (convs' := match found with
                 | conv :: _ =>
                     remove conversations (conv_userId conv) thread_id
                       (conversations_container s)
                 | [] => conversations_container s
                 end).
  set (s1 := set_conversations convs' s).
  assert (Hstep1 :
    (match found with
     | conv :: _ => delete_item conversations thread_id (conv_userId conv)
     | [] => ret tt
     end) s = (Ok tt, s1)).
  { subst s1 convs'. destruct found as [ | conv rest] eqn:Hf.
    - unfold ret. by destruct s.
    - assert (Hc : conv ∈ found) by (rewrite Hf; by left).
      apply elem_of_filter_bool in Hc as [Hin Hid]. apply String.eqb_eq in Hid.
      unfold delete_item. rewrite (Hav _). cbn [c_get conversations c_set].
      destruct (read_item_elem_of conversations conv (conversations_container s) Hin)
        as [x Hx]. cbn [c_partition_key c_item_id conversations] in Hx.
      rewrite Hid in Hx. by rewrite Hx. }
  unfold bind at 1. rewrite Hstep1.
  unfold bind at 1. unfold reads at 1. unfold query_items at 1.
  change (unavailable s1) with (unavailable s). rewrite (Hav _).
  cbn [c_get checkpoints].
  change (checkpoints_container s1) with (checkpoints_container s).
  set (cks := List.filter _ (checkpoints_container s)).
  pose proof (for_each_delete checkpoints cks lawful_checkpoints s1) as Hdel.
  cbn [c_item_id c_partition_key c_get c_set checkpoints] in Hdel.
  unfold bind at 1. rewrite Hdel.
  - unfold bind at 1. unfold reads at 1. unfold query_items_unbound at 1.
    cbn [c_name writes].
    change (unavailable (set_checkpoints _ s1)) with (unavailable s).
    change (rejects_unbound_parameter (set_checkpoints _ s1))
      with (rejects_unbound_parameter s).
    rewrite (Hav _), Hrej. cbn [orb for_each]. unfold bind at 1. cbn [ret].
    subst s1 convs'. by destruct found.
  - intros op. apply Hav.
  - by apply unique_items_filter.
  - intros d Hd. by apply elem_of_filter_bool in Hd as [Hd _].
Qed.

(** C5 (amended): [delete_conversation] never raises.  When no storage
    request fails it returns [True], also when no conversation document
    has the id, and by then the conversation document it found and every
    checkpoint of the thread are gone; it returns [False] only when a
    storage request fails. *)
Theorem delete_conversation_outcome (thread_id : string) (s : state) :
  unique_items checkpoints (checkpoints_container s) ->
  exists b s',
    delete_conversation thread_id s = (Ok b, s')
    /\ (available s -> rejects_unbound_parameter s = false ->
        b = true
        /\ (forall d, d ∈ checkpoints_container s' <->
               d ∈ checkpoints_container s /\ ck_thread_id d <> thread_id)
        /\ conversations_container s'
           = match List.find (fun d => String.eqb (conv_id d) thread_id)
                     (conversations_container s) with
             | Some conv =>
                 remove conversations (conv_userId conv) thread_id
                   (conversations_container s)
             | None => conversations_container s
             end).
Proof.
  intros Huniq.
  destruct (delete_conversation_try thread_id s) as [[b | e] s'] eqn:Htry.
  - exists b, s'. split; [unfold delete_conversation, try_except; by rewrite Htry | ].
    intros Hav Hrej.
    rewrite (delete_conversation_try_ok thread_id s Hav Hrej Huniq) in Htry.
    injection Htry as <- <-. split; [done | ]. split; [ | done].
    intros d. cbn [checkpoints_container set_checkpoints]. rewrite elem_of_without.
    split.
    + intros [Hin Hnot]. split; [done | ]. intros Hthread.
      assert (Hd : d ∈ List.filter (fun d => String.eqb (ck_thread_id d) thread_id)
                         (checkpoints_container s)).
      { apply elem_of_filter_bool. split; [done | by apply String.eqb_eq]. }
      specialize (Hnot d Hd). by rewrite is_item_self in Hnot.
    + intros [Hin Hthread]. split; [done | ]. intros d' Hd'.
      apply elem_of_filter_bool in Hd' as [_ Hd']. apply String.eqb_eq in Hd'.
      destruct (is_item checkpoints _ _ d) eqn:Hitem; [ | done].
      apply is_item_true in Hitem as [H1 _]. cbn in H1. congruence.
  - eexists false, _. split.
    + unfold delete_conversation, try_except. rewrite Htry. reflexivity.
    + intros Hav Hrej.
      by rewrite (delete_conversation_try_ok thread_id s Hav Hrej Huniq) in Htry.
Qed.

(** *** The pending writes stay behind *)

Lemma preserves_bind {A B X} (f : state -> X) (m : M A) (k : A -> M B) :
  preserves f m -> (forall a, preserves f (k a)) -> preserves f (bind m k).
Proof.
  intros Hm Hk s. unfold bind. specialize (Hm s).
  destruct (m s) as [[a | e] s1]; cbn in Hm |- *; [ | done].
  by rewrite Hk.
Qed.

Lemma preserves_for_each {A X} (f : state -> X) (l : list A) (body : A -> M unit) :
  (forall x, preserves f (body x)) -> preserves f (for_each l body).
Proof.
  intros Hbody. induction l as [ | x l IH]; [done | ].
  cbn [for_each]. apply preserves_bind; [apply Hbody | by intros _].
Qed.

Lemma delete_item_keeps_writes {D} (C : container D) (item partition_key : string) :
  (forall l s, writes_container (c_set C l s) = writes_container s) ->
  preserves writes_container (delete_item C item partition_key).
Proof.
  intros Hset s. unfold delete_item.
  destruct (unavailable s _); [done | ].
  destruct (read_item C _ _ _); [ | done]. cbn. apply Hset.
Qed.

(** X20: [delete_conversation] removes no pending write, of this thread or of
    any other: the query of line 742 is sent without its parameter, so it
    yields no document (or is refused, which ends the [try] block). *)
Lemma delete_conversation_keeps_writes (thread_id : string) (s : state) :
  writes_container (delete_conversation thread_id s).2 = writes_container s.
Proof.
  assert (Htry : preserves writes_container (delete_conversation_try thread_id)).
  { unfold delete_conversation_try.
    apply preserves_bind; [done | intros found].
    apply preserves_bind.
    { destruct found as [ | conv ?]; [done | ].
      by apply delete_item_keeps_writes. }
    intros _. apply preserves_bind; [done | intros found_checkpoints].
    apply preserves_bind.
    { apply preserves_for_each. intros checkpoint.
      by apply delete_item_keeps_writes. }
    intros _ s0. unfold bind at 1, reads, query_items_unbound.
    by destruct (_ || _). }
  unfold delete_conversation, try_except. specialize (Htry s).
  by destruct (delete_conversation_try thread_id s) as [[b | e] s'].
Qed.

(** ** One conversation per user *)

Lemma upsert_fresh {D} (C : container D) (d : D) (l : list D) :
  (forall x, x ∈ l -> is_item C (c_partition_key C d) (c_item_id C d) x = false) ->
  upsert C d l = l ++ [d].
Proof.
  intros Hl. induction l as [ | x l IH]; [done | ]. cbn.
  rewrite Hl by (by left). f_equal. apply IH. intros y Hy. apply Hl. by right.
Qed.

Lemma filter_upsert_partition (user_id : string) (d : conversation_doc)
  (l : list conversation_doc) :
  conv_userId d = user_id ->
  List.filter (fun x => String.eqb (conv_userId x) user_id) (upsert conversations d l)
  = upsert conversations d
      (List.filter (fun x => String.eqb (conv_userId x) user_id) l).
Proof.
  intros Hd. induction l as [ | x l IH]; cbn [upsert List.filter].
  - by rewrite Hd, String.eqb_refl.
  - destruct (is_item conversations _ _ x) eqn:Hx.
    + pose proof Hx as Hx'. apply is_item_true in Hx' as [H1 _]. cbn in H1.
      cbn [List.filter]. rewrite H1, !Hd, String.eqb_refl.
      cbn [upsert]. by rewrite Hx.
    + cbn [List.filter]. destruct (String.eqb (conv_userId x) user_id).
      * cbn [upsert]. by rewrite Hx, IH.
      * apply IH.
Qed.

Lemma filter_without_partition (user_id : string)
  (gone l : list conversation_doc) :
  List.filter (fun x => String.eqb (conv_userId x) user_id) (without conversations gone l)
  = without conversations gone
      (List.filter (fun x => String.eqb (conv_userId x) user_id) l).
Proof.
  unfold without. induction l as [ | x l IH]; [done | ]. cbn [List.filter].
  destruct (negb (existsb _ gone)) eqn:Hg;
    destruct (String.eqb (conv_userId x) user_id) eqn:Hu; cbn [List.filter];
    rewrite ?Hg, ?Hu, IH; done.
Qed.

Lemma NoDup_only {A} (a : A) (l : list A) :
  NoDup l -> (forall x, x ∈ l <-> x = a) -> l = [a].
Proof.
  intros Hnd Hl. destruct l as [ | x l].
  - pose proof (proj2 (Hl a) eq_refl) as Ha. by apply elem_of_nil in Ha.
  - assert (x = a) as -> by (apply Hl; by left).
    destruct l as [ | y l]; [done | ].
    assert (y = a) as -> by (apply Hl; right; by left).
    apply NoDup_cons in Hnd as [Hnd _]. destruct Hnd. by left.
Qed.

Lemma NoDup_fmap_inv {A B} (f : A -> B) (l : list A) : NoDup (map f l) -> NoDup l.
Proof. apply (NoDup_fmap_1 f). Qed.

(** Deleting all but the first row of the sorted query leaves that row. *)
Lemma without_tail (U : list conversation_doc) (head : conversation_doc)
  (tail : list conversation_doc) :
  unique_items conversations U ->
  head :: tail ≡ₚ U ->
  without conversations tail U = [head].
Proof.
  intros Huniq Hperm.
  assert (Hkeys : NoDup (map (item_key conversations) (head :: tail))).
  { unfold unique_items in Huniq. by rewrite Hperm. }
  cbn [map] in Hkeys. apply NoDup_cons in Hkeys as [Hhead _].
  apply NoDup_only.
  - apply NoDup_fmap_inv with (f := item_key conversations).
    apply (unique_items_filter conversations _ _ Huniq).
  - intros x. rewrite elem_of_without. split.
    + intros [Hin Hnot]. rewrite <- Hperm in Hin.
      apply elem_of_cons in Hin as [-> | Hin]; [done | ].
      specialize (Hnot x Hin). by rewrite is_item_self in Hnot.
    + intros ->. split; [rewrite <- Hperm; by left | ].
      intros d Hd. destruct (is_item conversations _ _ head) eqn:Hitem; [ | done].
      apply is_item_true in Hitem as [H1 H2]. destruct Hhead.
      apply list_elem_of_fmap. exists d. split; [ | done].
      unfold item_key. by rewrite H1, H2.
Qed.

Lemma unique_items_partition (user_id : string) (l : list conversation_doc) :
  (forall d, d ∈ l -> conv_userId d = user_id) ->
  NoDup (map conv_id l) ->
  unique_items conversations l.
Proof.
  unfold unique_items. intros Hu. induction l as [ | x l IH]; [constructor | ].
  cbn. intros Hnd. apply NoDup_cons in Hnd as [Hx Hnd]. apply NoDup_cons. split.
  - intros Hin. apply Hx. apply list_elem_of_fmap in Hin as (y & Hy & Hin).
    apply list_elem_of_fmap. exists y. split; [ | done].
    unfold item_key in Hy. by injection Hy.
  - apply IH; [ | done]. intros d Hd. apply Hu. by right.
Qed.

(** [cleanup_old_conversations] keeps the first row of the user's
    conversations ordered by [lastUpdated], newest first. *)
Lemma cleanup_keeps_latest (user_id : string) (s : state) :
  available s ->
  NoDup (map conv_id (conversations_of s user_id)) ->
  exists s',
    cleanup_old_conversations user_id s = (Ok tt, s')
    /\ available s'
    /\ conversations_of s' user_id
       = take 1 (order_by_desc conv_lastUpdated (conversations_of s user_id)).
Proof.
  intros Hav Hnd. unfold cleanup_old_conversations.
  unfold bind at 1. unfold reads at 1. unfold query_items at 1. rewrite (Hav _).
  cbn [result_bind c_get conversations]. fold (conversations_of s user_id).
  set (U := conversations_of s user_id) in *.
  pose proof (order_by_desc_perm conv_lastUpdated U) as Hperm.
  destruct (order_by_desc conv_lastUpdated U) as [ | head tail] eqn:Hsort.
  { exists s. cbn. repeat split; [done | ].
    symmetry. by apply Permutation_nil_l. }
  destruct tail as [ | second tail].
  { exists s. cbn. repeat split; [done | ].
    symmetry. by apply Permutation_singleton_l. }
  cbn [length Nat.leb drop].
  assert (Huser : forall d, d ∈ U -> conv_userId d = user_id).
  { intros d Hd. apply elem_of_filter_bool in Hd as [_ Hd]. by apply String.eqb_eq. }
  assert (Huniq : unique_items conversations U)
    by (by apply (unique_items_partition user_id)).
  pose proof (for_each_delete conversations (second :: tail) lawful_conversations s Hav)
    as Hdel.
  cbn [c_item_id c_partition_key c_get c_set conversations] in Hdel.
  rewrite Hdel.
  - eexists. split; [reflexivity | ]. split; [intros op; apply Hav | ].
    unfold conversations_of at 1. cbn [conversations_container set_conversations].
    rewrite filter_without_partition. fold (conversations_of s user_id). fold U.
    by apply without_tail.
  - assert (Hk : unique_items conversations (head :: second :: tail)).
    { unfold unique_items in *. by rewrite Hperm. }
    unfold unique_items in *. cbn [map] in Hk. by apply NoDup_cons in Hk as [_ Hk].
  - intros d Hd.
    assert (HdU : d ∈ U) by (rewrite <- Hperm; by right).
    by apply elem_of_filter_bool in HdU as [HdU _].
Qed.

Lemma for_each_snoc {A} (l : list A) (x : A) (body : A -> M unit) (s : state) :
  for_each (l ++ [x]) body s = (let! _ := for_each l body in body x) s.
Proof.
  revert s. induction l as [ | y l IH]; intros s; cbn [app for_each].
  - unfold bind, ret. destruct (body x s) as [[u | e] s']; [destruct u | ]; reflexivity.
  - unfold bind. destruct (body y s) as [[u | e] s1]; [ | reflexivity].
    rewrite IH. reflexivity.
Qed.

Lemma upserted_snoc (ops : list directory_op) (op : directory_op) :
  upserted (ops ++ [op])
  = upserted ops ++ match op with
                    | Upsert thread_id _ _ now => [(thread_id, isoformat now)]
                    | Reconcile => []
                    end.
Proof. unfold upserted. rewrite omap_app. by destruct op. Qed.

Lemma session_config_lookup (thread_id user_id : string) :
  exists c : gmap string string,
    configurable (session_config thread_id user_id) = Some c
    /\ c !! "thread_id" = Some thread_id
    /\ c !! "user_id" = Some user_id.
Proof. eexists. split; [reflexivity | ]. by simplify_map_eq. Qed.

(** The invariant of the directory along any run from a state in which
    the user has no conversation. *)
Lemma run_ops_inv (user_id : string) (ops : list directory_op) (s : state) :
  user_id <> "" ->
  available s ->
  conversations_of s user_id = [] ->
  NoDup (map fst (upserted ops)) ->
  exists s', run_ops user_id ops s = (Ok tt, s') /\ directory_inv user_id ops s'.
Proof.
  intros Huser Hav Hnone. unfold run_ops.
  induction ops as [ | op ops IH] using rev_ind; intros Hnd.
  - exists s. split; [done | ]. unfold directory_inv. rewrite Hnone.
    repeat split; try done; try constructor.
    + intros d Hd. by apply elem_of_nil in Hd.
    + intros p Hp. by apply elem_of_nil in Hp.
  - rewrite upserted_snoc, map_app in Hnd.
    destruct IH as (s1 & Hrun & Hav1 & Hids & Hfrom & Hcover);
      [by apply NoDup_app in Hnd as [Hnd _] | ].
    rewrite for_each_snoc. unfold bind. rewrite Hrun.
    destruct op as [thread_id checkpoint metadata now | ]; cbn [run_op].
    + (* an upsert for a new thread *)
      destruct (session_config_lookup thread_id user_id) as (c & Hc & Ht & Hu).
      destruct (update_conversation_available _ c thread_id checkpoint metadata now s1
                  Hc Ht Hav1) as (s2 & Hrun2 & _ & _ & Hun & _ & Hconv).
      rewrite Hu in Hconv. cbn [opt_truthy from_option] in Hconv. unfold id in Hconv.
      assert (Htruthy : str_truthy user_id = true).
      { unfold str_truthy. apply negb_true_iff. by apply String.eqb_neq. }
      rewrite Htruthy in Hconv.
      set (doc := conversation_doc_of thread_id user_id checkpoint metadata now) in *.
      assert (HU : conversations_of s2 user_id = conversations_of s1 user_id ++ [doc]).
      { unfold conversations_of. rewrite Hconv.
        rewrite filter_upsert_partition by done. apply upsert_fresh.
        intros x Hx. destruct (is_item conversations _ _ x) eqn:Hitem; [ | done].
        apply is_item_true in Hitem as [_ Hid]. cbn in Hid.
        apply NoDup_app in Hnd as (_ & Hnd & _). destruct (Hnd thread_id).
        - apply list_elem_of_fmap. exists (conv_id x, conv_lastUpdated x).
          split; [done | by apply Hfrom].
        - by left. }
      exists s2. split; [done | ]. unfold directory_inv.
      rewrite HU, upserted_snoc. split; [intros op; rewrite Hun; apply Hav1 | ].
      split; [ | split].
      * rewrite map_app. apply NoDup_app. split; [done | ]. split; [ | by apply NoDup_singleton].
        intros t Hin Hin'. cbn in Hin'. apply list_elem_of_singleton in Hin' as ->.
        apply list_elem_of_fmap in Hin as (x & Hid & Hx).
        apply NoDup_app in Hnd as (_ & Hnd & _). destruct (Hnd thread_id).
        -- apply list_elem_of_fmap. exists (conv_id x, conv_lastUpdated x).
           split; [done | by apply Hfrom].
        -- by left.
      * intros d Hd. apply elem_of_app in Hd as [Hd | Hd]; apply elem_of_app.
        -- left. by apply Hfrom.
        -- right. apply list_elem_of_singleton in Hd as ->. by left.
      * intros p Hp. apply elem_of_app in Hp as [Hp | Hp].
        -- destruct (Hcover p Hp) as (d & Hd & Hle). exists d.
           split; [apply elem_of_app; by left | done].
        -- apply list_elem_of_singleton in Hp as ->. exists doc.
           split; [apply elem_of_app; right; by left | apply string_leb_refl].
    + (* a reconciliation *)
      destruct (cleanup_keeps_latest user_id s1 Hav1 Hids) as (s2 & Hrun2 & Hav2 & HU).
      exists s2. split; [done | ]. unfold directory_inv.
      rewrite HU, upserted_snoc, app_nil_r. split; [done | ].
      destruct (order_by_desc conv_lastUpdated (conversations_of s1 user_id))
        as [ | head rest] eqn:Hsort.
      * apply order_by_desc_nil in Hsort. cbn. repeat split; try constructor.
        -- intros d Hd. by apply elem_of_nil in Hd.
        -- intros p Hp. destruct (Hcover p Hp) as (d & Hd & _).
           rewrite Hsort in Hd. by apply elem_of_nil in Hd.
      * destruct (order_by_desc_head _ _ _ _ Hsort) as [Hin Hmax]. cbn [take].
        rewrite take_0. split; [apply NoDup_singleton | ]. split.
        -- intros d Hd. apply list_elem_of_singleton in Hd as ->. by apply Hfrom.
        -- intros p Hp. destruct (Hcover p Hp) as (d & Hd & Hle). exists head.
           split; [by left | ].
           apply (string_leb_trans _ (conv_lastUpdated d)); [done | by apply Hmax].
Qed.

(** C4: from a state in which the user has no conversation, after any
    sequence of conversation upserts for distinct threads (at least one)
    interleaved with reconciliations, a final reconciliation leaves
    exactly one conversation document of the user: one of the upserted,
    carrying the latest [lastUpdated]. *)
Theorem one_conversation_per_user (user_id : string) (ops : list directory_op)
  (s : state) :
  user_id <> "" ->
  available s ->
  conversations_of s user_id = [] ->
  NoDup (map fst (upserted ops)) ->
  upserted ops <> [] ->
  exists s' latest,
    (let! _ := run_ops user_id ops in cleanup_old_conversations user_id) s = (Ok tt, s')
    /\ conversations_of s' user_id = [latest]
    /\ (conv_id latest, conv_lastUpdated latest) ∈ upserted ops
    /\ forall p, p ∈ upserted ops ->
         String.leb p.2 (conv_lastUpdated latest) = true.
Proof.
  clear serde base64 fromisoformat.
  intros Huser Hav Hnone Hnd Hsome.
  destruct (run_ops_inv user_id ops s Huser Hav Hnone Hnd)
    as (s1 & Hrun & Hav1 & Hids & Hfrom & Hcover).
  destruct (cleanup_keeps_latest user_id s1 Hav1 Hids) as (s' & Hrun' & _ & HU).
  destruct (order_by_desc conv_lastUpdated (conversations_of s1 user_id))
    as [ | latest rest] eqn:Hsort.
  { apply order_by_desc_nil in Hsort.
    destruct (upserted ops) as [ | p ps] eqn:Hup; [done | ].
    destruct (Hcover p) as (d & Hd & _); [by left | ].
    rewrite Hsort in Hd. by apply elem_of_nil in Hd. }
  destruct (order_by_desc_head _ _ _ _ Hsort) as [Hin Hmax].
  exists s', latest. unfold bind. rewrite Hrun. split; [done | ].
  split; [by rewrite HU | ]. split; [by apply Hfrom | ].
  intros p Hp. destruct (Hcover p Hp) as (d & Hd & Hle).
  apply (string_leb_trans _ (conv_lastUpdated d)); [done | by apply Hmax].
Qed.

(* ================================================================= *)
(** * Further properties *)

(** Forget the collaborators a statement does not mention. *)
Ltac detach := try clear serde; try clear base64; try clear fromisoformat.

(** ** Object codec: what is stored, and what is lost *)

(** Structural induction that also reaches the elements of tuples and the
    attributes of objects. *)
Lemma pyval_deep_ind (P : pyval -> Prop) :
  P PNone ->
  (forall b, P (PBool b)) ->
  (forall n, P (PInt n)) ->
  (forall bits, P (PFloat bits)) ->
  (forall s, P (PStr s)) ->
  (forall items, Forall P items -> P (PList items)) ->
  (forall items, Forall P items -> P (PTuple items)) ->
  (forall items, Forall (fun kv => P kv.2) items -> P (PDict items)) ->
  (forall d, P (PDatetime d)) ->
  (forall c t content ak rm id others, P (PMessage c t content ak rm id others)) ->
  (forall c attrs, Forall (fun kv => P kv.2) attrs -> P (PObject c attrs)) ->
  (forall c str, P (POther c str)) ->
  forall x, P x.
Proof.
  intros HNone HBool HInt HFloat HStr HList HTuple HDict HDt HMsg HObj HOther.
  refine (fix IH (x : pyval) : P x :=
            match x with
            | PNone => HNone
            | PBool b => HBool b
            | PInt n => HInt n
            | PFloat bits => HFloat bits
            | PStr s => HStr s
            | PList items =>
                HList items
                  ((fix all (l : list pyval) : Forall P l :=
                      match l with
                      | [] => @List.Forall_nil _ P
                      | y :: l' => @List.Forall_cons _ P y l' (IH y) (all l')
                      end) items)
            | PTuple items =>
                HTuple items
                  ((fix all (l : list pyval) : Forall P l :=
                      match l with
                      | [] => @List.Forall_nil _ P
                      | y :: l' => @List.Forall_cons _ P y l' (IH y) (all l')
                      end) items)
            | PDict items =>
                HDict items
                  ((fix all (l : dict) : Forall (fun kv => P kv.2) l :=
                      match l with
                      | [] => @List.Forall_nil _ (fun kv => P kv.2)
                      | kv :: l' => @List.Forall_cons _ (fun kv => P kv.2) kv l' (IH kv.2) (all l')
                      end) items)
            | PDatetime d => HDt d
            | PMessage c t content ak rm id others => HMsg c t content ak rm id others
            | PObject c attrs =>
                HObj c attrs
                  ((fix all (l : dict) : Forall (fun kv => P kv.2) l :=
                      match l with
                      | [] => @List.Forall_nil _ (fun kv => P kv.2)
                      | kv :: l' => @List.Forall_cons _ (fun kv => P kv.2) kv l' (IH kv.2) (all l')
                      end) attrs)
            | POther c str => HOther c str
            end).
Qed.

Lemma json_value_fixed (x : pyval) :
  json_value x = true -> serialize_for_cosmosdb x = x.
Proof.
  induction x as [ | b | n | bits | s | items IH | items | items IH | d
                 | c t content ak rm id others | c attrs | c str ] using pyval_tree_ind;
    intros Hj; try done.
  - cbn in *. f_equal.
    induction IH as [ | x items Hx _ IHitems]; [done | ].
    cbn in Hj. apply andb_prop in Hj as [H1 H2].
    cbn. rewrite Hx, IHitems; done.
  - cbn in *. f_equal.
    induction IH as [ | [k v] items Hx _ IHitems]; [done | ].
    cbn in Hj. apply andb_prop in Hj as [H1 H2].
    cbn in *. rewrite Hx, IHitems; done.
Qed.

Lemma json_dict_set (k : string) (v : pyval) (d : dict) :
  json_value v = true ->
  forallb (fun kv => json_value kv.2) d = true ->
  forallb (fun kv => json_value kv.2) (dict_set k v d) = true.
Proof.
  intros Hv. induction d as [ | [k' v'] d IH]; cbn; intros Hd.
  - by rewrite Hv.
  - apply andb_prop in Hd as [H1 H2].
    destruct (String.eqb k' k); cbn; [by rewrite Hv | by rewrite H1, IH].
Qed.

Lemma json_dict_update (d other : dict) :
  forallb (fun kv => json_value kv.2) other = true ->
  forallb (fun kv => json_value kv.2) d = true ->
  forallb (fun kv => json_value kv.2) (dict_update d other) = true.
Proof.
  unfold dict_update. revert d.
  induction other as [ | [k v] other IH]; intros d Ho Hd; [done | ].
  cbn in Ho. apply andb_prop in Ho as [H1 H2].
  cbn. apply IH; [done | by apply json_dict_set].
Qed.

Lemma serialize_json (x : pyval) :
  messages_flat x = true -> json_value (serialize_for_cosmosdb x) = true.
Proof.
  induction x as [ | b | n | bits | s | items IH | items IH | items IH | d
                 | c t content ak rm id others | c attrs IH | c str ] using pyval_deep_ind;
    intros Hflat; try done.
  - cbn in *. induction IH as [ | x items Hx _ IHitems]; [done | ].
    cbn in Hflat. apply andb_prop in Hflat as [H1 H2].
    cbn. rewrite Hx, IHitems; done.
  - cbn in *. induction IH as [ | x items Hx _ IHitems]; [done | ].
    cbn in Hflat. apply andb_prop in Hflat as [H1 H2].
    cbn. rewrite Hx, IHitems; done.
  - cbn in *. induction IH as [ | [k v] items Hx _ IHitems]; [done | ].
    cbn in Hflat. apply andb_prop in Hflat as [H1 H2].
    cbn in *. rewrite Hx, IHitems; done.
  - cbn in Hflat.
    apply andb_prop in Hflat as [Hflat Hid]. apply andb_prop in Hflat as [Hflat Hrm].
    apply andb_prop in Hflat as [Hcontent Hak].
    cbn. rewrite Hcontent. cbn.
    destruct ak as [ak | ], rm as [rm | ], id as [id | ]; cbn in *;
      rewrite ?Hak, ?Hrm, ?Hid; reflexivity.
  - cbn [serialize_for_cosmosdb json_value]. apply json_dict_update; [ | done].
    cbn in Hflat. induction IH as [ | [k v] items Hx _ IHitems]; [done | ].
    cbn in Hflat. apply andb_prop in Hflat as [H1 H2].
    cbn in *. rewrite Hx, IHitems; done.
  - by destruct str.
Qed.

(** X1: What [serialize_for_cosmosdb] returns is JSON - dicts, lists,
    strings, numbers, booleans and [None] - for every value, whatever
    objects, tuples and datetimes it holds, provided the attributes of the
    message objects in it are JSON (a message's attributes are copied, not
    descended into); and serializing the result again changes nothing. *)
Theorem serialize_is_json (x : pyval) :
  messages_flat x = true ->
  json_value (serialize_for_cosmosdb x) = true
  /\ serialize_for_cosmosdb (serialize_for_cosmosdb x) = serialize_for_cosmosdb x.
Proof.
  intros Hflat. pose proof (serialize_json x Hflat) as Hj.
  split; [exact Hj | by apply json_value_fixed].
Qed.

Lemma dict_get_None (k : string) (d : dict) :
  dict_get k d = None <-> k ∉ map fst d.
Proof.
  detach. induction d as [ | [k' v] d IH]; cbn.
  - split; [intros _; apply not_elem_of_nil | done].
  - rewrite not_elem_of_cons. destruct (String.eqb k' k) eqn:E.
    + apply String.eqb_eq in E as ->. split; [done | intros [? _]; done].
    + apply String.eqb_neq in E. rewrite IH. split; [intros ?; split; congruence | tauto].
Qed.

Lemma dict_set_fresh (k : string) (v : pyval) (d : dict) :
  k ∉ map fst d -> dict_set k v d = d ++ [(k, v)].
Proof.
  induction d as [ | [k' v'] d IH]; cbn; [done | ].
  rewrite not_elem_of_cons. intros [Hne Hnot].
  destruct (String.eqb k' k) eqn:E.
  - apply String.eqb_eq in E. congruence.
  - by rewrite IH.
Qed.

Lemma dict_update_fresh (d other : dict) :
  NoDup (map fst other) ->
  (forall k, k ∈ map fst other -> k ∉ map fst d) ->
  dict_update d other = d ++ other.
Proof.
  unfold dict_update. revert d.
  induction other as [ | [k v] other IH]; intros d Hnd Hdisj; cbn.
  - by rewrite app_nil_r.
  - cbn in Hnd. apply NoDup_cons in Hnd as [Hk Hnd].
    rewrite dict_set_fresh by (apply Hdisj; cbn; by left).
    rewrite IH; [by rewrite <- app_assoc | done | ].
    intros k' Hk'. rewrite map_app. cbn. rewrite elem_of_app.
    intros [Hin | Hin].
    + apply (Hdisj k'); [cbn; by right | done].
    + apply list_elem_of_singleton in Hin as ->. done.
Qed.

(** The dict comprehension of the decoder, as a filter and a map. *)
Lemma deserialize_tagged (items : dict) (obj_type : pyval) :
  dict_get "_type" items = Some obj_type ->
  message_class_of_tag obj_type = None ->
  deserialize_from_cosmosdb (PDict items) = PDict (untagged items).
Proof.
  intros Htag Hcls. cbn [deserialize_from_cosmosdb]. rewrite Htag, Hcls.
  f_equal. unfold untagged. clear.
  induction items as [ | kv items IH]; [done | ].
  cbn [List.filter]. destruct (negb (String.eqb kv.1 "_type")); cbn [map]; by rewrite IH.
Qed.

Lemma filter_no_tag (items : dict) :
  "_type" ∉ map fst items ->
  List.filter (fun kv => negb (String.eqb kv.1 "_type")) items = items.
Proof.
  induction items as [ | [k v] items IH]; cbn; [done | ].
  rewrite not_elem_of_cons. intros [Hne Hnot].
  destruct (String.eqb k "_type") eqn:E.
  - apply String.eqb_eq in E. congruence.
  - cbn. by rewrite IH.
Qed.

(** X2: What the round trip loses for an object outside the three
    message classes.  An object without a [content] or without a [type]
    attribute comes back as the plain dict of its attributes, each taken
    through the round trip, without its class.  An object that has both
    (a [ToolMessage], say) comes back as the dict of the five keys the
    encoder keeps - content, type, additional_kwargs, response_metadata
    and id, each decoded - without its class and without any of its
    further attributes.  A tuple comes back as a list. *)
Theorem object_comes_back_as_dict (class_name : string) (attrs : dict)
  (items : list pyval) (type_ : string) (content : pyval)
  (additional_kwargs response_metadata id : option pyval) (others : dict) :
  message_type_of_class class_name = None ->
  (NoDup (map fst attrs) ->
   "_type" ∉ map fst attrs ->
   deserialize_from_cosmosdb (serialize_for_cosmosdb (PObject class_name attrs))
   = PDict (map (fun kv => (kv.1, deserialize_from_cosmosdb (serialize_for_cosmosdb kv.2)))
              attrs))
  /\ deserialize_from_cosmosdb
       (serialize_for_cosmosdb
          (PMessage class_name type_ content additional_kwargs response_metadata id
             others))
     = PDict [("content", deserialize_from_cosmosdb content);
              ("type", deserialize_from_cosmosdb (PStr type_));
              ("additional_kwargs",
               deserialize_from_cosmosdb (default (PDict []) additional_kwargs));
              ("response_metadata",
               deserialize_from_cosmosdb (default (PDict []) response_metadata));
              ("id", deserialize_from_cosmosdb (default PNone id))]
  /\ deserialize_from_cosmosdb (serialize_for_cosmosdb (PTuple items))
     = PList (map (fun v => deserialize_from_cosmosdb (serialize_for_cosmosdb v)) items).
Proof.
  intros Hcls. split; [ | split].
  - intros Hnd Hnotag. cbn [serialize_for_cosmosdb].
    rewrite dict_update_fresh.
    + rewrite (deserialize_tagged _ (PStr class_name)).
      * unfold untagged. cbn [app List.filter fst String.eqb Ascii.eqb Bool.eqb negb].
        rewrite filter_no_tag by (by rewrite map_map).
        by rewrite map_map.
      * reflexivity.
      * cbn. by rewrite Hcls.
    + by rewrite map_map.
    + intros k Hk. rewrite map_map in Hk. cbn in Hk. cbn.
      intros Hin. apply list_elem_of_singleton in Hin as ->. done.
  - cbn [serialize_for_cosmosdb].
    rewrite (deserialize_tagged _ (PStr class_name)).
    + reflexivity.
    + reflexivity.
    + cbn. by rewrite Hcls.
  - cbn. by rewrite map_map.
Qed.

(** A character that is nowhere in a text is not among its last
    characters. *)
Lemma existsb_last_chars_rev {f : ascii -> bool} (n : nat) (l : list ascii) :
  existsb f l = false -> existsb f (last_chars_rev n l) = false.
Proof.
  revert n. induction l as [ | c l IH]; intros n; [done | ].
  cbn [existsb last_chars_rev]. intros H. apply orb_false_elim in H as [Hc Hl].
  destruct n as [ | n]; [done | ]. cbn [existsb]. rewrite Hc. cbn. by apply IH.
Qed.

Lemma existsb_rev {A} (f : A -> bool) (l : list A) :
  existsb f (rev l) = existsb f l.
Proof.
  induction l as [ | x l IH]; [done | ].
  cbn [rev existsb]. rewrite List.existsb_app, IH. cbn [existsb].
  rewrite orb_false_r. apply orb_comm.
Qed.

Lemma existsb_last_n {f : ascii -> bool} (n : nat) (l : list ascii) :
  existsb f l = false -> existsb f (last_n n l) = false.
Proof.
  intros H. unfold last_n. rewrite existsb_rev.
  apply existsb_last_chars_rev. by rewrite existsb_rev.
Qed.

(** X3: Which texts the decoder leaves alone, whatever the timestamp parser
    accepts: those of at most ten characters, those without a ['T'], and
    those that neither end in ['Z'] nor hold a ['+'].  So a datetime whose
    ISO text has no [+hh:mm] offset - a naive one, or one west of UTC -
    is stored as text and comes back as that text, not as a datetime. *)
Theorem datetime_without_plus_offset_is_text (d : datetime) :
  str_len (isoformat d) <= 10
  \/ contains_char "T" (chars (isoformat d)) = false
  \/ (endswith_char "Z" (chars (isoformat d)) = false
      /\ contains_char "+" (chars (isoformat d)) = false) ->
  deserialize_from_cosmosdb (serialize_for_cosmosdb (PDatetime d)) = PStr (isoformat d).
Proof.
  intros H. cbn [serialize_for_cosmosdb deserialize_from_cosmosdb].
  assert (Hiso : looks_like_iso (isoformat d) = false); [ | by rewrite Hiso].
  unfold looks_like_iso. destruct H as [H | [H | [H1 H2]]].
  - apply Nat.ltb_ge in H. by rewrite H.
  - rewrite H. by rewrite andb_false_r.
  - rewrite H1. unfold contains_char in *.
    rewrite (existsb_last_n _ _ H2). by rewrite andb_false_r.
Qed.

Lemma dict_get_untagged (items : dict) : dict_get "_type" (untagged items) = None.
Proof.
  apply dict_get_None. unfold untagged. rewrite map_map. cbn.
  induction items as [ | [k v] items IH]; cbn; [apply not_elem_of_nil | ].
  destruct (String.eqb k "_type") eqn:E; cbn; [done | ].
  apply not_elem_of_cons. split; [ | done].
  apply String.eqb_neq in E. congruence.
Qed.

(** X4: Decoding is idempotent: a decoded value is left as it is by a second
    decoding. *)
Theorem deserialize_idempotent (x : pyval) :
  deserialize_from_cosmosdb (deserialize_from_cosmosdb x) = deserialize_from_cosmosdb x.
Proof.
  induction x as [ | b | n | bits | s | items IH | items | items IH | d
                 | c t content ak rm id others | c attrs | c str ] using pyval_tree_ind;
    try done.
  - cbn. destruct (looks_like_iso s) eqn:Hiso; [ | cbn; by rewrite Hiso].
    destruct (fromisoformat (replace_Z s)) eqn:Hparse; [done | ].
    cbn. by rewrite Hiso, Hparse.
  - cbn. f_equal. rewrite map_map.
    induction IH as [ | x items Hx _ IHitems]; [done | ].
    cbn. by rewrite Hx, IHitems.
  - destruct (dict_get "_type" items) as [obj_type | ] eqn:Htag.
    + destruct (message_class_of_tag obj_type) as [[class_name type_] | ] eqn:Hcls.
      * cbn. by rewrite Htag, Hcls.
      * rewrite (deserialize_tagged _ _ Htag Hcls).
        cbn [deserialize_from_cosmosdb]. rewrite dict_get_untagged.
        f_equal. unfold untagged. rewrite map_map. cbn. clear Htag.
        induction IH as [ | [k v] items Hx _ IHitems]; [done | ].
        cbn. destruct (String.eqb k "_type"); cbn; [done | ].
        cbn in Hx. by rewrite Hx, IHitems.
    + cbn [deserialize_from_cosmosdb]. rewrite Htag.
      cbn [deserialize_from_cosmosdb]. rewrite dict_get_map_values, Htag.
      cbn. f_equal. rewrite map_map. clear Htag.
      induction IH as [ | [k v] items Hx _ IHitems]; [done | ].
      cbn in *. by rewrite Hx, IHitems.
Qed.

(** ** Typed codec *)

(** X5: The typed codec gives back what it was given whenever the serializer
    and base64 do, and whatever fails inside it surfaces as a
    [ValueError] with the method's fixed message, wrapping the cause. *)
Theorem typed_codec_contract :
  (forall obj type_ raw,
     serde_dumps_typed serde obj = Ok (type_, raw) ->
     serde_loads_typed serde (type_, raw) = Ok obj ->
     b64decode base64 (b64encode base64 raw) = Ok raw ->
     exists data, dumps_typed obj = Ok data /\ loads_typed data = Ok obj)
  /\ (forall obj raw,
        serde_dumps serde obj = Ok raw ->
        serde_loads serde raw = Ok obj ->
        b64decode base64 (b64encode base64 raw) = Ok raw ->
        exists data, dumps obj = Ok data /\ loads data = Ok obj)
  /\ (forall obj e,
        dumps_typed obj = Raise e \/ dumps obj = Raise e ->
        exists cause, e = ValueError "Failed to serialize object: " (Some cause))
  /\ (forall typed text e,
        loads_typed typed = Raise e \/ loads text = Raise e ->
        exists cause, e = ValueError "Failed to deserialize data: " (Some cause)).
Proof.
  detach. repeat split.
  - intros obj type_ raw Hd Hl Hb. exists (type_, b64encode base64 raw).
    unfold dumps_typed, loads_typed. rewrite Hd. split; [done | ].
    cbn. rewrite Hb. cbn. by rewrite Hl.
  - intros obj raw Hd Hl Hb. exists (b64encode base64 raw).
    unfold dumps, loads. rewrite Hd. split; [done | ].
    rewrite Hb. cbn. by rewrite Hl.
  - intros obj e [H | H].
    + unfold dumps_typed in H.
      destruct (serde_dumps_typed serde obj) as [[t r] | cause]; [done | ].
      injection H as <-. by exists cause.
    + unfold dumps in H.
      destruct (serde_dumps serde obj) as [r | cause]; [done | ].
      injection H as <-. by exists cause.
  - intros typed text e [H | H].
    + unfold loads_typed in H.
      destruct (let? raw := b64decode base64 typed.2 in
                serde_loads_typed serde (typed.1, raw)) as [v | cause]; [done | ].
      injection H as <-. by exists cause.
    + unfold loads in H.
      destruct (let? raw := b64decode base64 text in serde_loads serde raw)
        as [v | cause]; [done | ].
      injection H as <-. by exists cause.
Qed.

(** ** Listing checkpoints *)

Lemma StronglySorted_omap {A B} (R1 : relation A) (R2 : relation B)
  (f : A -> option B) (l : list A) :
  (forall a b a' b', R1 a b -> f a = Some a' -> f b = Some b' -> R2 a' b') ->
  StronglySorted R1 l -> StronglySorted R2 (omap f l).
Proof.
  detach. intros Hf Hs. induction Hs as [ | x l Hs IH Hall]; [constructor | ].
  cbn. destruct (f x) as [y | ] eqn:Hx; [ | done].
  constructor; [done | ].
  apply Forall_forall. intros y' Hy'.
  apply list_elem_of_omap in Hy' as (x' & Hx' & Hfx').
  rewrite Forall_forall in Hall. by apply (Hf x x'); [apply Hall | | ].
Qed.

Lemma StronglySorted_take {A} (R : relation A) (n : nat) (l : list A) :
  StronglySorted R l -> StronglySorted R (take n l).
Proof.
  detach. intros Hs. rewrite <- (take_drop n l) in Hs.
  by apply StronglySorted_app_1_l in Hs.
Qed.

Lemma length_omap_le {A B} (f : A -> option B) (l : list A) :
  length (omap f l) <= length l.
Proof.
  detach. induction l as [ | x l IH]; cbn; [lia | ].
  destruct (f x); cbn; lia.
Qed.

Lemma order_by_desc_sorted {D} (key : D -> string) (l : list D) :
  StronglySorted (desc_by key) (order_by_desc key l).
Proof. detach. apply StronglySorted_merge_sort; apply _. Qed.

(** The rows [alist] reads when its query goes through. *)
Lemma alist_rows (config : RunnableConfig) (c : gmap string string)
  (thread_id : string) (filter : option dict) (before : option RunnableConfig)
  (limit : option nat) (s : state) (docs : list checkpoint_doc) :
  configurable config = Some c ->
  c !! "thread_id" = Some thread_id ->
  alist_query (Some config) filter before limit s = Ok docs ->
  exists before_id,
    match before with
    | None => before_id = None
    | Some b =>
        exists bc b_id,
          configurable b = Some bc /\ bc !! "checkpoint_id" = Some b_id
          /\ before_id = Some b_id
    end
    /\ unavailable s (QueryItems Checkpoints) = false
    /\ let rows :=
         List.filter
           (fun d => String.eqb (ck_thread_id d) thread_id
                     && String.eqb (ck_checkpoint_ns d) (default "" (c !! "checkpoint_ns"))
                     && negb (match filter with Some (_ :: _) => true | _ => false end)
                     && match before_id with
                        | Some b => String.ltb (ck_checkpoint_id d) b
                        | None => true
                        end)
           (checkpoints_container s) in
       docs = match limit with
              | Some n => take n (order_by_desc ck_checkpoint_id rows)
              | None => order_by_desc ck_checkpoint_id rows
              end.
Proof.
  detach. intros Hc Ht Hq. unfold alist_query in Hq. cbn [result_bind] in Hq.
  rewrite Hc in Hq. cbn [result_bind] in Hq.
  unfold subscript in Hq at 1. rewrite Ht in Hq. cbn [result_bind] in Hq.
  destruct before as [b | ].
  - unfold assert_configurable in Hq.
    destruct (configurable b) as [bc | ] eqn:Hb; [ | done]. cbn [result_bind] in Hq.
    unfold subscript in Hq. destruct (bc !! "checkpoint_id") as [b_id | ] eqn:Hid; [ | done].
    cbn [result_bind] in Hq. unfold query_items in Hq. cbn [c_name checkpoints c_get] in Hq.
    destruct (unavailable s (QueryItems Checkpoints)); [done | ].
    cbn [result_bind] in Hq. injection Hq as <-.
    exists (Some b_id). split; [by exists bc, b_id | ]. split; [done | ]. reflexivity.
  - cbn [result_bind] in Hq. unfold query_items in Hq. cbn [c_name checkpoints c_get] in Hq.
    destruct (unavailable s (QueryItems Checkpoints)); [done | ].
    cbn [result_bind] in Hq. injection Hq as <-.
    exists None. split; [done | ]. split; [done | ]. reflexivity.
Qed.

Lemma alist_tuple_spec (doc : checkpoint_doc) (tup : CheckpointTuple) :
  alist_tuple doc = Ok tup ->
  tuple_checkpoint_id tup = ck_checkpoint_id doc /\ ct_pending_writes tup = None.
Proof.
  unfold alist_tuple. intros H.
  destruct (loads_typed (ck_type doc, ck_checkpoint doc)) as [v | ]; [ | done].
  destruct (loads (ck_metadata doc)) as [m | ]; [ | done].
  cbn in H. injection H as <-. split; [ | done].
  unfold tuple_checkpoint_id. cbn.
  destruct (checkpoint_config_lookup (ck_thread_id doc) (ck_checkpoint_ns doc)
              (ck_checkpoint_id doc)) as (c & Hc & _ & _ & Hid & _).
  cbn in Hc. injection Hc as <-. by rewrite Hid.
Qed.

(** X6: [alist] yields the checkpoints of the thread and namespace of its
    config, newest first, never more than [limit], only those with an id
    strictly before the one [before] names; its tuples carry no pending
    writes; a stored checkpoint that fails to load is left out, and with
    no filter, bound or limit every one that loads is listed. *)
Theorem alist_order_and_scope (config : RunnableConfig) (c : gmap string string)
  (thread_id : string) (filter : option dict) (before : option RunnableConfig)
  (limit : option nat) (s : state) :
  configurable config = Some c ->
  c !! "thread_id" = Some thread_id ->
  let checkpoint_ns := default "" (c !! "checkpoint_ns") in
  let tuples := alist (Some config) filter before limit s in
  StronglySorted
    (fun a b => String.leb (tuple_checkpoint_id b) (tuple_checkpoint_id a) = true) tuples
  /\ (forall tup, tup ∈ tuples ->
        ct_pending_writes tup = None
        /\ exists doc, in_scope s thread_id checkpoint_ns doc /\ alist_tuple doc = Ok tup)
  /\ (forall n, limit = Some n -> length tuples <= n)
  /\ (forall b bc before_id tup,
        before = Some b -> configurable b = Some bc ->
        bc !! "checkpoint_id" = Some before_id -> tup ∈ tuples ->
        String.ltb (tuple_checkpoint_id tup) before_id = true)
  /\ (unavailable s (QueryItems Checkpoints) = false ->
      filter = None -> before = None -> limit = None ->
      forall doc tup,
        in_scope s thread_id checkpoint_ns doc -> alist_tuple doc = Ok tup ->
        tup ∈ tuples).
Proof.
  intros Hc Ht checkpoint_ns tuples. subst tuples. unfold alist.
  destruct (alist_query (Some config) filter before limit s) as [docs | e] eqn:Hq.
  2:{ split; [constructor | ]. split; [intros tup Hin; by apply elem_of_nil in Hin | ].
      split; [intros n _; cbn; lia | ].
      split; [intros b bc before_id tup _ _ _ Hin; by apply elem_of_nil in Hin | ].
      intros Hav -> -> ->. exfalso.
      unfold alist_query in Hq. cbn [result_bind] in Hq.
      rewrite Hc in Hq. cbn [result_bind] in Hq.
      unfold subscript in Hq. rewrite Ht in Hq. cbn [result_bind] in Hq.
      unfold query_items in Hq. cbn [c_name checkpoints] in Hq. by rewrite Hav in Hq. }
  destruct (alist_rows _ _ _ _ _ _ _ _ Hc Ht Hq) as (before_id & Hbefore & Hav & Hdocs).
  cbn zeta in Hdocs.
  set (pred := fun d : checkpoint_doc => _) in Hdocs.
  set (load := fun doc : checkpoint_doc => _).
  assert (Hin_docs : forall doc, doc ∈ docs -> doc ∈ checkpoints_container s /\ pred doc = true).
  { intros doc Hdoc. apply elem_of_filter_bool. apply (order_by_desc_elem_of ck_checkpoint_id).
    rewrite Hdocs in Hdoc. destruct limit as [n | ]; [ | done].
    by apply (subseteq_take n) in Hdoc. }
  assert (Hload : forall doc tup, load doc = Some tup -> alist_tuple doc = Ok tup).
  { intros doc tup. subst load. cbn. by destruct (alist_tuple doc); intros [= ->]. }
  split; [ | split; [ | split; [ | split]]].
  - apply (StronglySorted_omap (desc_by ck_checkpoint_id)).
    + intros a b a' b' Hab Ha Hb.
      apply Hload, alist_tuple_spec in Ha as [-> _].
      apply Hload, alist_tuple_spec in Hb as [-> _].
      by apply Is_true_true.
    + rewrite Hdocs. destruct limit as [n | ];
        [apply StronglySorted_take | ]; apply order_by_desc_sorted.
  - intros tup Hin. apply list_elem_of_omap in Hin as (doc & Hdoc & Htup).
    apply Hload in Htup. split; [by apply alist_tuple_spec in Htup as [_ ?] | ].
    exists doc. split; [ | done].
    apply Hin_docs in Hdoc as [Hdoc Hp]. subst pred. cbn in Hp.
    apply andb_prop in Hp as [Hp _]. apply andb_prop in Hp as [Hp _].
    apply andb_prop in Hp as [H1 H2].
    apply String.eqb_eq in H1. apply String.eqb_eq in H2. done.
  - intros n ->. etransitivity; [apply length_omap_le | ].
    rewrite Hdocs, length_take. lia.
  - intros b bc b_id tup -> Hbc Hid Hin.
    destruct Hbefore as (bc' & b_id' & Hbc' & Hid' & ->).
    rewrite Hbc in Hbc'. injection Hbc' as <-. rewrite Hid in Hid'. injection Hid' as <-.
    apply list_elem_of_omap in Hin as (doc & Hdoc & Htup).
    apply Hload, alist_tuple_spec in Htup as [-> _].
    apply Hin_docs in Hdoc as [_ Hp]. subst pred. cbn in Hp.
    by apply andb_prop in Hp as [_ Hp].
  - intros _ -> -> -> doc tup (Hin & Hthread & Hns) Htup.
    apply list_elem_of_omap. exists doc. split.
    + rewrite Hdocs. apply (order_by_desc_elem_of ck_checkpoint_id).
      apply elem_of_filter_bool. split; [done | ]. subst pred. cbn in Hbefore. subst before_id.
      cbn. rewrite Hthread, Hns. fold checkpoint_ns. by rewrite !String.eqb_refl.
    + subst load. cbn. by rewrite Htup.
Qed.

(** ** The latest checkpoint *)

Lemma string_ltb_not_leb (a b : string) :
  String.ltb a b = true -> String.leb b a = true -> False.
Proof.
  detach. unfold String.ltb, String.leb. rewrite (String.compare_antisym a b).
  destruct (String.compare b a); cbn; congruence.
Qed.

(** The lookup of [aget_tuple] when the config supplies no checkpoint
    id: the rows of the thread and namespace, newest first. *)
Lemma aget_tuple_try_latest (config : RunnableConfig) (c : gmap string string)
  (thread_id : string) (s : state) :
  configurable config = Some c ->
  c !! "thread_id" = Some thread_id ->
  opt_truthy (get_checkpoint_id c) = false ->
  unavailable s (QueryItems Checkpoints) = false ->
  aget_tuple_try config s =
  match order_by_desc ck_checkpoint_id
          (List.filter
             (fun d => String.eqb (ck_thread_id d) thread_id
                       && String.eqb (ck_checkpoint_ns d) (default "" (c !! "checkpoint_ns")))
             (checkpoints_container s)) with
  | [] => Ok None
  | doc :: _ =>
      let? checkpoint := loads_typed (ck_type doc, ck_checkpoint doc) in
      let? serialized_writes :=
        query_items writes
          (fun w => String.eqb (w_thread_id w) thread_id
                    && String.eqb (w_checkpoint_ns w) (default "" (c !! "checkpoint_ns"))
                    && String.eqb (w_checkpoint_id w) (ck_checkpoint_id doc)) s in
      let? pending_writes := result_mapM load_pending_write serialized_writes in
      let? metadata := loads (ck_metadata doc) in
      Ok (Some {| ct_config :=
                    checkpoint_config thread_id (default "" (c !! "checkpoint_ns"))
                      (ck_checkpoint_id doc);
                  ct_checkpoint := checkpoint;
                  ct_metadata := metadata;
                  ct_parent_config :=
                    parent_config thread_id (default "" (c !! "checkpoint_ns")) doc;
                  ct_pending_writes := Some pending_writes |})
  end.
Proof.
  clear fromisoformat. intros Hc Ht Hid Hav.
  unfold aget_tuple_try, assert_configurable, subscript. rewrite Hc; cbn.
  rewrite Ht; cbn. rewrite Hid. unfold query_items at 1. cbn [c_name checkpoints].
  rewrite Hav. reflexivity.
Qed.

Global Instance checkpoint_doc_eq_dec : EqDecision checkpoint_doc.
Proof. solve_decision. Defined.

(** The newest row of a thread is the document whose id is above all
    others. *)
Lemma newest_row (rows rest : list checkpoint_doc) (doc d : checkpoint_doc) :
  doc ∈ rows ->
  (forall d', d' ∈ rows -> d' <> doc ->
     String.ltb (ck_checkpoint_id d') (ck_checkpoint_id doc) = true) ->
  order_by_desc ck_checkpoint_id rows = d :: rest ->
  d = doc.
Proof.
  detach. intros Hin Hmax Hhead.
  destruct (order_by_desc_head _ _ _ _ Hhead) as [Hd Hle].
  destruct (decide (d = doc)) as [ | Hne]; [done | exfalso].
  apply (string_ltb_not_leb _ _ (Hmax d Hd Hne)). by apply Hle.
Qed.

(** X7: [alist] and [aget_tuple] agree on the latest checkpoint: when
    [aget_tuple] returns a tuple for a config without checkpoint id, the
    unfiltered listing starts with that tuple, less its pending writes. *)
Theorem alist_starts_with_latest (config : RunnableConfig) (c : gmap string string)
  (thread_id : string) (s : state) (tup : CheckpointTuple) :
  configurable config = Some c ->
  c !! "thread_id" = Some thread_id ->
  opt_truthy (get_checkpoint_id c) = false ->
  aget_tuple config s = Some tup ->
  exists rest,
    alist (Some config) None None None s
    = {| ct_config := ct_config tup;
         ct_checkpoint := ct_checkpoint tup;
         ct_metadata := ct_metadata tup;
         ct_parent_config := ct_parent_config tup;
         ct_pending_writes := None |} :: rest.
Proof.
  clear fromisoformat. intros Hc Ht Hid Hget.
  destruct (unavailable s (QueryItems Checkpoints)) eqn:Hav.
  { exfalso. revert Hget.
    unfold aget_tuple, aget_tuple_try, assert_configurable, subscript.
    rewrite Hc; cbn. rewrite Ht; cbn. rewrite Hid. unfold query_items. cbn [c_name checkpoints].
    by rewrite Hav. }
  unfold aget_tuple in Hget.
  rewrite (aget_tuple_try_latest _ _ _ _ Hc Ht Hid Hav) in Hget.
  set (ns := default "" (c !! "checkpoint_ns")) in *.
  set (rows := List.filter _ (checkpoints_container s)) in Hget.
  assert (Hq : alist_query (Some config) None None None s
               = Ok (order_by_desc ck_checkpoint_id rows)).
  { unfold alist_query. cbn [result_bind]. rewrite Hc. cbn [result_bind].
    unfold subscript. rewrite Ht. cbn [result_bind]. unfold query_items.
    cbn [c_name checkpoints c_get]. rewrite Hav. cbn [result_bind]. do 2 f_equal.
    subst rows. apply List.filter_ext. intros d. fold ns. cbn.
    by rewrite !andb_true_r. }
  unfold alist. rewrite Hq.
  destruct (order_by_desc ck_checkpoint_id rows) as [ | doc rest] eqn:Hrows; [done | ].
  assert (Hscope : ck_thread_id doc = thread_id /\ ck_checkpoint_ns doc = ns).
  { destruct (order_by_desc_head _ _ _ _ Hrows) as [Hin _].
    apply elem_of_filter_bool in Hin as [_ Hp]. apply andb_prop in Hp as [H1 H2].
    by apply String.eqb_eq in H1, H2. }
  destruct Hscope as [Hthread Hns].
  destruct (loads_typed (ck_type doc, ck_checkpoint doc)) as [v | ] eqn:Hv; [ | done].
  cbn [result_bind] in Hget.
  destruct (query_items writes _ s) as [ws | ]; [ | done]. cbn [result_bind] in Hget.
  destruct (result_mapM load_pending_write ws) as [pw | ]; [ | done].
  cbn [result_bind] in Hget.
  destruct (loads (ck_metadata doc)) as [m | ] eqn:Hm; [ | done].
  cbn [result_bind] in Hget. injection Hget as <-.
  exists (omap (fun doc => match alist_tuple doc with Ok t => Some t | Raise _ => None end)
            rest).
  cbn [omap list_omap]. unfold alist_tuple at 1. rewrite Hv, Hm. cbn [result_bind].
  cbn [ct_config ct_checkpoint ct_metadata ct_parent_config].
  by rewrite Hthread, Hns.
Qed.

Lemma alist_complete (config : RunnableConfig) (c : gmap string string)
  (thread_id : string) (s : state) (doc : checkpoint_doc) (tup : CheckpointTuple) :
  configurable config = Some c ->
  c !! "thread_id" = Some thread_id ->
  unavailable s (QueryItems Checkpoints) = false ->
  in_scope s thread_id (default "" (c !! "checkpoint_ns")) doc ->
  alist_tuple doc = Ok tup ->
  tup ∈ alist (Some config) None None None s.
Proof.
  clear fromisoformat. intros Hc Ht Hav (Hin & Hthread & Hns) Htup.
  unfold alist, alist_query. cbn [result_bind]. rewrite Hc. cbn [result_bind].
  unfold subscript. rewrite Ht. cbn [result_bind]. unfold query_items.
  cbn [c_name checkpoints c_get]. rewrite Hav. cbn [result_bind].
  apply list_elem_of_omap. exists doc. split; [ | by rewrite Htup].
  apply (order_by_desc_elem_of ck_checkpoint_id). apply elem_of_filter_bool.
  split; [done | ]. cbn. rewrite Hthread, Hns. by rewrite !String.eqb_refl.
Qed.

(** X8: A latest checkpoint that cannot be loaded hides its thread from
    [aget_tuple]: the lookup without checkpoint id returns [None] and
    does not fall back on an older checkpoint, while [alist] skips the
    unreadable document and still yields the older ones. *)
Theorem unreadable_latest_hides_thread (config : RunnableConfig)
  (c : gmap string string) (thread_id : string) (s : state) (doc : checkpoint_doc)
  (e : exn) :
  configurable config = Some c ->
  c !! "thread_id" = Some thread_id ->
  opt_truthy (get_checkpoint_id c) = false ->
  let checkpoint_ns := default "" (c !! "checkpoint_ns") in
  in_scope s thread_id checkpoint_ns doc ->
  (forall d', in_scope s thread_id checkpoint_ns d' -> d' <> doc ->
     String.ltb (ck_checkpoint_id d') (ck_checkpoint_id doc) = true) ->
  loads_typed (ck_type doc, ck_checkpoint doc) = Raise e ->
  aget_tuple config s = None
  /\ (unavailable s (QueryItems Checkpoints) = false ->
      forall older tup,
        in_scope s thread_id checkpoint_ns older -> alist_tuple older = Ok tup ->
        tup ∈ alist (Some config) None None None s).
Proof.
  clear fromisoformat. intros Hc Ht Hid checkpoint_ns Hdoc Hmax Hload. split.
  2:{ intros Hav older tup Hin Htup. by apply (alist_complete _ c thread_id _ older). }
  destruct (unavailable s (QueryItems Checkpoints)) eqn:Hav.
  { unfold aget_tuple, aget_tuple_try, assert_configurable, subscript.
    rewrite Hc; cbn. rewrite Ht; cbn. rewrite Hid. unfold query_items. cbn [c_name checkpoints].
    by rewrite Hav. }
  unfold aget_tuple. rewrite (aget_tuple_try_latest _ _ _ _ Hc Ht Hid Hav).
  fold checkpoint_ns. set (rows := List.filter _ (checkpoints_container s)).
  assert (Hrow : forall d, d ∈ rows <-> in_scope s thread_id checkpoint_ns d).
  { intros d. subst rows. rewrite elem_of_filter_bool, andb_true_iff, !String.eqb_eq.
    unfold in_scope. tauto. }
  destruct (order_by_desc ck_checkpoint_id rows) as [ | d rest] eqn:Hrows; [done | ].
  assert (d = doc) as ->.
  { apply (newest_row rows rest); [by apply Hrow | | done].
    intros d' Hd'. apply Hmax. by apply Hrow. }
  by rewrite Hload.
Qed.

Lemma elem_of_upsert_self {D} (C : container D) (d : D) (l : list D) :
  d ∈ upsert C d l.
Proof.
  detach. induction l as [ | x l IH]; cbn; [by left | ].
  destruct (is_item C _ _ x); [by left | by right].
Qed.

(** X9: After [aput] stores a checkpoint whose id is above every id stored
    for its thread and namespace, the lookup without checkpoint id
    returns that checkpoint: its id, its value, its metadata and, as
    parent, the checkpoint id the incoming config carried. *)
Theorem aput_then_latest (config lookup : RunnableConfig) (c lc : gmap string string)
  (thread_id checkpoint_ns : string) (checkpoint : Checkpoint)
  (metadata new_versions : pyval) (now : datetime) (s : state)
  (type_ serialized_checkpoint serialized_metadata : string) :
  configurable config = Some c ->
  c !! "thread_id" = Some thread_id ->
  c !! "checkpoint_ns" = Some checkpoint_ns ->
  configurable lookup = Some lc ->
  lc !! "thread_id" = Some thread_id ->
  default "" (lc !! "checkpoint_ns") = checkpoint_ns ->
  opt_truthy (get_checkpoint_id lc) = false ->
  available s ->
  (forall d, in_scope s thread_id checkpoint_ns d ->
     String.ltb (ck_checkpoint_id d) (cp_id checkpoint) = true) ->
  dumps_typed (checkpoint_value checkpoint) = Ok (type_, serialized_checkpoint) ->
  loads_typed (type_, serialized_checkpoint) = Ok (checkpoint_value checkpoint) ->
  dumps metadata = Ok serialized_metadata ->
  loads serialized_metadata = Ok metadata ->
  (forall w, w ∈ writes_container s ->
     exists v, loads_typed (w_type w, w_value w) = Ok v) ->
  exists s' tup,
    aput config checkpoint metadata new_versions now s
    = (Ok (checkpoint_config thread_id checkpoint_ns (cp_id checkpoint)), s')
    /\ aget_tuple lookup s' = Some tup
    /\ ct_config tup = checkpoint_config thread_id checkpoint_ns (cp_id checkpoint)
    /\ ct_checkpoint tup = checkpoint_value checkpoint
    /\ ct_metadata tup = metadata
    /\ ct_parent_config tup
       = if opt_truthy (c !! "checkpoint_id")
         then Some (checkpoint_config thread_id checkpoint_ns
                      (default "" (c !! "checkpoint_id")))
         else None.
Proof.
  clear fromisoformat.
  intros Hc Ht Hns Hlc Hlt Hlns Hlid Hav Hmax Hck Hck' Hmd Hmd' Hwr.
  set (doc := aput_doc c thread_id checkpoint_ns checkpoint type_
                serialized_checkpoint serialized_metadata).
  destruct (aput_available config c thread_id checkpoint_ns checkpoint metadata
              new_versions now s type_ serialized_checkpoint serialized_metadata
              Hc Ht Hns Hck Hmd Hav) as (s' & Hrun & Hcks & Hws & Hun & _ & _).
  fold doc in Hcks.
  assert (Hav' : forall op, unavailable s' op = false) by (intros op; rewrite Hun; apply Hav).
  destruct (result_mapM_ok load_pending_write
              (writes_of s' thread_id checkpoint_ns (cp_id checkpoint)))
    as [pending Hpending].
  { intros w Hw. apply elem_of_filter_bool in Hw as [Hw _]. rewrite Hws in Hw.
    destruct (Hwr w Hw) as [v Hv]. unfold load_pending_write. rewrite Hv. by eexists. }
  eexists s', _. split; [exact Hrun | ].
  unfold aget_tuple. rewrite (aget_tuple_try_latest _ _ _ _ Hlc Hlt Hlid (Hav' _)).
  rewrite Hlns. set (rows := List.filter _ (checkpoints_container s')).
  assert (Hdoc : doc ∈ rows).
  { subst rows. apply elem_of_filter_bool. split.
    - rewrite Hcks. apply elem_of_upsert_self.
    - cbn. by rewrite !String.eqb_refl. }
  destruct (order_by_desc ck_checkpoint_id rows) as [ | d rest] eqn:Hrows.
  { apply order_by_desc_nil in Hrows. rewrite Hrows in Hdoc. by apply elem_of_nil in Hdoc. }
  assert (d = doc) as ->.
  { apply (newest_row rows rest); [done | | done].
    intros d' Hd' Hne. subst rows. apply elem_of_filter_bool in Hd' as [Hin Hp].
    apply andb_prop in Hp as [H1 H2]. apply String.eqb_eq in H1, H2.
    rewrite Hcks in Hin. apply elem_of_upsert in Hin as [ | Hin]; [done | ].
    by apply Hmax. }
  cbn [ck_type ck_checkpoint ck_metadata ck_checkpoint_id doc aput_doc].
  rewrite Hck'. cbn [result_bind]. unfold query_items. rewrite (Hav' _).
  cbn [c_get writes result_bind].
  fold (writes_of s' thread_id checkpoint_ns (cp_id checkpoint)).
  rewrite Hpending. cbn [result_bind]. rewrite Hmd'. cbn [result_bind].
  split; [reflexivity | ]. cbn. repeat split.
Qed.

(** ** What [aput] changes *)

(** [_update_conversation_document], case by case. *)
Lemma update_conversation_cases (config : RunnableConfig) (c : gmap string string)
  (thread_id : string) (checkpoint : Checkpoint) (metadata : pyval) (now : datetime)
  (s : state) :
  configurable config = Some c ->
  c !! "thread_id" = Some thread_id ->
  let user_id := default "" (c !! "user_id") in
  let s1 := add_log (LogInfo ("Updating conversation document for user_id: "
                                +:+ user_id +:+ ", thread_id: " +:+ thread_id)) s in
  _update_conversation_document config checkpoint metadata now s
  = if negb (opt_truthy (c !! "user_id")) then
      (Ok tt, add_log (LogWarning ("No user_id found in config for thread_id: "
                                     +:+ thread_id)) s)
    else if unavailable s (UpsertItem Conversations user_id thread_id) then
      (Raise CosmosHttpResponseError,
       add_log (LogError "Error saving conversation document: " CosmosHttpResponseError) s1)
    else
      (Ok tt,
       add_log (LogInfo ("Successfully saved conversation document for user_id: "
                           +:+ user_id))
         (set_conversations
            (upsert conversations
               (conversation_doc_of thread_id user_id checkpoint metadata now)
               (conversations_container s)) s1)).
Proof.
  detach. intros Hc Ht user_id s1.
  unfold _update_conversation_document, config_configurable, subscript.
  rewrite Hc. cbn [bind lift]. rewrite Ht. cbn [bind lift].
  destruct (negb (opt_truthy (c !! "user_id"))); [reflexivity | ].
  fold user_id. unfold try_except, bind, logger, upsert_item, raise.
  cbn [c_name conversations c_partition_key c_item_id conv_userId conv_id
       unavailable add_log].
  destruct (unavailable s (UpsertItem Conversations user_id thread_id)); reflexivity.
Qed.

(** [_update_conversation_document] touches the conversations and the
    log only. *)
Lemma update_conversation_keeps (config : RunnableConfig) (checkpoint : Checkpoint)
  (metadata : pyval) (now : datetime) (s : state) :
  let s' := (_update_conversation_document config checkpoint metadata now s).2 in
  checkpoints_container s' = checkpoints_container s
  /\ writes_container s' = writes_container s
  /\ unavailable s' = unavailable s
  /\ rejects_unbound_parameter s' = rejects_unbound_parameter s.
Proof.
  detach. cbn zeta.
  destruct (configurable config) as [c | ] eqn:Hc.
  2:{ unfold _update_conversation_document, config_configurable. rewrite Hc. done. }
  destruct (c !! "thread_id") as [thread_id | ] eqn:Ht.
  2:{ unfold _update_conversation_document, config_configurable, subscript.
      rewrite Hc. cbn [bind lift]. rewrite Ht. done. }
  rewrite (update_conversation_cases _ _ _ _ _ _ _ Hc Ht).
  destruct (negb _); [done | ]. by destruct (unavailable s _).
Qed.

(** [aput], case by case, for a config that names thread and namespace
    and a checkpoint and metadata that serialize. *)
Lemma aput_cases (config : RunnableConfig) (c : gmap string string)
  (thread_id checkpoint_ns : string) (checkpoint : Checkpoint)
  (metadata new_versions : pyval) (now : datetime) (s : state)
  (type_ serialized_checkpoint serialized_metadata : string) :
  configurable config = Some c ->
  c !! "thread_id" = Some thread_id ->
  c !! "checkpoint_ns" = Some checkpoint_ns ->
  dumps_typed (checkpoint_value checkpoint) = Ok (type_, serialized_checkpoint) ->
  dumps metadata = Ok serialized_metadata ->
  aput config checkpoint metadata new_versions now s
  = if unavailable s (UpsertItem Checkpoints thread_id
                        (checkpoint_doc_id thread_id checkpoint_ns (cp_id checkpoint)))
    then (Raise (RuntimeError "Failed to save checkpoint: " CosmosHttpResponseError), s)
    else
      match _update_conversation_document config checkpoint metadata now
              (set_checkpoints
                 (upsert checkpoints
                    (aput_doc c thread_id checkpoint_ns checkpoint type_
                       serialized_checkpoint serialized_metadata)
                    (checkpoints_container s)) s) with
      | (Ok _, s') =>
          (Ok (checkpoint_config thread_id checkpoint_ns (cp_id checkpoint)), s')
      | (Raise e, s') => (Raise (RuntimeError "Failed to save checkpoint: " e), s')
      end.
Proof.
  detach. intros Hc Ht Hns Hck Hmd.
  destruct (unavailable s _) eqn:Hav.
  - unfold aput, try_except, aput_try, assert_configurable, subscript.
    rewrite Hc. cbn [bind lift]. rewrite Ht. cbn [bind lift]. rewrite Hns. cbn [bind lift].
    rewrite Hck. cbn [bind lift]. rewrite Hmd. cbn [bind lift].
    unfold bind, upsert_item.
    cbn [c_name checkpoints c_partition_key c_item_id ck_thread_id ck_id].
    by rewrite Hav.
  - unfold aput, try_except.
    rewrite (aput_try_unfold _ _ _ _ _ _ _ _ _ _ _ Hc Ht Hns Hck Hmd Hav).
    unfold bind. by destruct (_update_conversation_document _ _ _ _ _) as [[[] | e] s'].
Qed.

(** The checkpoints, the pending writes and the faults after [aput],
    whatever it was given and however it ends. *)
Lemma aput_state (config : RunnableConfig) (checkpoint : Checkpoint)
  (metadata new_versions : pyval) (now : datetime) (s : state) :
  let s' := (aput config checkpoint metadata new_versions now s).2 in
  checkpoints_container s'
  = match aput_target config checkpoint metadata s with
    | Some doc => upsert checkpoints doc (checkpoints_container s)
    | None => checkpoints_container s
    end
  /\ writes_container s' = writes_container s
  /\ unavailable s' = unavailable s.
Proof.
  detach. cbn zeta. unfold aput_target.
  destruct (configurable config) as [c | ] eqn:Hc.
  2:{ unfold aput, try_except, aput_try, assert_configurable. by rewrite Hc. }
  destruct (c !! "thread_id") as [thread_id | ] eqn:Ht.
  2:{ unfold aput, try_except, aput_try, assert_configurable, subscript.
      rewrite Hc. cbn [bind lift]. by rewrite Ht. }
  destruct (c !! "checkpoint_ns") as [checkpoint_ns | ] eqn:Hns.
  2:{ unfold aput, try_except, aput_try, assert_configurable, subscript.
      rewrite Hc. cbn [bind lift]. rewrite Ht. cbn [bind lift]. by rewrite Hns. }
  destruct (dumps_typed (checkpoint_value checkpoint)) as [[type_ sc] | e1] eqn:Hck.
  2:{ unfold aput, try_except, aput_try, assert_configurable, subscript.
      rewrite Hc. cbn [bind lift]. rewrite Ht. cbn [bind lift]. rewrite Hns.
      cbn [bind lift]. by rewrite Hck. }
  destruct (dumps metadata) as [sm | e2] eqn:Hmd.
  2:{ unfold aput, try_except, aput_try, assert_configurable, subscript.
      rewrite Hc. cbn [bind lift]. rewrite Ht. cbn [bind lift]. rewrite Hns.
      cbn [bind lift]. rewrite Hck. cbn [bind lift]. by rewrite Hmd. }
  rewrite (aput_cases _ _ _ _ _ _ new_versions now s _ _ _ Hc Ht Hns Hck Hmd).
  destruct (unavailable s _); [done | ].
  set (s1 := set_checkpoints _ s).
  destruct (update_conversation_keeps config checkpoint metadata now s1)
    as (Hcks & Hws & Hun & _).
  by destruct (_update_conversation_document _ _ _ _ s1) as [[[] | e] s'].
Qed.

Lemma upsert_present {D} (C : container D) (d : D) (l : list D) :
  read_item C (c_partition_key C d) (c_item_id C d) l = Some d ->
  upsert C d l = l.
Proof.
  detach. unfold read_item. induction l as [ | x l IH]; cbn; [done | ].
  destruct (is_item C _ _ x); [by intros [= ->] | ].
  intros H. by rewrite IH.
Qed.

Lemma upsert_idempotent {D} (C : container D) (d : D) (l : list D) :
  upsert C d (upsert C d l) = upsert C d l.
Proof. detach. apply upsert_present, read_item_upsert_eq. Qed.

Lemma is_item_false {D} (C : container D) (pk id : string) (d : D) :
  ~ (pk = c_partition_key C d /\ id = c_item_id C d) -> is_item C pk id d = false.
Proof.
  detach. intros Hne. destruct (is_item C pk id d) eqn:E; [ | done].
  apply is_item_true in E as [<- <-]. by destruct Hne.
Qed.

(** X10: [aput] is an upsert: putting the same checkpoint a second time
    leaves the checkpoints as the first put left them, so a checkpoint is
    never stored twice; and it keeps the store well formed - items
    unique by partition key and id, ids derived from thread, namespace
    and checkpoint id - however it ends. *)
Theorem aput_is_upsert (config : RunnableConfig) (checkpoint : Checkpoint)
  (metadata new_versions : pyval) (now later : datetime) (s : state) :
  let s1 := (aput config checkpoint metadata new_versions now s).2 in
  let s2 := (aput config checkpoint metadata new_versions later s1).2 in
  checkpoints_container s2 = checkpoints_container s1
  /\ (unique_items checkpoints (checkpoints_container s) ->
      unique_items checkpoints (checkpoints_container s1))
  /\ (ids_derived (checkpoints_container s) -> ids_derived (checkpoints_container s1)).
Proof.
  detach. intros s1 s2.
  destruct (aput_state config checkpoint metadata new_versions now s) as (Hcks & _ & Hun).
  destruct (aput_state config checkpoint metadata new_versions later s1) as (Hcks' & _ & _).
  fold s1 in Hcks, Hun. fold s2 in Hcks'.
  assert (Htarget : aput_target config checkpoint metadata s1
                    = aput_target config checkpoint metadata s).
  { unfold aput_target. by rewrite Hun. }
  rewrite Htarget in Hcks'. rewrite Hcks', Hcks. clear Hcks' Htarget.
  destruct (aput_target config checkpoint metadata s) as [doc | ] eqn:Hdoc.
  - split; [apply upsert_idempotent | ]. split.
    + apply unique_items_upsert.
    + intros Hids. unfold aput_target in Hdoc.
      destruct (configurable config) as [c | ]; [ | done].
      destruct (c !! "thread_id") as [thread_id | ]; [ | done].
      destruct (c !! "checkpoint_ns") as [checkpoint_ns | ]; [ | done].
      destruct (dumps_typed (checkpoint_value checkpoint)) as [[type_ sc] | ]; [ | done].
      destruct (dumps metadata) as [sm | ]; [ | done].
      destruct (unavailable s _); [done | ]. injection Hdoc as <-.
      by apply ids_derived_upsert.
  - done.
Qed.

(** X11: [aput] reaches at most one item of each container: whatever it
    returns or raises, the pending writes are as before, every checkpoint
    item other than the one of its thread, namespace and checkpoint id is
    as before, and so is every conversation item other than the one of
    its user and thread. *)
Theorem aput_frame (config : RunnableConfig) (c : gmap string string)
  (thread_id checkpoint_ns : string) (checkpoint : Checkpoint)
  (metadata new_versions : pyval) (now : datetime) (s : state) :
  configurable config = Some c ->
  c !! "thread_id" = Some thread_id ->
  c !! "checkpoint_ns" = Some checkpoint_ns ->
  let s' := (aput config checkpoint metadata new_versions now s).2 in
  writes_container s' = writes_container s
  /\ (forall pk id,
        ~ (pk = thread_id
           /\ id = checkpoint_doc_id thread_id checkpoint_ns (cp_id checkpoint)) ->
        read_item checkpoints pk id (checkpoints_container s')
        = read_item checkpoints pk id (checkpoints_container s))
  /\ (forall pk id,
        ~ (pk = default "" (c !! "user_id") /\ id = thread_id) ->
        read_item conversations pk id (conversations_container s')
        = read_item conversations pk id (conversations_container s)).
Proof.
  detach. intros Hc Ht Hns s'.
  destruct (aput_state config checkpoint metadata new_versions now s) as (Hcks & Hws & _).
  fold s' in Hcks, Hws. split; [exact Hws | ]. split.
  - intros pk id Hne. rewrite Hcks. unfold aput_target. rewrite Hc, Ht, Hns.
    destruct (dumps_typed (checkpoint_value checkpoint)) as [[type_ sc] | ]; [ | done].
    destruct (dumps metadata) as [sm | ]; [ | done].
    destruct (unavailable s _); [done | ].
    apply read_item_upsert_ne. by apply is_item_false.
  - intros pk id Hne. subst s'.
    destruct (dumps_typed (checkpoint_value checkpoint)) as [[type_ sc] | e1] eqn:Hck.
    2:{ unfold aput, try_except, aput_try, assert_configurable, subscript.
        rewrite Hc. cbn [bind lift]. rewrite Ht. cbn [bind lift]. rewrite Hns.
        cbn [bind lift]. by rewrite Hck. }
    destruct (dumps metadata) as [sm | e2] eqn:Hmd.
    2:{ unfold aput, try_except, aput_try, assert_configurable, subscript.
        rewrite Hc. cbn [bind lift]. rewrite Ht. cbn [bind lift]. rewrite Hns.
        cbn [bind lift]. rewrite Hck. cbn [bind lift]. by rewrite Hmd. }
    rewrite (aput_cases _ _ _ _ _ _ new_versions now s _ _ _ Hc Ht Hns Hck Hmd).
    destruct (unavailable s _); [done | ].
    rewrite (update_conversation_cases _ _ _ _ _ _ _ Hc Ht).
    destruct (negb _); [done | ]. destruct (unavailable _ _); [done | ].
    cbn. apply read_item_upsert_ne. by apply is_item_false.
Qed.

(** X12: [aput] is not atomic: when the service takes the checkpoint and
    refuses the conversation document, the call raises a [RuntimeError]
    wrapping the service's error, yet the checkpoint is stored; the
    conversations are as before and the failure is logged. *)
Theorem aput_not_atomic (config : RunnableConfig) (c : gmap string string)
  (thread_id checkpoint_ns user_id : string) (checkpoint : Checkpoint)
  (metadata new_versions : pyval) (now : datetime) (s : state)
  (type_ serialized_checkpoint serialized_metadata : string) :
  configurable config = Some c ->
  c !! "thread_id" = Some thread_id ->
  c !! "checkpoint_ns" = Some checkpoint_ns ->
  c !! "user_id" = Some user_id ->
  user_id <> "" ->
  dumps_typed (checkpoint_value checkpoint) = Ok (type_, serialized_checkpoint) ->
  dumps metadata = Ok serialized_metadata ->
  unavailable s (UpsertItem Checkpoints thread_id
                   (checkpoint_doc_id thread_id checkpoint_ns (cp_id checkpoint)))
  = false ->
  unavailable s (UpsertItem Conversations user_id thread_id) = true ->
  exists s',
    aput config checkpoint metadata new_versions now s
    = (Raise (RuntimeError "Failed to save checkpoint: " CosmosHttpResponseError), s')
    /\ checkpoints_container s'
       = upsert checkpoints
           (aput_doc c thread_id checkpoint_ns checkpoint type_ serialized_checkpoint
              serialized_metadata)
           (checkpoints_container s)
    /\ conversations_container s' = conversations_container s
    /\ writes_container s' = writes_container s
    /\ log s'
       = log s ++ [LogInfo ("Updating conversation document for user_id: "
                              +:+ user_id +:+ ", thread_id: " +:+ thread_id);
                   LogError "Error saving conversation document: "
                     CosmosHttpResponseError].
Proof.
  detach. intros Hc Ht Hns Hu Hune Hck Hmd Hav1 Hav2.
  rewrite (aput_cases _ _ _ _ _ _ new_versions now s _ _ _ Hc Ht Hns Hck Hmd), Hav1.
  rewrite (update_conversation_cases _ _ _ _ _ _ _ Hc Ht). rewrite Hu.
  cbn [opt_truthy from_option]. unfold id.
  assert (Htruthy : str_truthy user_id = true).
  { unfold str_truthy. apply negb_true_iff. by apply String.eqb_neq. }
  rewrite Htruthy. cbn [negb unavailable set_checkpoints]. rewrite Hav2.
  eexists. split; [reflexivity | ]. cbn. repeat split. by rewrite <- app_assoc.
Qed.

(** ** Repeating a batch of pending writes *)

Lemma set_writes_same (s : state) : set_writes (writes_container s) s = s.
Proof. detach. by destruct s. Qed.

(** A batch whose documents are all in place leaves the state as it is. *)
Lemma store_writes_stable (thread_id checkpoint_ns checkpoint_id task_id : string)
  (writes_ : list (string * pyval)) :
  forall (idx : nat) (s : state),
    (forall k w doc, writes_ !! k = Some w ->
       persisted_write s thread_id checkpoint_ns checkpoint_id task_id (idx + k) w
       = Some doc ->
       read_item writes thread_id
         (write_doc_id thread_id checkpoint_ns checkpoint_id task_id (idx + k))
         (writes_container s) = Some doc) ->
    store_writes thread_id checkpoint_ns checkpoint_id task_id idx writes_ s = (Ok tt, s).
Proof.
  clear fromisoformat.
  induction writes_ as [ | w rest IH]; intros idx s Hplace; [reflexivity | ].
  rewrite store_writes_step.
  assert (Hsame : match persisted_write s thread_id checkpoint_ns checkpoint_id task_id
                          idx w with
                  | Some doc => set_writes (upsert writes doc (writes_container s)) s
                  | None => s
                  end = s).
  { destruct (persisted_write s _ _ _ _ idx w) as [doc | ] eqn:Hdoc; [ | done].
    specialize (Hplace 0 w doc eq_refl). rewrite Nat.add_0_r in Hplace.
    specialize (Hplace Hdoc).
    assert (Hkey : c_partition_key writes doc = thread_id
                   /\ c_item_id writes doc
                      = write_doc_id thread_id checkpoint_ns checkpoint_id task_id idx).
    { unfold persisted_write in Hdoc.
      destruct (dumps_typed w.2) as [[type_ value] | ]; [ | done].
      destruct (unavailable s _); [done | ]. by injection Hdoc as <-. }
    destruct Hkey as [Hpk Hid].
    rewrite upsert_present; [apply set_writes_same | ]. by rewrite Hpk, Hid. }
  rewrite Hsame. apply IH. intros k w' doc Hk.
  replace (S idx + k) with (idx + S k) by lia. by apply Hplace.
Qed.

(** X13: [aput_writes] is idempotent: repeating a call with the same batch
    for the same task ends as the first call did and changes nothing
    more - each pair goes to the document of its position, which the
    repetition overwrites with the same content. *)
Theorem aput_writes_idempotent (config : RunnableConfig)
  (writes_ : list (string * pyval)) (task_id : string) (s : state) :
  let first := aput_writes config writes_ task_id s in
  aput_writes config writes_ task_id first.2 = (first.1, first.2).
Proof.
  clear fromisoformat. cbn zeta.
  destruct (configurable config) as [c | ] eqn:Hc.
  2:{ unfold aput_writes, try_except, aput_writes_try, assert_configurable.
      by rewrite Hc. }
  destruct (c !! "thread_id") as [thread_id | ] eqn:Ht.
  2:{ unfold aput_writes, try_except, aput_writes_try, assert_configurable, subscript.
      rewrite Hc. cbn [bind lift]. by rewrite Ht. }
  destruct (c !! "checkpoint_ns") as [checkpoint_ns | ] eqn:Hns.
  2:{ unfold aput_writes, try_except, aput_writes_try, assert_configurable, subscript.
      rewrite Hc. cbn [bind lift]. rewrite Ht. cbn [bind lift]. by rewrite Hns. }
  destruct (c !! "checkpoint_id") as [checkpoint_id | ] eqn:Hid.
  2:{ unfold aput_writes, try_except, aput_writes_try, assert_configurable, subscript.
      rewrite Hc. cbn [bind lift]. rewrite Ht. cbn [bind lift]. rewrite Hns.
      cbn [bind lift]. by rewrite Hid. }
  destruct (store_writes_spec thread_id checkpoint_ns checkpoint_id task_id writes_ 0 s)
    as (s' & Hrun & Hframe & Hat & _).
  rewrite (aput_writes_unfold _ _ _ _ _ _ _ _ _ Hc Ht Hns Hid Hrun). cbn [fst snd].
  apply (aput_writes_unfold _ _ _ _ _ _ _ _ _ Hc Ht Hns Hid).
  apply store_writes_stable. intros k w doc Hk Hdoc.
  assert (Hsame : persisted_write s' thread_id checkpoint_ns checkpoint_id task_id (0 + k) w
                  = persisted_write s thread_id checkpoint_ns checkpoint_id task_id (0 + k) w).
  { unfold persisted_write. destruct Hframe as (_ & _ & Hu & _). by rewrite Hu. }
  rewrite Hsame in Hdoc. rewrite (Hat k w Hk). by rewrite Hdoc.
Qed.

(** ** Listing the conversations of a user *)

Lemma result_mapM_Forall2 {A B} (f : A -> result B) (l : list A) (bs : list B) :
  result_mapM f l = Ok bs -> Forall2 (fun a b => f a = Ok b) l bs.
Proof.
  detach. revert bs. induction l as [ | a l IH]; intros bs H.
  - cbn in H. injection H as <-. constructor.
  - cbn in H. destruct (f a) as [b | ] eqn:Ha; [ | done]. cbn in H.
    destruct (result_mapM f l) as [bs' | ]; [ | done]. cbn in H. injection H as <-.
    constructor; [done | by apply IH].
Qed.





(** The first [n] characters of a text are [n] characters, or the whole
    text when it has fewer. *)
Lemma str_len_take (n : nat) (s : string) : str_len (str_take n s) = n `min` str_len s.
Proof.
  detach. unfold str_len, chars. revert n.
  induction s as [ | c s IH]; intros n; [by destruct n | ].
  cbn [str_take String.list_ascii_of_string List.filter].
  destruct (is_continuation c) eqn:Hc.
  - cbn [String.list_ascii_of_string List.filter negb]. rewrite Hc. cbn [negb]. apply IH.
  - cbn [negb length]. destruct n as [ | n]; [done | ].
    cbn [String.list_ascii_of_string List.filter]. rewrite Hc. cbn [negb length].
    rewrite IH. lia.
Qed.

Lemma str_len_app (a b : string) : str_len (a +:+ b) = str_len a + str_len b.
Proof.
  detach. unfold str_len. rewrite chars_app, List.filter_app. apply length_app.
Qed.

(** X15: The preview of a conversation whose first stored message has a text
    content: the role is the stored [type] of the message, the timestamp
    the document's [lastUpdated], and the text is the content itself up
    to 100 characters, or its first 100 characters followed by three
    dots - never more than 103 characters.  Characters are counted, not
    bytes. *)
Theorem preview_is_bounded (doc : conversation_doc) (summary : conversation_summary)
  (first_msg : dict) (rest : list pyval) (text : string) :
  conversation_summary_of doc = Ok summary ->
  conv_messages doc = PList (PDict first_msg :: rest) ->
  dict_get "content" first_msg = Some (PStr text) ->
  exists shown,
    cs_first_message_preview summary
    = Some {| mp_role := default (PStr "") (dict_get "type" first_msg);
              mp_content := PStr shown;
              mp_timestamp := conv_lastUpdated doc |}
    /\ str_len shown <= 103
    /\ (str_len text <= 100 -> shown = text)
    /\ (100 < str_len text ->
        shown = str_take 100 text +:+ "..."
        /\ str_len (str_take 100 text) = 100
        /\ str_len shown = 103).
Proof.
  unfold conversation_summary_of. intros H Hmsgs Hcontent.
  rewrite Hmsgs, Hcontent in H. cbn [from_option] in H. unfold id, preview_content in H.
  destruct (100 <? str_len text) eqn:Hlen.
  - apply Nat.ltb_lt in Hlen. cbn [result_bind] in H.
    destruct (fromisoformat (conv_lastUpdated doc)) as [d | ]; [ | done].
    cbn [result_bind] in H. injection H as <-. cbn [cs_first_message_preview].
    exists (str_take 100 text +:+ "...").
    assert (Hcut : str_len (str_take 100 text) = 100)
      by (rewrite str_len_take; lia).
    assert (Hl : str_len (str_take 100 text +:+ "...") = 103)
      by (rewrite str_len_app, Hcut; reflexivity).
    split; [done | ]. split; [lia | ]. split; [lia | by intros _].
  - apply Nat.ltb_ge in Hlen. cbn [result_bind] in H.
    destruct (fromisoformat (conv_lastUpdated doc)) as [d | ]; [ | done].
    cbn [result_bind] in H. injection H as <-. cbn [cs_first_message_preview].
    exists text. split; [done | ]. split; [lia | ]. split; [done | lia].
Qed.

(** ** Reconciling the directory *)

Lemma preserves_for_each_in {A X} (f : state -> X) (l : list A) (body : A -> M unit) :
  (forall x, x ∈ l -> preserves f (body x)) -> preserves f (for_each l body).
Proof.
  detach. induction l as [ | x l IH]; intros Hbody; [done | ].
  cbn [for_each]. apply preserves_bind; [apply Hbody; by left | intros _].
  apply IH. intros y Hy. apply Hbody. by right.
Qed.

Lemma preserves_delete_item {D X} (C : container D) (f : state -> X)
  (item partition_key : string) :
  (forall s, f (c_set C (remove C partition_key item (c_get C s)) s) = f s) ->
  preserves f (delete_item C item partition_key).
Proof.
  detach. intros Hset s. unfold delete_item.
  destruct (unavailable s _); [done | ].
  destruct (read_item C _ _ _); [ | done]. cbn. apply Hset.
Qed.

Lemma filter_remove_other (user_id other id : string) (l : list conversation_doc) :
  other <> user_id ->
  List.filter (fun d => String.eqb (conv_userId d) other) (remove conversations user_id id l)
  = List.filter (fun d => String.eqb (conv_userId d) other) l.
Proof.
  detach. intros Hne. unfold remove. induction l as [ | x l IH]; [done | ].
  cbn [List.filter]. destruct (String.eqb (conv_userId x) other) eqn:Hx.
  - apply String.eqb_eq in Hx.
    assert (Hitem : is_item conversations user_id id x = false).
    { unfold is_item. cbn. rewrite Hx.
      apply String.eqb_neq in Hne. by rewrite Hne. }
    rewrite Hitem. cbn [negb List.filter]. apply String.eqb_eq in Hx. by rewrite Hx, IH.
  - destruct (negb _); cbn [List.filter]; rewrite ?Hx; exact IH.
Qed.

(** X16: [cleanup_old_conversations] reaches the conversation documents of
    its user only: whatever happens, the conversations of every other
    user, the checkpoints, the pending writes and the log are as before -
    so the checkpoints of the conversations it deletes stay in the
    store. *)
Theorem cleanup_reaches_one_user (user_id : string) (s : state) :
  let s' := (cleanup_old_conversations user_id s).2 in
  (forall other, other <> user_id -> conversations_of s' other = conversations_of s other)
  /\ checkpoints_container s' = checkpoints_container s
  /\ writes_container s' = writes_container s
  /\ log s' = log s.
Proof.
  detach. cbn zeta.
  assert (Hall : forall {X} (f : state -> X),
             (forall id s0, f (set_conversations
                                 (remove conversations user_id id (conversations_container s0))
                                 s0) = f s0) ->
             f (cleanup_old_conversations user_id s).2 = f s).
  { intros X f Hf. unfold cleanup_old_conversations, bind, reads, query_items.
    cbn [c_name conversations c_get].
    destruct (unavailable s (QueryItems Conversations)); [done | ]. cbn [result_bind].
    set (found := order_by_desc conv_lastUpdated _).
    destruct (length found <=? 1); [done | ].
    apply preserves_for_each_in. intros conv Hconv.
    apply (subseteq_drop 1) in Hconv. subst found.
    apply (proj1 (order_by_desc_elem_of conv_lastUpdated _ _)) in Hconv.
    apply elem_of_filter_bool in Hconv as [_ Hu]. apply String.eqb_eq in Hu.
    apply preserves_delete_item. intros s0. rewrite Hu. apply Hf. }
  split; [ | split; [ | split]].
  - intros other Hne. apply (Hall _ (fun s0 => conversations_of s0 other)).
    intros id s0. unfold conversations_of. cbn. by apply filter_remove_other.
  - by apply (Hall _ checkpoints_container).
  - by apply (Hall _ writes_container).
  - by apply (Hall _ log).
Qed.

Lemma cleanup_settled (user_id : string) (s : state) :
  unavailable s (QueryItems Conversations) = false ->
  length (conversations_of s user_id) <= 1 ->
  cleanup_old_conversations user_id s = (Ok tt, s).
Proof.
  detach. intros Hav Hlen.
  unfold cleanup_old_conversations, bind, reads, query_items.
  cbn [c_name conversations c_get]. rewrite Hav. cbn [result_bind].
  fold (conversations_of s user_id).
  rewrite (Permutation_length (order_by_desc_perm conv_lastUpdated _)).
  apply Nat.leb_le in Hlen. by rewrite Hlen.
Qed.

(** X17: Reconciling twice is reconciling once: after
    [cleanup_old_conversations] the user has at most one conversation
    document, and a second call finds nothing to delete. *)
Theorem cleanup_idempotent (user_id : string) (s : state) :
  available s ->
  NoDup (map conv_id (conversations_of s user_id)) ->
  exists s',
    cleanup_old_conversations user_id s = (Ok tt, s')
    /\ length (conversations_of s' user_id) <= 1
    /\ cleanup_old_conversations user_id s' = (Ok tt, s').
Proof.
  detach. intros Hav Hnd.
  destruct (cleanup_keeps_latest user_id s Hav Hnd) as (s' & Hrun & Hav' & Hleft).
  exists s'. split; [exact Hrun | ].
  assert (Hlen : length (conversations_of s' user_id) <= 1).
  { rewrite Hleft, length_take. lia. }
  split; [exact Hlen | ]. by apply cleanup_settled.
Qed.

(** ** After a conversation is deleted *)

Lemma filter_andb {D} (f g : D -> bool) (l : list D) :
  List.filter (fun x => f x && g x) l = List.filter g (List.filter f l).
Proof.
  detach. induction l as [ | x l IH]; [done | ].
  cbn. destruct (f x); cbn; [destruct (g x); by rewrite IH | exact IH].
Qed.

Lemma filter_none {D} (f : D -> bool) (l : list D) :
  (forall x, x ∈ l -> f x = false) -> List.filter f l = [].
Proof.
  detach. induction l as [ | x l IH]; intros H; [done | ].
  cbn. rewrite (H x) by (by left). apply IH. intros y Hy. apply H. by right.
Qed.

(** What the lookups of one thread read from the store. *)
Lemma aget_tuple_reads (config : RunnableConfig) (c : gmap string string)
  (thread_id : string) (s s' : state) :
  configurable config = Some c ->
  c !! "thread_id" = Some thread_id ->
  unavailable s' = unavailable s ->
  writes_container s' = writes_container s ->
  List.filter (fun d => String.eqb (ck_thread_id d) thread_id) (checkpoints_container s')
  = List.filter (fun d => String.eqb (ck_thread_id d) thread_id) (checkpoints_container s) ->
  aget_tuple config s' = aget_tuple config s.
Proof.
  clear fromisoformat. intros Hc Ht Hun Hws Hrows.
  unfold aget_tuple, aget_tuple_try, assert_configurable, subscript.
  rewrite Hc. cbn [result_bind]. rewrite Ht. cbn [result_bind].
  unfold query_items. cbn [c_name c_get checkpoints writes]. rewrite Hun, Hws.
  assert (Hrows' : forall g : checkpoint_doc -> bool,
             List.filter (fun d => String.eqb (ck_thread_id d) thread_id && g d)
               (checkpoints_container s')
             = List.filter (fun d => String.eqb (ck_thread_id d) thread_id && g d)
                 (checkpoints_container s)).
  { intros g. by rewrite !filter_andb, Hrows. }
  destruct (opt_truthy (get_checkpoint_id c)).
  - assert (Hext : forall l,
               List.filter
                 (fun d => String.eqb (ck_thread_id d) thread_id
                           && String.eqb (ck_checkpoint_ns d) (default "" (c !! "checkpoint_ns"))
                           && String.eqb (ck_checkpoint_id d) (default "" (get_checkpoint_id c)))
                 l
               = List.filter
                   (fun d => String.eqb (ck_thread_id d) thread_id
                             && (String.eqb (ck_checkpoint_ns d)
                                   (default "" (c !! "checkpoint_ns"))
                                 && String.eqb (ck_checkpoint_id d)
                                      (default "" (get_checkpoint_id c)))) l).
    { intros l. apply List.filter_ext. intros d. by rewrite andb_assoc. }
    rewrite !Hext.
    by rewrite (Hrows' (fun d => String.eqb (ck_checkpoint_ns d)
                                   (default "" (c !! "checkpoint_ns"))
                                 && String.eqb (ck_checkpoint_id d)
                                      (default "" (get_checkpoint_id c)))).
  - by rewrite (Hrows' (fun d => String.eqb (ck_checkpoint_ns d)
                                   (default "" (c !! "checkpoint_ns")))).
Qed.

Lemma alist_reads (config : RunnableConfig) (c : gmap string string)
  (thread_id : string) (filter : option dict) (before : option RunnableConfig)
  (limit : option nat) (s s' : state) :
  configurable config = Some c ->
  c !! "thread_id" = Some thread_id ->
  unavailable s' = unavailable s ->
  List.filter (fun d => String.eqb (ck_thread_id d) thread_id) (checkpoints_container s')
  = List.filter (fun d => String.eqb (ck_thread_id d) thread_id) (checkpoints_container s) ->
  alist (Some config) filter before limit s' = alist (Some config) filter before limit s.
Proof.
  clear fromisoformat. intros Hc Ht Hun Hrows.
  unfold alist. f_equal. unfold alist_query. cbn [result_bind]. rewrite Hc. cbn [result_bind].
  unfold subscript at 1 3. rewrite Ht. cbn [result_bind].
  destruct (match before with
            | Some before0 => _
            | None => Ok None
            end) as [before_id | ]; [ | done].
  cbn [result_bind]. unfold query_items. cbn [c_name c_get checkpoints]. rewrite Hun.
  destruct (unavailable s (QueryItems Checkpoints)); [done | ]. cbn [result_bind].
  set (g := fun d : checkpoint_doc =>
              String.eqb (ck_checkpoint_ns d) (default "" (c !! "checkpoint_ns"))
              && negb (match filter with Some (_ :: _) => true | _ => false end)
              && match before_id with
                 | Some b => String.ltb (ck_checkpoint_id d) b
                 | None => true
                 end).
  assert (Hext : forall l,
             List.filter
               (fun d => String.eqb (ck_thread_id d) thread_id
                         && String.eqb (ck_checkpoint_ns d) (default "" (c !! "checkpoint_ns"))
                         && negb (match filter with Some (_ :: _) => true | _ => false end)
                         && match before_id with
                            | Some b => String.ltb (ck_checkpoint_id d) b
                            | None => true
                            end) l
             = List.filter g (List.filter (fun d => String.eqb (ck_thread_id d) thread_id) l)).
  { intros l. rewrite <- filter_andb. apply List.filter_ext. intros d. subst g. cbn.
    by rewrite !andb_assoc. }
  by rewrite !Hext, Hrows.
Qed.

Lemma filter_without_same (thread_id : string) (l : list checkpoint_doc) :
  List.filter (fun d => String.eqb (ck_thread_id d) thread_id)
    (without checkpoints
       (List.filter (fun d => String.eqb (ck_thread_id d) thread_id) l) l) = [].
Proof.
  detach. apply filter_none. intros x Hx. apply elem_of_without in Hx as [Hin Hnot].
  destruct (String.eqb (ck_thread_id x) thread_id) eqn:E; [ | done].
  assert (Hgone : x ∈ List.filter (fun d => String.eqb (ck_thread_id d) thread_id) l)
    by (by apply elem_of_filter_bool).
  specialize (Hnot x Hgone). by rewrite is_item_self in Hnot.
Qed.

Lemma filter_without_other (thread_id other : string) (gone l : list checkpoint_doc) :
  other <> thread_id ->
  (forall d, d ∈ gone -> ck_thread_id d = thread_id) ->
  List.filter (fun d => String.eqb (ck_thread_id d) other) (without checkpoints gone l)
  = List.filter (fun d => String.eqb (ck_thread_id d) other) l.
Proof.
  detach. intros Hne Hgone. unfold without. induction l as [ | x l IH]; [done | ].
  cbn [List.filter]. destruct (String.eqb (ck_thread_id x) other) eqn:Hx.
  - assert (Hkeep : existsb
                      (fun d => is_item checkpoints (c_partition_key checkpoints d)
                                  (c_item_id checkpoints d) x) gone = false).
    { apply not_true_is_false. intros Hex. apply existsb_exists in Hex as (d & Hd & Hitem).
      apply is_item_true in Hitem as [Hpk _]. cbn in Hpk.
      apply String.eqb_eq in Hx. apply list_elem_of_In in Hd. apply Hgone in Hd. congruence. }
    rewrite Hkeep. cbn [negb List.filter]. by rewrite Hx, IH.
  - destruct (negb _); cbn [List.filter]; rewrite ?Hx; exact IH.
Qed.

(** X18: After [delete_conversation] has returned [True] for a thread, the
    thread has no checkpoint left: [aget_tuple] returns [None] and
    [alist] yields nothing for every config naming it, while the lookups
    and listings of every other thread answer as before. *)
Theorem deleted_thread_is_gone (thread_id : string) (s : state) :
  available s ->
  rejects_unbound_parameter s = false ->
  unique_items checkpoints (checkpoints_container s) ->
  exists s',
    delete_conversation thread_id s = (Ok true, s')
    /\ (forall config c,
          configurable config = Some c -> c !! "thread_id" = Some thread_id ->
          aget_tuple config s' = None
          /\ forall filter before limit,
               alist (Some config) filter before limit s' = [])
    /\ (forall config c other,
          configurable config = Some c -> c !! "thread_id" = Some other ->
          other <> thread_id ->
          aget_tuple config s' = aget_tuple config s
          /\ forall filter before limit,
               alist (Some config) filter before limit s'
               = alist (Some config) filter before limit s).
Proof.
  clear fromisoformat. intros Hav Hrej Huniq.
  pose proof (delete_conversation_try_ok thread_id s Hav Hrej Huniq) as Hrun.
  set (s' := set_checkpoints _ _) in Hrun.
  exists s'. split; [unfold delete_conversation, try_except; by rewrite Hrun | ].
  assert (Hun : unavailable s' = unavailable s) by reflexivity.
  assert (Hws : writes_container s' = writes_container s) by reflexivity.
  set (empty := set_checkpoints [] s).
  split.
  - intros config c Hc Ht.
    assert (Hrows : List.filter (fun d => String.eqb (ck_thread_id d) thread_id)
                      (checkpoints_container s')
                    = List.filter (fun d => String.eqb (ck_thread_id d) thread_id)
                        (checkpoints_container empty)).
    { subst s' empty. cbn [checkpoints_container set_checkpoints].
      apply filter_without_same. }
    split.
    + rewrite (aget_tuple_reads config c thread_id empty s' Hc Ht eq_refl eq_refl Hrows).
      unfold aget_tuple, aget_tuple_try, assert_configurable, subscript.
      rewrite Hc. cbn [result_bind]. rewrite Ht. cbn [result_bind].
      unfold query_items. cbn [c_name c_get checkpoints]. subst empty. cbn.
      rewrite (Hav _). by destruct (opt_truthy (get_checkpoint_id c)).
    + intros filter before limit.
      rewrite (alist_reads config c thread_id filter before limit empty s' Hc Ht eq_refl
                 Hrows).
      unfold alist, alist_query. cbn [result_bind]. rewrite Hc. cbn [result_bind].
      unfold subscript at 1. rewrite Ht. cbn [result_bind].
      destruct (match before with
                | Some before0 => _
                | None => Ok None
                end) as [before_id | ]; [ | done].
      cbn [result_bind]. unfold query_items. subst empty. cbn. rewrite (Hav _). cbn.
      rewrite (proj2 (order_by_desc_nil ck_checkpoint_id []) eq_refl).
      by destruct limit as [[ | n] | ].
  - intros config c other Hc Ht Hne.
    assert (Hrows : List.filter (fun d => String.eqb (ck_thread_id d) other)
                      (checkpoints_container s')
                    = List.filter (fun d => String.eqb (ck_thread_id d) other)
                        (checkpoints_container s)).
    { subst s'. cbn [checkpoints_container set_checkpoints set_conversations].
      apply (filter_without_other thread_id); [done | ].
      intros d Hd. apply elem_of_filter_bool in Hd as [_ Hd]. by apply String.eqb_eq in Hd. }
    split; [by apply (aget_tuple_reads config c other) | ].
    intros filter before limit. by apply (alist_reads config c other).
Qed.

(** X19: [delete_conversation] is not atomic, and its [False] does not mean
    that nothing was deleted: when the conversation document is found and
    deleted and the query for the checkpoints is then refused, the call
    logs the error and returns [False], with the conversation document
    gone and every checkpoint still stored. *)
Theorem delete_conversation_not_atomic (thread_id : string) (s : state)
  (conv : conversation_doc) :
  List.find (fun d => String.eqb (conv_id d) thread_id) (conversations_container s)
  = Some conv ->
  unavailable s (QueryItems Conversations) = false ->
  unavailable s (DeleteItem Conversations (conv_userId conv) thread_id) = false ->
  unavailable s (QueryItems Checkpoints) = true ->
  exists s',
    delete_conversation thread_id s = (Ok false, s')
    /\ conversations_container s'
       = remove conversations (conv_userId conv) thread_id (conversations_container s)
    /\ (conv ∉ conversations_container s')
    /\ checkpoints_container s' = checkpoints_container s
    /\ log s' = log s ++ [LogError ("Error deleting conversation " +:+ thread_id +:+ ": ")
                            CosmosHttpResponseError].
Proof.
  detach. intros Hfind Hq Hdel Hck.
  assert (Hconv : conv ∈ conversations_container s /\ conv_id conv = thread_id).
  { apply List.find_some in Hfind as [Hin Hid]. apply list_elem_of_In in Hin.
    by apply String.eqb_eq in Hid. }
  destruct Hconv as [Hin Hid].
  unfold delete_conversation, try_except, delete_conversation_try.
  unfold bind at 1. unfold reads at 1. unfold query_items at 1.
  cbn [c_name conversations c_get]. rewrite Hq.
  rewrite find_filter in Hfind.
  destruct (List.filter _ (conversations_container s)) as [ | conv' rest]; [done | ].
  injection Hfind as ->.
  unfold bind at 1. unfold delete_item at 1. cbn [c_name conversations c_get c_set].
  rewrite Hdel.
  destruct (read_item_elem_of conversations conv (conversations_container s) Hin)
    as [x Hx]. cbn [c_partition_key c_item_id conversations] in Hx. rewrite Hid in Hx.
  rewrite Hx.
  unfold bind at 1. unfold reads at 1. unfold query_items at 1.
  cbn [c_name checkpoints unavailable set_conversations]. rewrite Hck.
  eexists. split; [reflexivity | ]. cbn. repeat split.
  intros Hstill. apply elem_of_remove in Hstill as [_ Hitem].
  unfold is_item in Hitem. cbn in Hitem. by rewrite Hid, !String.eqb_refl in Hitem.
Qed.

(** ** Coming back to a conversation *)

(** X21: The thread a user last saved a checkpoint in is the thread the user
    is given back: once [aput] has stored a checkpoint for a user and a
    thread, at a time later than the last update of the user's other
    conversation documents, [get_or_create_user_conversation] returns
    that thread, whatever fresh id it was offered. *)
Theorem last_active_thread_is_resumed (config : RunnableConfig) (c : gmap string string)
  (thread_id checkpoint_ns user_id : string) (checkpoint : Checkpoint)
  (metadata new_versions : pyval) (now : datetime) (s : state)
  (type_ serialized_checkpoint serialized_metadata : string) :
  configurable config = Some c ->
  c !! "thread_id" = Some thread_id ->
  c !! "checkpoint_ns" = Some checkpoint_ns ->
  c !! "user_id" = Some user_id ->
  user_id <> "" ->
  dumps_typed (checkpoint_value checkpoint) = Ok (type_, serialized_checkpoint) ->
  dumps metadata = Ok serialized_metadata ->
  available s ->
  (forall d, d ∈ conversations_of s user_id -> conv_id d <> thread_id ->
     String.ltb (conv_lastUpdated d) (isoformat now) = true) ->
  exists s',
    aput config checkpoint metadata new_versions now s
    = (Ok (checkpoint_config thread_id checkpoint_ns (cp_id checkpoint)), s')
    /\ forall uuid4, get_or_create_user_conversation user_id uuid4 s' = Ok thread_id.
Proof.
  detach. intros Hc Ht Hns Hu Hune Hck Hmd Hav Hlater.
  destruct (aput_available config c thread_id checkpoint_ns checkpoint metadata
              new_versions now s type_ serialized_checkpoint serialized_metadata
              Hc Ht Hns Hck Hmd Hav) as (s' & Hrun & _ & _ & Hun & _ & Hconvs).
  exists s'. split; [exact Hrun | ]. intros uuid4.
  assert (Htruthy : opt_truthy (c !! "user_id") = true).
  { rewrite Hu. unfold opt_truthy, str_truthy. apply negb_true_iff.
    by apply String.eqb_neq. }
  rewrite Htruthy, Hu in Hconvs. cbn [from_option] in Hconvs. unfold id in Hconvs.
  set (doc := conversation_doc_of thread_id user_id checkpoint metadata now) in Hconvs.
  unfold get_or_create_user_conversation, query_items.
  cbn [c_name conversations c_get]. rewrite Hun, (Hav _). cbn [result_bind].
  rewrite Hconvs, (filter_upsert_partition user_id doc) by reflexivity.
  fold (conversations_of s user_id).
  set (rows := upsert conversations doc (conversations_of s user_id)).
  assert (Hdoc : doc ∈ rows) by apply elem_of_upsert_self.
  destruct (order_by_desc conv_lastUpdated rows) as [ | d rest] eqn:Hrows.
  { apply order_by_desc_nil in Hrows. rewrite Hrows in Hdoc. by apply elem_of_nil in Hdoc. }
  cbn [take]. f_equal.
  destruct (order_by_desc_head _ _ _ _ Hrows) as [Hd Hmax].
  destruct (decide (conv_id d = thread_id)) as [ | Hne]; [done | exfalso].
  apply elem_of_upsert in Hd as [-> | Hd]; [done | ].
  apply (string_ltb_not_leb _ _ (Hlater d Hd Hne)).
  exact (Hmax doc Hdoc).
Qed.

(** ** Statistics *)

Global Instance string_le_total : Total (fun a b : string => Is_true (String.leb a b)).
Proof.
  intros a b. destruct (String.leb_total a b) as [H | H]; rewrite H; cbn; auto.
Qed.

Global Instance string_le_trans : Transitive (fun a b : string => Is_true (String.leb a b)).
Proof.
  intros a b c. rewrite !Is_true_true. apply string_leb_trans.
Qed.

Lemma string_leb_ne_ltb (a b : string) :
  String.leb a b = true -> a <> b -> String.ltb a b = true.
Proof.
  detach. unfold String.leb, String.ltb. intros Hle Hne.
  destruct (String.compare a b) eqn:E; try done.
  apply String.compare_eq_iff in E. done.
Qed.

Lemma length_remove_dups_le (l : list string) : length (remove_dups l) <= length l.
Proof.
  detach. induction l as [ | x l IH]; cbn; [lia | ].
  destruct (decide_rel elem_of x l); cbn; lia.
Qed.

Lemma sorted_perm (l : list string) : sorted l ≡ₚ l.
Proof. detach. apply merge_sort_Permutation. Qed.

(** [sorted] of a list without duplicates is strictly ascending. *)
Lemma sorted_strict (l : list string) :
  NoDup l -> StronglySorted (fun a b => String.ltb a b = true) (sorted l).
Proof.
  detach. intros Hnd.
  assert (Hs : StronglySorted (fun a b => Is_true (String.leb a b)) (sorted l))
    by (apply StronglySorted_merge_sort; apply _).
  assert (Hnd' : NoDup (sorted l)) by (by rewrite sorted_perm).
  induction Hs as [ | x l' Hs IH Hall]; constructor.
  - apply IH. by apply NoDup_cons in Hnd' as [_ ?].
  - apply NoDup_cons in Hnd' as [Hx _].
    rewrite Forall_forall in Hall. apply Forall_forall. intros y Hy.
    apply string_leb_ne_ltb; [apply Is_true_true; by apply Hall | ].
    intros ->. done.
Qed.

(** X22: While the service answers, the three statistics leave the store as
    it is and report what it holds: the number of conversation
    documents, and the user ids and the thread ids of these documents,
    each id once, in strictly ascending order - so never more ids than
    documents. *)
Theorem statistics_report_the_store (s : state) :
  unavailable s (QueryItems Conversations) = false ->
  exists users threads,
    get_total_conversations s = (Ok (length (conversations_container s)), s)
    /\ get_all_unique_user_ids s = (Ok users, s)
    /\ get_all_unique_thread_ids s = (Ok threads, s)
    /\ StronglySorted (fun a b => String.ltb a b = true) users
    /\ StronglySorted (fun a b => String.ltb a b = true) threads
    /\ (forall u, u ∈ users <->
          exists d, d ∈ conversations_container s /\ conv_userId d = u)
    /\ (forall t, t ∈ threads <->
          exists d, d ∈ conversations_container s /\ conv_id d = t)
    /\ length users <= length (conversations_container s)
    /\ length threads <= length (conversations_container s).
Proof.
  detach. intros Hav.
  assert (Hids : forall key : conversation_doc -> string,
             let ids := sorted (remove_dups (map key (conversations_container s))) in
             StronglySorted (fun a b => String.ltb a b = true) ids
             /\ (forall u, u ∈ ids <->
                   exists d, d ∈ conversations_container s /\ key d = u)
             /\ length ids <= length (conversations_container s)).
  { intros key ids. split; [apply sorted_strict, NoDup_remove_dups | ]. split.
    - intros u. subst ids. rewrite sorted_perm, elem_of_remove_dups.
      rewrite (list_elem_of_fmap key). split.
      + intros (d & -> & Hd). by exists d.
      + intros (d & Hd & <-). by exists d.
    - subst ids. rewrite (Permutation_length (sorted_perm _)).
      etransitivity; [apply length_remove_dups_le | ]. by rewrite length_map. }
  destruct (Hids conv_userId) as (Hu1 & Hu2 & Hu3).
  destruct (Hids conv_id) as (Ht1 & Ht2 & Ht3).
  eexists _, _. split; [ | split; [ | split]].
  - unfold get_total_conversations, try_except, bind, reads, query_count.
    cbn [c_name conversations c_get]. by rewrite Hav.
  - unfold get_all_unique_user_ids, try_except, bind, reads, query_distinct.
    cbn [c_name conversations c_get]. by rewrite Hav.
  - unfold get_all_unique_thread_ids, try_except, bind, reads, query_distinct.
    cbn [c_name conversations c_get]. by rewrite Hav.
  - done.
Qed.

(** ** Session handling *)

(** X23: The thread [_ensure_thread_id] puts into the config never comes
    from the config.  Without a user id (absent or empty) it is a fresh
    id, whatever thread id the config carried, and the store is not
    consulted: an anonymous session is never resumed.  With a user id
    and the service answering, it is the thread of the user's most
    recently updated conversation document (a fresh id when the user has
    none), and that document is the only one the user is left with.
    When the conversations cannot be queried the service's error is
    raised again, logged once by the step that failed and once more as
    unexpected. *)
Theorem ensure_thread_id_cases (config : RunnableConfig) (uuid4 : string) (s : state) :
  let c := default ∅ (configurable config) in
  (opt_truthy (c !! "user_id") = false ->
   _ensure_thread_id config uuid4 s
   = (Ok {| configurable := Some (<["thread_id" := uuid4]> c) |}, s))
  /\ (forall user_id,
        c !! "user_id" = Some user_id -> user_id <> "" ->
        available s ->
        NoDup (map conv_id (conversations_of s user_id)) ->
        let kept := take 1 (order_by_desc conv_lastUpdated (conversations_of s user_id)) in
        let thread_id := match kept with doc :: _ => conv_id doc | [] => uuid4 end in
        exists s',
          _ensure_thread_id config uuid4 s
          = (Ok {| configurable :=
                     Some (<["user_id" := user_id]> (<["thread_id" := thread_id]> c)) |},
             s')
          /\ conversations_of s' user_id = kept)
  /\ (forall user_id,
        c !! "user_id" = Some user_id -> user_id <> "" ->
        unavailable s (QueryItems Conversations) = true ->
        _ensure_thread_id config uuid4 s
        = (Raise CosmosHttpResponseError,
           add_log (LogError "Unexpected error: " CosmosHttpResponseError)
             (add_log (LogError ("Error getting/creating user conversation for user "
                                   +:+ user_id +:+ ": ") CosmosHttpResponseError) s))).
Proof.
  detach. intros c. split; [ | split].
  - intros Hanon. unfold _ensure_thread_id, try_except. fold c. by rewrite Hanon.
  - intros user_id Hu Hne Hav Hnd kept thread_id.
    assert (Htruthy : opt_truthy (c !! "user_id") = true).
    { rewrite Hu. unfold opt_truthy, str_truthy. apply negb_true_iff.
      by apply String.eqb_neq. }
    destruct (cleanup_keeps_latest user_id s Hav Hnd) as (s' & Hrun & _ & Hleft).
    exists s'. split; [ | exact Hleft].
    unfold _ensure_thread_id. fold c. rewrite Htruthy, Hu. cbn [negb from_option].
    unfold id. unfold try_except at 1. unfold bind at 1. unfold try_except at 1.
    unfold reads, get_or_create_user_conversation, query_items.
    cbn [c_name conversations c_get]. rewrite (Hav _). cbn [result_bind].
    fold (conversations_of s user_id). fold kept.
    assert (Hid : match kept with
                  | doc :: _ => Ok (conv_id doc)
                  | [] => Ok uuid4
                  end = Ok thread_id) by (subst thread_id; by destruct kept).
    rewrite Hid. unfold bind at 1. unfold try_except at 1. rewrite Hrun. reflexivity.
  - intros user_id Hu Hne Hdown.
    assert (Htruthy : opt_truthy (c !! "user_id") = true).
    { rewrite Hu. unfold opt_truthy, str_truthy. apply negb_true_iff.
      by apply String.eqb_neq. }
    unfold _ensure_thread_id. fold c. rewrite Htruthy, Hu. cbn [negb from_option].
    unfold id. unfold try_except at 1. unfold bind at 1. unfold try_except at 1.
    unfold reads, get_or_create_user_conversation, query_items.
    cbn [c_name conversations c_get]. by rewrite Hdown.
Qed.

(** ** The HTTP routes *)

Lemma delete_conversation_returns (thread_id : string) (s : state) :
  exists b s', delete_conversation thread_id s = (Ok b, s').
Proof.
  detach. unfold delete_conversation, try_except.
  destruct (delete_conversation_try thread_id s) as [[b | e] s']; by eexists _, _.
Qed.

(** X24: The DELETE route never answers 404.  Its two [HTTPException(404)]
    are raised inside the [try] block whose [except Exception] turns
    every exception into a 500: the route answers with the success
    message or with status 500, and for a thread that has no
    conversation document the answer is a 500 that wraps the 404, with
    nothing deleted. *)
Theorem delete_route_never_answers_404 (thread_id : string) (w : server) :
  match (delete_conversation_thread thread_id w).1 with
  | Responds body => body = [("message", "Conversation deleted successfully")]
  | Raises e =>
      exists cause, e = HTTPException 500 "Error deleting conversation: " (Some cause)
  end
  /\ (unavailable (store w) (QueryItems Conversations) = false ->
      List.find (fun d => String.eqb (conv_id d) thread_id)
        (conversations_container (store w)) = None ->
      exists w',
        delete_conversation_thread thread_id w
        = (Raises (HTTPException 500 "Error deleting conversation: "
                     (Some (HTTPException 404 "Conversation not found" None))), w')
        /\ store w' = store w).
Proof.
  detach. split.
  - unfold delete_conversation_thread, attempt, internal_error, route_bind, route_logger,
      await, reads, query_items, raises, responds.
    cbn [store route_log c_name conversations c_get fst snd].
    destruct (unavailable (store w) (QueryItems Conversations)); [cbn; by eexists | ].
    destruct (List.filter _ (conversations_container (store w))) as [ | doc rest];
      [cbn; by eexists | ].
    destruct (delete_conversation_returns (conv_id doc) (store w)) as (b & s' & Hrun).
    cbn [store]. rewrite Hrun. destruct b; cbn; [done | by eexists].
  - intros Hav Hfind. rewrite find_filter in Hfind.
    unfold delete_conversation_thread, attempt, internal_error, route_bind, route_logger,
      await, reads, query_items, raises, responds.
    cbn [store route_log c_name conversations c_get fst snd]. rewrite Hav.
    destruct (List.filter _ (conversations_container (store w))) as [ | doc rest]; [ | done].
    cbn. by eexists.
Qed.

Lemma result_mapM_length {A B} (f : A -> result B) (l : list A) (bs : list B) :
  result_mapM f l = Ok bs -> length bs = length l.
Proof.
  detach. intros H. apply result_mapM_Forall2 in H. symmetry. by apply Forall2_length in H.
Qed.

Lemma get_conversations_available (user_id : string) (limit : nat) (s : state) :
  unavailable s (QueryItems Conversations) = false ->
  get_conversations_by_user user_id limit s
  = result_mapM conversation_summary_of
      (take limit (order_by_desc conv_lastUpdated (conversations_of s user_id))).
Proof.
  intros Hav. unfold get_conversations_by_user, query_items.
  cbn [c_name conversations c_get]. by rewrite Hav.
Qed.

Lemma order_by_desc_short {D} (key : D -> string) (l : list D) :
  length l <= 1 -> order_by_desc key l = l.
Proof.
  detach. destruct l as [ | x [ | y l]]; cbn; intros H; try lia.
  - by apply order_by_desc_nil.
  - apply order_by_desc_singleton.
Qed.

(** X25: GET /conversation-by-user answers with at most one conversation,
    whatever [limit] asks for: when the first listing shows more than
    one, the route reconciles the user's documents and lists again.  With
    the service answering and the user's documents readable, the answer
    is the entry of the most recently updated document (for a [limit] of
    at least 1), and for a [limit] of at least 2 the user is left with
    at most one document. *)
Theorem user_listing_has_at_most_one (user_id : string) (limit : nat) (w : server) :
  available (store w) ->
  NoDup (map conv_id (conversations_of (store w) user_id)) ->
  (forall d, d ∈ conversations_of (store w) user_id ->
     exists summary, conversation_summary_of d = Ok summary) ->
  exists entries w',
    get_user_conversations user_id limit w = (Responds entries, w')
    /\ length entries <= 1
    /\ (2 <= limit -> length (conversations_of (store w') user_id) <= 1)
    /\ (1 <= limit ->
        forall latest rest,
          order_by_desc conv_lastUpdated (conversations_of (store w) user_id)
          = latest :: rest ->
          exists summary,
            conversation_summary_of latest = Ok summary
            /\ entries = [conversation_response_of summary]).
Proof.
  intros Hav Hnd Hsum.
  set (s := store w) in *.
  set (ordered := order_by_desc conv_lastUpdated (conversations_of s user_id)).
  assert (Hordered : forall d, d ∈ ordered -> d ∈ conversations_of s user_id).
  { intros d Hd. by apply (proj1 (order_by_desc_elem_of conv_lastUpdated _ _)) in Hd. }
  destruct (result_mapM_ok conversation_summary_of (take limit ordered))
    as [first Hfirst].
  { intros d Hd. apply Hsum, Hordered. by apply (subseteq_take limit). }
  pose proof (result_mapM_length _ _ _ Hfirst) as Hlen. rewrite length_take in Hlen.
  assert (Hordered_len : length ordered = length (conversations_of s user_id))
    by apply (Permutation_length (order_by_desc_perm _ _)).
  unfold get_user_conversations, attempt.
  unfold route_bind at 1. unfold await at 1, reads. fold s.
  rewrite (get_conversations_available _ _ _ (Hav _)). fold ordered. rewrite Hfirst.
  destruct (1 <? length first) eqn:Hmany.
  - (* more than one entry: reconcile and list again *)
    apply Nat.ltb_lt in Hmany.
    destruct (cleanup_keeps_latest user_id s Hav Hnd) as (s' & Hrun & Hav' & Hleft).
    fold ordered in Hleft.
    assert (Hleft_len : length (conversations_of s' user_id) <= 1).
    { rewrite Hleft, length_take. lia. }
    destruct (result_mapM_ok conversation_summary_of (take limit (take 1 ordered)))
      as [second Hsecond].
    { intros d Hd. apply Hsum, Hordered.
      apply (subseteq_take limit) in Hd. by apply (subseteq_take 1) in Hd. }
    pose proof (result_mapM_length _ _ _ Hsecond) as Hlen2.
    rewrite !length_take in Hlen2.
    unfold route_bind at 1. unfold route_bind at 1. unfold await at 1. cbn [store].
    rewrite Hrun. unfold route_bind at 1. unfold route_logger at 1.
    unfold route_bind at 1. unfold await at 1, reads. cbn [store].
    rewrite (get_conversations_available _ _ _ (Hav' _)).
    rewrite (order_by_desc_short _ _ Hleft_len), Hleft, Hsecond.
    unfold route_bind at 1. unfold route_logger at 1. cbn [responds].
    eexists _, _. split; [reflexivity | ].
    split; [rewrite length_map; lia | ]. split; [by intros _ | ].
    intros _ latest rest Hlatest. rewrite Hlatest in Hsecond.
    assert (Hlimit : take limit (take 1 (latest :: rest)) = [latest]).
    { destruct limit as [ | [ | n]]; [lia | lia | reflexivity]. }
    rewrite Hlimit in Hsecond. cbn in Hsecond.
    destruct (conversation_summary_of latest) as [summary | ]; [ | done].
    cbn in Hsecond. injection Hsecond as <-. by exists summary.
  - (* at most one entry *)
    apply Nat.ltb_ge in Hmany.
    unfold route_bind at 1. cbn [responds].
    eexists _, _. split; [reflexivity | ].
    split; [by rewrite length_map | ]. cbn [store]. split.
    + intros Hlimit. lia.
    + intros Hlimit latest rest Hlatest. rewrite Hlatest in Hfirst, Hlen.
      assert (Hone : take limit (latest :: rest) = [latest]).
      { destruct limit as [ | n]; [lia | ]. cbn in Hlen. cbn.
        destruct (take n rest) eqn:Htake; [done | ].
        apply (f_equal length) in Htake. rewrite length_take in Htake. cbn in Htake. lia. }
      rewrite Hone in Hfirst. cbn in Hfirst.
      destruct (conversation_summary_of latest) as [summary | ]; [ | done].
      cbn in Hfirst. injection Hfirst as <-. by exists summary.
Qed.

(** X26: GET /conversation-by-id answers 404 exactly for a thread id that no
    conversation document carries.  For a document written by
    [_update_conversation_document] whose first message is a chat
    message with a text content, it answers with the number of stored
    messages and a preview whose [role] and [timestamp] are empty: it
    reads the keys [role] and [timestamp] of the stored message, which
    carries its role under [type] and no timestamp. *)
Theorem conversation_by_id_route (thread_id : string) (w : server) :
  unavailable (store w) (QueryItems Conversations) = false ->
  (List.find (fun d => String.eqb (conv_id d) thread_id)
     (conversations_container (store w)) = None ->
   exists w',
     get_conversation_by_thread thread_id w
     = (Raises (HTTPException 404 "Conversation not found" None), w')
     /\ store w' = store w)
  /\ (forall user_id checkpoint metadata now class_name type_ text
             additional_kwargs response_metadata id further others,
        List.find (fun d => String.eqb (conv_id d) thread_id)
          (conversations_container (store w))
        = Some (conversation_doc_of thread_id user_id checkpoint metadata now) ->
        checkpoint_messages checkpoint
        = PList (PMessage class_name type_ (PStr text) additional_kwargs
                   response_metadata id further :: others) ->
        exists w' shown,
          get_conversation_by_thread thread_id w
          = (Responds {| cr_thread_id := thread_id;
                         cr_user_id := user_id;
                         cr_last_updated := isoformat now;
                         cr_message_count := S (length others);
                         cr_first_message_preview :=
                           Some [("role", PStr ""); ("content", PStr shown);
                                 ("timestamp", PStr "")] |}, w')
          /\ preview_content (PStr text) = Ok (PStr shown)
          /\ store w' = store w).
Proof.
  detach. intros Hav. split.
  - intros Hfind. rewrite find_filter in Hfind.
    unfold get_conversation_by_thread, attempt, internal_error, route_bind, route_logger,
      await, reads, query_items, raises, responds.
    cbn [store route_log c_name conversations c_get fst snd]. rewrite Hav.
    destruct (List.filter _ (conversations_container (store w))) as [ | doc rest]; [ | done].
    cbn. by eexists.
  - intros user_id checkpoint metadata now class_name type_ text ak rm mid further others
      Hfind Hmsgs.
    rewrite find_filter in Hfind.
    unfold get_conversation_by_thread, attempt, internal_error, route_bind, route_logger,
      await, reads, query_items, raises, responds, evaluate.
    cbn [store route_log c_name conversations c_get fst snd]. rewrite Hav.
    destruct (List.filter _ (conversations_container (store w))) as [ | doc rest]; [done | ].
    injection Hfind as ->.
    cbn [conversation_doc_of conv_messages conv_id conv_userId conv_lastUpdated].
    rewrite Hmsgs.
    cbn [serialize_for_cosmosdb map py_len py_truthy length Nat.eqb negb py_item0 py_get].
    cbn [dict_get String.eqb Ascii.eqb Bool.eqb from_option]. unfold id.
    rewrite length_map. unfold preview_content.
    destruct (100 <? str_len text); eexists _, _; (split; [reflexivity | done]).
Qed.

Lemma statistics_cases (s : state) :
  get_total_conversations s
  = (if unavailable s (QueryItems Conversations)
     then (Ok 0, add_log (LogError "Error getting total conversations count: "
                            CosmosHttpResponseError) s)
     else (Ok (length (conversations_container s)), s))
  /\ get_all_unique_user_ids s
     = (if unavailable s (QueryItems Conversations)
        then (Ok [], add_log (LogError "Error getting unique user IDs: "
                                CosmosHttpResponseError) s)
        else (Ok (sorted (remove_dups (map conv_userId (conversations_container s)))), s))
  /\ get_all_unique_thread_ids s
     = (if unavailable s (QueryItems Conversations)
        then (Ok [], add_log (LogError "Error getting unique thread IDs: "
                                CosmosHttpResponseError) s)
        else (Ok (sorted (remove_dups (map conv_id (conversations_container s)))), s)).
Proof.
  detach.
  unfold get_total_conversations, get_all_unique_user_ids, get_all_unique_thread_ids,
    try_except, bind, reads, ret, logger, query_count, query_distinct.
  cbn [c_name conversations c_get].
  by destruct (unavailable s (QueryItems Conversations)).
Qed.

(** X27: GET /database-summary always answers: the three statistics swallow
    their failures, so the route's own 500 is never reached.  While the
    conversations cannot be queried the summary is that of an empty
    database - no conversation, no user, no thread - and only the log
    tells; otherwise it reports the number of stored conversation
    documents.  The store is never changed. *)
Theorem database_summary_never_fails (w : server) :
  exists summary w',
    get_database_summary w = (Responds summary, w')
    /\ conversations_container (store w') = conversations_container (store w)
    /\ checkpoints_container (store w') = checkpoints_container (store w)
    /\ writes_container (store w') = writes_container (store w)
    /\ (unavailable (store w) (QueryItems Conversations) = true ->
        summary = {| ds_total_conversations := 0;
                     ds_unique_users := [];
                     ds_unique_thread_ids := [] |}
        /\ log (store w')
           = log (store w)
             ++ [LogError "Error getting total conversations count: " CosmosHttpResponseError;
                 LogError "Error getting unique user IDs: " CosmosHttpResponseError;
                 LogError "Error getting unique thread IDs: " CosmosHttpResponseError])
    /\ (unavailable (store w) (QueryItems Conversations) = false ->
        ds_total_conversations summary = length (conversations_container (store w))
        /\ store w' = store w).
Proof.
  detach.
  unfold get_database_summary, attempt, internal_error, route_bind, route_logger,
    await, raises, responds.
  cbn [store route_log].
  destruct (statistics_cases (store w)) as (-> & _ & _).
  destruct (unavailable (store w) (QueryItems Conversations)) eqn:Hdown.
  - cbn [store route_log].
    destruct (statistics_cases
                (add_log (LogError "Error getting total conversations count: "
                            CosmosHttpResponseError) (store w))) as (_ & -> & _).
    cbn [unavailable add_log]. rewrite Hdown. cbn [store route_log].
    match goal with
    | |- context [get_all_unique_thread_ids ?s1] =>
        destruct (statistics_cases s1) as (_ & _ & ->)
    end.
    cbn [unavailable add_log]. rewrite Hdown.
    eexists _, _. split; [reflexivity | ]. cbn. repeat split; try done.
    by rewrite <- !app_assoc.
  - cbn [store route_log].
    destruct (statistics_cases (store w)) as (_ & -> & Hthreads). rewrite Hdown.
    cbn [store route_log]. rewrite Hthreads, Hdown.
    eexists _, _. split; [reflexivity | ]. cbn. repeat split; done.
Qed.
End CheckpointStore.

(* ================================================================= *)
(** * Closed examples *)

(** ** Object codec *)

Example serialize_human_message :
  serialize_for_cosmosdb
    (PMessage "HumanMessage" "human" (PStr "Hi") (Some (PDict [])) (Some (PDict []))
       (Some PNone) [("name", PStr "alice")])
  = PDict [("_type", PStr "HumanMessage"); ("content", PStr "Hi");
           ("type", PStr "human"); ("additional_kwargs", PDict []);
           ("response_metadata", PDict []); ("id", PNone)].
Proof. reflexivity. Qed.

Example looks_like_iso_utc : looks_like_iso "2024-01-01T00:00:00Z" = true.
Proof. reflexivity. Qed.

Example replace_Z_utc : replace_Z "2024-01-01T00:00:00Z" = "2024-01-01T00:00:00+00:00".
Proof. reflexivity. Qed.

Lemma codec_round_trip_witness :
  let bare :=
    PList [PMessage "AIMessage" "ai" (PStr "Hello!") (Some (PDict []))
             (Some (PDict [("model", PStr "2024-01-01T00:00:00Z")])) (Some (PStr "m1")) [];
           PDict [("turn", PInt 2); ("done", PBool false); ("note", PNone)]] in
  let named :=
    PList [PMessage "AIMessage" "ai" (PStr "Hello!") (Some (PDict []))
             (Some (PDict [("model", PStr "2024-01-01T00:00:00Z")])) (Some (PStr "m1"))
             [("name", PStr "planner")];
           PDict [("turn", PInt 2); ("done", PBool false); ("note", PNone)]] in
  stable_tree sample_fromisoformat bare = true
  /\ stable_tree sample_fromisoformat named = true
  /\ deserialize_from_cosmosdb sample_fromisoformat (serialize_for_cosmosdb bare) = bare
  /\ deserialize_from_cosmosdb sample_fromisoformat (serialize_for_cosmosdb named) = bare
  /\ deserialize_from_cosmosdb sample_fromisoformat (serialize_for_cosmosdb named)
     <> named.
Proof.
  cbv zeta. split; [reflexivity | ]. split; [reflexivity | ].
  split; [ | split].
  - apply (codec_round_trip sample_fromisoformat); reflexivity.
  - apply (codec_round_trip sample_fromisoformat). reflexivity.
  - intros Hsame.
    apply (codec_round_trip sample_fromisoformat) in Hsame; [discriminate Hsame | ].
    reflexivity.
Defined.

(** C1 (as stated) fails: a dict of strings and numbers that has a
    [_type] key loses that key, whatever the timestamp parser does, and a
    string that looks like a timestamp comes back as a datetime. *)
Lemma codec_round_trip_counterexample :
  plain_tree (PDict [("_type", PStr "note"); ("a", PInt 1)]) = true
  /\ (forall parse,
        deserialize_from_cosmosdb parse
          (serialize_for_cosmosdb (PDict [("_type", PStr "note"); ("a", PInt 1)]))
        = PDict [("a", PInt 1)])
  /\ PDict [("a", PInt 1)] <> PDict [("_type", PStr "note"); ("a", PInt 1)]
  /\ plain_tree (PStr "2024-01-01T00:00:00Z") = true
  /\ (forall parse d,
        parse "2024-01-01T00:00:00+00:00" = Some d ->
        deserialize_from_cosmosdb parse
          (serialize_for_cosmosdb (PStr "2024-01-01T00:00:00Z"))
        = PDatetime d)
  /\ (forall d, PDatetime d <> PStr "2024-01-01T00:00:00Z").
Proof.
  repeat split; try reflexivity; try discriminate.
  intros parse d H. vm_compute in H. vm_compute. by rewrite H.
Qed.

(** ** aget_tuple *)

Example aget_tuple_latest :
  aget_tuple sample_serde sample_base64 (thread_config "t1") sample_state
  = Some {| ct_config := checkpoint_config "t1" "" "c2";
            ct_checkpoint := PDict [("id", PStr "c2")];
            ct_metadata := PDict [("source", PStr "loop")];
            ct_parent_config := Some (checkpoint_config "t1" "" "c1");
            ct_pending_writes := Some [] |}.
Proof. vm_compute. reflexivity. Qed.

Example aget_tuple_exact :
  ct_config <$> aget_tuple sample_serde sample_base64 (checkpoint_config "t1" "" "c1")
                  sample_state
  = Some (checkpoint_config "t1" "" "c1").
Proof. vm_compute. reflexivity. Qed.

Lemma aget_tuple_lookup_witness :
  configurable (thread_config "t1") = Some {["thread_id" := "t1"]}
  /\ ({["thread_id" := "t1"]} : gmap string string) !! "thread_id" = Some "t1"
  /\ exists tup doc,
       aget_tuple sample_serde sample_base64 (thread_config "t1") sample_state = Some tup
       /\ candidate sample_state "t1" "" None doc
       /\ tuple_of_doc sample_serde sample_base64 sample_state "t1" "" doc tup.
Proof.
  split; [reflexivity | ]. split; [reflexivity | ].
  destruct (aget_tuple_lookup sample_serde sample_base64 (thread_config "t1")
              {["thread_id" := "t1"]} "t1" sample_state eq_refl eq_refl)
    as (Hsome & _ & _ & Hhit).
  destruct Hhit as [tup Htup].
  - exists (sample_checkpoint_doc "c1" None). repeat split. by left.
  - reflexivity.
  - reflexivity.
  - split.
    + intros d Hd. cbn in Hd.
      apply elem_of_cons in Hd as [-> | Hd];
        [ | apply list_elem_of_singleton in Hd as ->];
        (split; eexists; vm_compute; reflexivity).
    + intros w Hw. cbn in Hw. by apply elem_of_nil in Hw.
  - destruct (Hsome tup Htup) as (doc & Hcand & _ & Htuple).
    exists tup, doc. repeat split; try done; apply Hcand || apply Htuple.
Defined.

Lemma available_empty_state : available empty_state.
Proof. intros op. reflexivity. Qed.

Lemma available_sample_state : available sample_state.
Proof. intros op. reflexivity. Qed.

Lemma ids_derived_sample_state : ids_derived (checkpoints_container sample_state).
Proof.
  intros d Hd. cbn in Hd.
  apply elem_of_cons in Hd as [-> | Hd]; [reflexivity | ].
  apply list_elem_of_singleton in Hd as ->. reflexivity.
Qed.

(** ** aput *)

Lemma aput_parent_chain_witness :
  exists s' doc tup,
    aput sample_serde sample_base64 (checkpoint_config "t1" "" "c2")
      (bare_checkpoint "c3") loop_metadata PNone (mk_datetime "2024-05-01T10:00:00")
      sample_state
    = (Ok (checkpoint_config "t1" "" "c3"), s')
    /\ read_item checkpoints "t1" (checkpoint_doc_id "t1" "" "c3")
         (checkpoints_container s') = Some doc
    /\ ck_parent_checkpoint_id doc = Some "c2"
    /\ aget_tuple sample_serde sample_base64 (checkpoint_config "t1" "" "c3") s' = Some tup
    /\ ct_checkpoint tup = checkpoint_value (bare_checkpoint "c3")
    /\ ct_metadata tup = loop_metadata
    /\ ct_parent_config tup = Some (checkpoint_config "t1" "" "c2").
Proof.
  destruct (checkpoint_config_lookup "t1" "" "c2") as (c & Hc & Ht & Hns & Hid & _).
  apply (aput_parent_chain sample_serde sample_base64 (checkpoint_config "t1" "" "c2") c
           "t1" "" "c2" (bare_checkpoint "c3") loop_metadata PNone
           (mk_datetime "2024-05-01T10:00:00") sample_state
           "checkpoint" "=c3" "=loop" Hc Ht Hns Hid).
  - discriminate.
  - discriminate.
  - exact available_sample_state.
  - exact ids_derived_sample_state.
  - reflexivity.
  - reflexivity.
  - reflexivity.
  - reflexivity.
  - intros w Hw. cbn in Hw. by apply elem_of_nil in Hw.
Defined.

Lemma aput_without_user_id_witness :
  exists s',
    aput sample_serde sample_base64 (checkpoint_config "t1" "" "c2")
      (bare_checkpoint "c3") loop_metadata PNone (mk_datetime "2024-05-01T10:00:00")
      sample_state
    = (Ok (checkpoint_config "t1" "" "c3"), s')
    /\ conversations_container s' = conversations_container sample_state
    /\ checkpoints_container s'
       = upsert checkpoints
           (aput_doc {["thread_id" := "t1"; "checkpoint_ns" := ""; "checkpoint_id" := "c2"]}
              "t1" "" (bare_checkpoint "c3") "checkpoint" "=c3" "=loop")
           (checkpoints_container sample_state)
    /\ writes_container s' = writes_container sample_state
    /\ log s' = log sample_state
                ++ [LogWarning ("No user_id found in config for thread_id: " +:+ "t1")].
Proof.
  apply (aput_without_user_id sample_serde sample_base64 (checkpoint_config "t1" "" "c2")
           {["thread_id" := "t1"; "checkpoint_ns" := ""; "checkpoint_id" := "c2"]}
           "t1" "" (bare_checkpoint "c3") loop_metadata PNone
           (mk_datetime "2024-05-01T10:00:00") sample_state
           "checkpoint" "=c3" "=loop"); reflexivity.
Defined.

Lemma missing_namespace_witness :
  (forall checkpoint metadata new_versions now,
     aput sample_serde sample_base64 (thread_config "t1") checkpoint metadata
       new_versions now sample_state
     = (Raise (RuntimeError "Failed to save checkpoint: " (KeyError "checkpoint_ns")),
        sample_state))
  /\ (forall writes_ task_id,
        aput_writes sample_serde sample_base64 (thread_config "t1") writes_ task_id
          sample_state
        = (Raise (RuntimeError "Failed to store writes: " (KeyError "checkpoint_ns")),
           sample_state))
  /\ aget_tuple sample_serde sample_base64 (thread_config "t1") sample_state
     = aget_tuple sample_serde sample_base64
         {| configurable := Some (<["checkpoint_ns" := ""]> {["thread_id" := "t1"]}) |}
         sample_state
  /\ (forall filter before limit,
        alist sample_serde sample_base64 (Some (thread_config "t1")) filter before limit
          sample_state
        = alist sample_serde sample_base64
            (Some {| configurable :=
                       Some (<["checkpoint_ns" := ""]> {["thread_id" := "t1"]}) |})
            filter before limit sample_state).
Proof.
  exact (missing_namespace sample_serde sample_base64 (thread_config "t1")
           {["thread_id" := "t1"]} sample_state eq_refl eq_refl).
Defined.

Example alist_newest_first :
  ct_config <$> alist sample_serde sample_base64 (Some (thread_config "t1")) None None None
                  sample_state
  = [checkpoint_config "t1" "" "c2"; checkpoint_config "t1" "" "c1"].
Proof. vm_compute. reflexivity. Qed.

(** ** aput_writes and pending writes *)

Example aput_writes_skips_nothing_else :
  w_idx <$> writes_container
    (aput_writes sample_serde sample_base64 (checkpoint_config "t1" "" "c2")
       [("messages", PStr "a"); ("summary", PStr "b"); ("messages", PStr "c")]
       "task-1" sample_state).2
  = [0; 1; 2].
Proof. vm_compute. reflexivity. Qed.

Lemma pending_writes_read_back_witness :
  exists s1 s2 tup pending,
    aput_writes picky_serde sample_base64 (checkpoint_config "t1" "" "c2")
      [("messages", PNone); ("summary", PStr "old")] "task-1" sample_state = (Ok tt, s1)
    /\ aput_writes picky_serde sample_base64 (checkpoint_config "t1" "" "c2")
         [("messages", PStr "a"); ("summary", PStr "b")] "task-1" s1 = (Ok tt, s2)
    /\ writes_of s2 "t1" "" "c2"
       ≡ₚ [write_doc_of "t1" "" "c2" "task-1" 0 "messages" "str" "=a";
           write_doc_of "t1" "" "c2" "task-1" 1 "summary" "str" "=b"]
    /\ write_doc_id "t1" "" "c2" "task-1" 0 <> write_doc_id "t1" "" "c2" "task-1" 1
    /\ aget_tuple picky_serde sample_base64 (checkpoint_config "t1" "" "c2") s2 = Some tup
    /\ ct_pending_writes tup = Some pending
    /\ pending ≡ₚ [("task-1", "messages", PStr "a"); ("task-1", "summary", PStr "b")].
Proof.
  destruct (checkpoint_config_lookup "t1" "" "c2") as (c & Hc & Ht & Hns & Hid & _).
  apply (pending_writes_read_back picky_serde sample_base64
           (checkpoint_config "t1" "" "c2") c "t1" "" "c2" "task-1"
           [("messages", PNone); ("summary", PStr "old")]
           "messages" "summary" (PStr "a") (PStr "b")
           "str" "=a" "str" "=b" sample_state Hc Ht Hns Hid).
  - discriminate.
  - exact available_sample_state.
  - unfold unique_items. cbn. apply NoDup_nil_2.
  - reflexivity.
  - exists (sample_checkpoint_doc "c2" (Some "c1")). repeat split. right. by left.
  - intros d (Hd & _ & _) Hid2. cbn in Hd.
    apply elem_of_cons in Hd as [-> | Hd];
      [ | apply list_elem_of_singleton in Hd as ->];
      (split; eexists; vm_compute; reflexivity).
  - cbn. lia.
  - reflexivity.
  - reflexivity.
  - reflexivity.
  - reflexivity.
Defined.

(** The order of the pending writes is the storage order of their
    documents: when the first pair of the earlier call is not stored,
    the document of position 1 comes to stand before that of position 0. *)
Example pending_writes_in_storage_order :
  let config := checkpoint_config "t1" "" "c2" in
  let s1 := (aput_writes picky_serde sample_base64 config
               [("messages", PNone); ("summary", PStr "old")] "task-1" sample_state).2 in
  let s2 := (aput_writes picky_serde sample_base64 config
               [("messages", PStr "a"); ("summary", PStr "b")] "task-1" s1).2 in
  ct_pending_writes <$> aget_tuple picky_serde sample_base64 config s2
  = Some (Some [("task-1", "summary", PStr "b"); ("task-1", "messages", PStr "a")]).
Proof. vm_compute. reflexivity. Qed.

(** C6 (as stated) fails: two calls for the same task with one pair each
    both write position 0, so one document is left, holding the second
    write, and [aget_tuple] returns that write alone. *)
Lemma pending_writes_counterexample :
  let config := checkpoint_config "t1" "" "c2" in
  let s1 := (aput_writes sample_serde sample_base64 config
               [("messages", PStr "first")] "task-1" sample_state).2 in
  let s2 := (aput_writes sample_serde sample_base64 config
               [("messages", PStr "second")] "task-1" s1).2 in
  writes_container s2 = [write_doc_of "t1" "" "c2" "task-1" 0 "messages" "str" "=second"]
  /\ ct_pending_writes <$> aget_tuple sample_serde sample_base64 config s2
     = Some (Some [("task-1", "messages", PStr "second")]).
Proof. split; vm_compute; reflexivity. Qed.

(** ** Conversation directory *)

Lemma lazy_thread_creation_witness :
  let parts := PList [PDict [("type", PStr "text"); ("text", PStr "Hi")]] in
  let msgs :=
    [PMessage "HumanMessage" "human" parts (Some (PDict [])) (Some (PDict []))
       (Some PNone) [];
     PMessage "AIMessage" "ai" (PStr "Hello!") (Some (PDict [])) (Some (PDict []))
       (Some PNone) [("name", PStr "planner")]] in
  available empty_state
  /\ "alice" <> ""
  /\ conversations_of empty_state "alice" = []
  /\ get_or_create_user_conversation "alice" "6f1c" empty_state = Ok "6f1c"
  /\ get_conversations_by_user sample_fromisoformat "alice" 50 empty_state = Ok []
  /\ previewable msgs = true
  /\ exists s' summary,
       aput sample_serde sample_base64 (engine_config "6f1c" "alice")
         (chat_checkpoint "c1" msgs)
         loop_metadata PNone (mk_datetime "2024-05-01T10:00:00") empty_state
       = (Ok (checkpoint_config "6f1c" "" "c1"), s')
       /\ get_conversations_by_user sample_fromisoformat "alice" 50 s' = Ok [summary]
       /\ cs_thread_id summary = "6f1c"
       /\ cs_user_id summary = "alice"
       /\ cs_message_count summary = 2.
Proof.
  cbv zeta.
  assert (Hne : "alice" <> "") by discriminate.
  destruct (lazy_thread_creation sample_fromisoformat sample_serde sample_base64
              "alice" "6f1c" 50 empty_state available_empty_state Hne) as [_ Hnew].
  destruct (Hnew eq_refl) as (Hfresh & Hlist & Hafter).
  repeat (split; [done | ]).
  destruct (Hafter (engine_config "6f1c" "alice")
              {["thread_id" := "6f1c"; "checkpoint_ns" := ""; "user_id" := "alice"]}
              ""
              (chat_checkpoint "c1"
                 [PMessage "HumanMessage" "human"
                    (PList [PDict [("type", PStr "text"); ("text", PStr "Hi")]])
                    (Some (PDict [])) (Some (PDict [])) (Some PNone) [];
                  PMessage "AIMessage" "ai" (PStr "Hello!") (Some (PDict []))
                    (Some (PDict [])) (Some PNone) [("name", PStr "planner")]])
              loop_metadata PNone (mk_datetime "2024-05-01T10:00:00")
              [PMessage "HumanMessage" "human"
                 (PList [PDict [("type", PStr "text"); ("text", PStr "Hi")]])
                 (Some (PDict [])) (Some (PDict [])) (Some PNone) [];
               PMessage "AIMessage" "ai" (PStr "Hello!") (Some (PDict []))
                 (Some (PDict [])) (Some PNone) [("name", PStr "planner")]]
              "opaque" "=" "=loop" eq_refl eq_refl eq_refl eq_refl eq_refl eq_refl
              eq_refl eq_refl) as (s' & Hrun & _ & Hone & _).
  destruct Hone as (summary & Hlisting & Hthread & Hwho & Hcount); [lia | reflexivity | ].
  exists s', summary. by repeat split.
Defined.

(** A first message whose content is a list of more than 100 parts
    cannot be previewed, and the listing raises. *)
Example listing_raises_on_a_long_list_content :
  let msgs :=
    [PMessage "HumanMessage" "human" (PList (replicate 101 (PStr "part")))
       (Some (PDict [])) (Some (PDict [])) (Some PNone) []] in
  previewable msgs = false
  /\ get_conversations_by_user sample_fromisoformat "alice" 50
       (aput sample_serde sample_base64 (engine_config "6f1c" "alice")
          (chat_checkpoint "c1" msgs) loop_metadata PNone
          (mk_datetime "2024-05-01T10:00:00") empty_state).2
     = Raise TypeError.
Proof. split; vm_compute; reflexivity. Qed.

(** C8 (as stated) fails: the first checkpoint of a thread may carry no
    message, and the entry listed after it has [message_count = 0]. *)
Lemma lazy_thread_creation_counterexample :
  let written :=
    aput sample_serde sample_base64 (engine_config "6f1c" "alice")
      (bare_checkpoint "c1") loop_metadata PNone (mk_datetime "2024-05-01T10:00:00")
      empty_state in
  get_or_create_user_conversation "alice" "6f1c" empty_state = Ok "6f1c"
  /\ written.1 = Ok (checkpoint_config "6f1c" "" "c1")
  /\ get_conversations_by_user sample_fromisoformat "alice" 50 written.2
     = Ok [{| cs_thread_id := "6f1c";
              cs_user_id := "alice";
              cs_last_updated := mk_datetime "2024-05-01T10:00:00";
              cs_message_count := 0;
              cs_first_message_preview := None |}].
Proof. repeat split; vm_compute; reflexivity. Qed.

Lemma one_conversation_per_user_witness :
  exists s' latest,
    (let! _ := run_ops "alice"
                 [Upsert "t1" (bare_checkpoint "c1") loop_metadata
                    (mk_datetime "2024-05-01T10:00:00");
                  Reconcile;
                  Upsert "t2" (bare_checkpoint "c7") loop_metadata
                    (mk_datetime "2024-05-01T09:00:00");
                  Upsert "t3" (bare_checkpoint "c9") loop_metadata
                    (mk_datetime "2024-05-02T08:30:00")] in
     cleanup_old_conversations "alice") empty_state = (Ok tt, s')
    /\ conversations_of s' "alice" = [latest]
    /\ (conv_id latest, conv_lastUpdated latest)
       ∈ [("t1", "2024-05-01T10:00:00"); ("t2", "2024-05-01T09:00:00");
          ("t3", "2024-05-02T08:30:00")]
    /\ forall p,
         p ∈ [("t1", "2024-05-01T10:00:00"); ("t2", "2024-05-01T09:00:00");
              ("t3", "2024-05-02T08:30:00")] ->
         String.leb p.2 (conv_lastUpdated latest) = true.
Proof.
  apply (one_conversation_per_user "alice"
           [Upsert "t1" (bare_checkpoint "c1") loop_metadata
              (mk_datetime "2024-05-01T10:00:00");
            Reconcile;
            Upsert "t2" (bare_checkpoint "c7") loop_metadata
              (mk_datetime "2024-05-01T09:00:00");
            Upsert "t3" (bare_checkpoint "c9") loop_metadata
              (mk_datetime "2024-05-02T08:30:00")] empty_state).
  - discriminate.
  - exact available_empty_state.
  - reflexivity.
  - apply (bool_decide_unpack _). vm_compute. exact I.
  - discriminate.
Defined.

Example reconcile_keeps_latest :
  conv_id <$> conversations_of
    ((let! _ := run_ops "alice"
                  [Upsert "t1" (bare_checkpoint "c1") loop_metadata
                     (mk_datetime "2024-05-01T10:00:00");
                   Upsert "t2" (bare_checkpoint "c7") loop_metadata
                     (mk_datetime "2024-05-01T09:00:00")] in
      cleanup_old_conversations "alice") empty_state).2 "alice"
  = ["t1"].
Proof. vm_compute. reflexivity. Qed.

Lemma delete_conversation_outcome_witness :
  unique_items checkpoints (checkpoints_container sample_directory_state)
  /\ available sample_directory_state
  /\ rejects_unbound_parameter sample_directory_state = false
  /\ exists s',
       delete_conversation "t1" sample_directory_state = (Ok true, s')
       /\ (forall d, d ∈ checkpoints_container s' <->
             d ∈ checkpoints_container sample_directory_state /\ ck_thread_id d <> "t1")
       /\ conversations_container s' = [].
Proof.
  assert (Huniq : unique_items checkpoints (checkpoints_container sample_directory_state)).
  { unfold unique_items. apply (bool_decide_unpack _). vm_compute. exact I. }
  assert (Hav : available sample_directory_state) by (intros op; reflexivity).
  split; [exact Huniq | ]. split; [exact Hav | ]. split; [reflexivity | ].
  destruct (delete_conversation_outcome "t1" sample_directory_state Huniq)
    as (b & s' & Hrun & Hres).
  destruct (Hres Hav eq_refl) as (-> & Hcks & Hconv).
  exists s'. split; [exact Hrun | ]. split; [exact Hcks | ].
  rewrite Hconv. reflexivity.
Defined.

(** C5 (as stated) fails: for a thread id with no conversation document
    [delete_conversation] returns [True]; and where the conversation
    exists its pending writes stay behind (or, if the service rejects the
    query that lacks its parameter, the call returns [False]). *)
Lemma delete_conversation_counterexample :
  List.find (fun d => String.eqb (conv_id d) "ghost")
    (conversations_container sample_directory_state) = None
  /\ delete_conversation "ghost" sample_directory_state
     = (Ok true, sample_directory_state)
  /\ let stored :=
       (aput_writes sample_serde sample_base64 (checkpoint_config "t1" "" "c2")
          [("messages", PStr "a")] "task-1"
          (aput sample_serde sample_base64 (engine_config "t1" "alice")
             (bare_checkpoint "c3") loop_metadata PNone
             (mk_datetime "2024-05-01T10:00:00") sample_state).2).2 in
     conv_id <$> conversations_container stored = ["t1"]
     /\ (delete_conversation "t1" stored).1 = Ok true
     /\ writes_container (delete_conversation "t1" stored).2
        = [write_doc_of "t1" "" "c2" "task-1" 0 "messages" "str" "=a"]
     /\ forall l, (delete_conversation "t1"
                     {| conversations_container := conversations_container stored;
                        checkpoints_container := checkpoints_container stored;
                        writes_container := writes_container stored;
                        unavailable := unavailable stored;
                        rejects_unbound_parameter := true;
                        log := l |}).1 = Ok false.
Proof. repeat split; vm_compute; reflexivity. Qed.

(* ================================================================= *)
(** * More closed examples *)

(** ** Object codec *)

Lemma serialize_is_json_witness :
  let x :=
    PList [PMessage "AIMessage" "ai" (PStr "Hello!") (Some (PDict [])) None
             (Some (PStr "m1")) [("name", PStr "planner")];
           PTuple [PInt 1; PDatetime (mk_datetime "2024-05-01T10:00:00")];
           PObject "Point" [("x", PInt 1); ("y", PInt 2)];
           POther "set" (Some "{1, 2}")] in
  messages_flat x = true
  /\ json_value (serialize_for_cosmosdb x) = true
  /\ serialize_for_cosmosdb (serialize_for_cosmosdb x) = serialize_for_cosmosdb x.
Proof.
  cbv zeta. split; [reflexivity | ]. apply serialize_is_json. reflexivity.
Defined.

Example serialize_object :
  serialize_for_cosmosdb (PObject "Point" [("x", PInt 1); ("y", PInt 2)])
  = PDict [("_type", PStr "Point"); ("x", PInt 1); ("y", PInt 2)].
Proof. reflexivity. Qed.

Lemma object_comes_back_as_dict_witness :
  deserialize_from_cosmosdb sample_fromisoformat
    (serialize_for_cosmosdb (PObject "Point" [("x", PInt 1); ("label", PStr "origin")]))
  = PDict [("x", PInt 1); ("label", PStr "origin")]
  /\ deserialize_from_cosmosdb sample_fromisoformat
       (serialize_for_cosmosdb
          (PMessage "ToolMessage" "tool" (PStr "42") (Some (PDict [])) (Some (PDict []))
             (Some (PStr "m7")) [("tool_call_id", PStr "call-1")]))
     = PDict [("content", PStr "42"); ("type", PStr "tool");
              ("additional_kwargs", PDict []); ("response_metadata", PDict []);
              ("id", PStr "m7")]
  /\ deserialize_from_cosmosdb sample_fromisoformat
       (serialize_for_cosmosdb (PTuple [PInt 1; PStr "a"]))
     = PList [PInt 1; PStr "a"].
Proof.
  destruct (object_comes_back_as_dict sample_fromisoformat "Point"
              [("x", PInt 1); ("label", PStr "origin")] [PInt 1; PStr "a"]
              "" PNone None None None [] eq_refl) as (Hobject & _ & Htuple).
  destruct (object_comes_back_as_dict sample_fromisoformat "ToolMessage"
              [] [] "tool" (PStr "42") (Some (PDict [])) (Some (PDict []))
              (Some (PStr "m7")) [("tool_call_id", PStr "call-1")] eq_refl)
    as (_ & Hmessage & _).
  split; [ | split; [exact Hmessage | exact Htuple]].
  apply Hobject.
  - apply (bool_decide_unpack _). vm_compute. exact I.
  - apply (bool_decide_unpack _). vm_compute. exact I.
Defined.

Lemma datetime_without_plus_offset_is_text_witness :
  endswith_char "Z" (chars "2024-05-01T10:00:00-05:00") = false
  /\ contains_char "+" (chars "2024-05-01T10:00:00-05:00") = false
  /\ deserialize_from_cosmosdb sample_fromisoformat
       (serialize_for_cosmosdb (PDatetime (mk_datetime "2024-05-01T10:00:00-05:00")))
     = PStr "2024-05-01T10:00:00-05:00".
Proof.
  split; [reflexivity | ]. split; [reflexivity | ].
  apply (datetime_without_plus_offset_is_text sample_fromisoformat
           (mk_datetime "2024-05-01T10:00:00-05:00")).
  right. right. split; reflexivity.
Defined.

Example datetime_with_plus_offset_comes_back :
  deserialize_from_cosmosdb sample_fromisoformat
    (serialize_for_cosmosdb (PDatetime (mk_datetime "2024-05-01T10:00:00+02:00")))
  = PDatetime (mk_datetime "2024-05-01T10:00:00+02:00").
Proof. reflexivity. Qed.

(** ** Listing and the latest checkpoint *)

Lemma alist_order_and_scope_witness :
  let tuples :=
    alist sample_serde sample_base64 (Some (thread_config "t1")) None None (Some 1)
      sample_state in
  StronglySorted
    (fun a b => String.leb (tuple_checkpoint_id b) (tuple_checkpoint_id a) = true) tuples
  /\ length tuples <= 1
  /\ tuple_checkpoint_id <$> tuples = ["c2"].
Proof.
  cbv zeta.
  destruct (alist_order_and_scope sample_serde sample_base64 (thread_config "t1")
              {["thread_id" := "t1"]} "t1" None None (Some 1) sample_state
              eq_refl eq_refl) as (Hsorted & _ & Hlimit & _).
  split; [exact Hsorted | ]. split; [exact (Hlimit 1 eq_refl) | ].
  vm_compute. reflexivity.
Defined.

Lemma alist_starts_with_latest_witness :
  exists rest,
    alist sample_serde sample_base64 (Some (thread_config "t1")) None None None
      sample_state
    = {| ct_config := checkpoint_config "t1" "" "c2";
         ct_checkpoint := PDict [("id", PStr "c2")];
         ct_metadata := PDict [("source", PStr "loop")];
         ct_parent_config := Some (checkpoint_config "t1" "" "c1");
         ct_pending_writes := None |} :: rest.
Proof.
  apply (alist_starts_with_latest sample_serde sample_base64 (thread_config "t1")
           {["thread_id" := "t1"]} "t1" sample_state
           {| ct_config := checkpoint_config "t1" "" "c2";
              ct_checkpoint := PDict [("id", PStr "c2")];
              ct_metadata := PDict [("source", PStr "loop")];
              ct_parent_config := Some (checkpoint_config "t1" "" "c1");
              ct_pending_writes := Some [] |} eq_refl eq_refl eq_refl).
  vm_compute. reflexivity.
Defined.

Lemma unreadable_latest_hides_thread_witness :
  loads_typed sample_serde sample_base64 ("checkpoint", "not base64")
  = Raise (ValueError "Failed to deserialize data: " (Some BinasciiError))
  /\ aget_tuple sample_serde sample_base64 (thread_config "t1") damaged_state = None
  /\ exists older,
       older ∈ alist sample_serde sample_base64 (Some (thread_config "t1")) None None None
                 damaged_state
       /\ tuple_checkpoint_id older = "c2".
Proof.
  split; [reflexivity | ].
  destruct (unreadable_latest_hides_thread sample_serde sample_base64 (thread_config "t1")
              {["thread_id" := "t1"]} "t1" damaged_state (damaged_checkpoint_doc "c3")
              (ValueError "Failed to deserialize data: " (Some BinasciiError))
              eq_refl eq_refl eq_refl) as [Hnone Hlist].
  - repeat split. cbn. do 2 right. by left.
  - intros d' (Hin & _ & _) Hne. cbn in Hin.
    apply elem_of_cons in Hin as [-> | Hin]; [reflexivity | ].
    apply elem_of_cons in Hin as [-> | Hin]; [reflexivity | ].
    apply list_elem_of_singleton in Hin. done.
  - reflexivity.
  - split; [exact Hnone | ].
    eexists. split.
    + apply (Hlist eq_refl (sample_checkpoint_doc "c2" (Some "c1"))).
      * repeat split. cbn. right. by left.
      * vm_compute. reflexivity.
    + reflexivity.
Defined.

Lemma aput_then_latest_witness :
  exists s' tup,
    aput sample_serde sample_base64 (checkpoint_config "t1" "" "c2")
      (bare_checkpoint "c3") loop_metadata PNone (mk_datetime "2024-05-01T10:00:00")
      sample_state
    = (Ok (checkpoint_config "t1" "" "c3"), s')
    /\ aget_tuple sample_serde sample_base64 (thread_config "t1") s' = Some tup
    /\ ct_config tup = checkpoint_config "t1" "" "c3"
    /\ ct_checkpoint tup = checkpoint_value (bare_checkpoint "c3")
    /\ ct_metadata tup = loop_metadata
    /\ ct_parent_config tup = Some (checkpoint_config "t1" "" "c2").
Proof.
  destruct (aput_then_latest sample_serde sample_base64 (checkpoint_config "t1" "" "c2")
              (thread_config "t1")
              {["thread_id" := "t1"; "checkpoint_ns" := ""; "checkpoint_id" := "c2"]}
              {["thread_id" := "t1"]} "t1" "" (bare_checkpoint "c3") loop_metadata PNone
              (mk_datetime "2024-05-01T10:00:00") sample_state "checkpoint" "=c3" "=loop")
    as (s' & tup & Hrun & Hget & Hconfig & Hcheckpoint & Hmetadata & Hparent);
    try reflexivity.
  - exact available_sample_state.
  - intros d (Hin & _ & _). cbn in Hin.
    apply elem_of_cons in Hin as [-> | Hin]; [reflexivity | ].
    apply list_elem_of_singleton in Hin as ->. reflexivity.
  - intros w Hw. cbn in Hw. by apply elem_of_nil in Hw.
  - exists s', tup. split; [exact Hrun | ]. split; [exact Hget | ].
    split; [exact Hconfig | ]. split; [exact Hcheckpoint | ].
    split; [exact Hmetadata | exact Hparent].
Defined.

(** ** What aput changes *)

Example aput_twice_stores_once :
  ck_checkpoint_id <$> checkpoints_container
    (aput sample_serde sample_base64 (checkpoint_config "t1" "" "c2")
       (bare_checkpoint "c3") loop_metadata PNone (mk_datetime "2024-05-01T11:00:00")
       (aput sample_serde sample_base64 (checkpoint_config "t1" "" "c2")
          (bare_checkpoint "c3") loop_metadata PNone (mk_datetime "2024-05-01T10:00:00")
          sample_state).2).2
  = ["c1"; "c2"; "c3"].
Proof. vm_compute. reflexivity. Qed.

Lemma aput_frame_witness :
  let s' :=
    (aput sample_serde sample_base64 (engine_config "t1" "alice")
       (bare_checkpoint "c3") loop_metadata PNone (mk_datetime "2024-05-01T10:00:00")
       duplicated_directory_state).2 in
  writes_container s' = writes_container duplicated_directory_state
  /\ read_item checkpoints "t1" (checkpoint_doc_id "t1" "" "c1") (checkpoints_container s')
     = Some (sample_checkpoint_doc "c1" None)
  /\ read_item conversations "alice" "t0" (conversations_container s')
     = Some older_conversation.
Proof.
  cbv zeta.
  destruct (aput_frame sample_serde sample_base64 (engine_config "t1" "alice")
              {["thread_id" := "t1"; "checkpoint_ns" := ""; "user_id" := "alice"]}
              "t1" "" (bare_checkpoint "c3") loop_metadata PNone
              (mk_datetime "2024-05-01T10:00:00") duplicated_directory_state
              eq_refl eq_refl eq_refl) as (Hws & Hcks & Hconvs).
  split; [exact Hws | ]. split.
  - rewrite Hcks; [reflexivity | ]. intros [_ Hid]. discriminate Hid.
  - rewrite Hconvs; [reflexivity | ]. intros [_ Hid]. discriminate Hid.
Defined.

Lemma aput_not_atomic_witness :
  exists s',
    aput sample_serde sample_base64 (engine_config "t1" "alice")
      (bare_checkpoint "c3") loop_metadata PNone (mk_datetime "2024-05-01T10:00:00")
      (failing conversation_upserts sample_state)
    = (Raise (RuntimeError "Failed to save checkpoint: " CosmosHttpResponseError), s')
    /\ ck_checkpoint_id <$> checkpoints_container s' = ["c1"; "c2"; "c3"]
    /\ conversations_container s' = [].
Proof.
  destruct (aput_not_atomic sample_serde sample_base64 (engine_config "t1" "alice")
              {["thread_id" := "t1"; "checkpoint_ns" := ""; "user_id" := "alice"]}
              "t1" "" "alice" (bare_checkpoint "c3") loop_metadata PNone
              (mk_datetime "2024-05-01T10:00:00")
              (failing conversation_upserts sample_state) "checkpoint" "=c3" "=loop"
              eq_refl eq_refl eq_refl eq_refl)
    as (s' & Hrun & Hcks & Hconvs & _); try reflexivity; try discriminate.
  exists s'. split; [exact Hrun | ]. split; [by rewrite Hcks | exact Hconvs].
Defined.

(** ** Pending writes *)

Example aput_writes_twice :
  let batch := [("messages", PStr "a"); ("summary", PStr "b")] in
  let once := aput_writes sample_serde sample_base64 (checkpoint_config "t1" "" "c2")
                batch "task-1" sample_state in
  aput_writes sample_serde sample_base64 (checkpoint_config "t1" "" "c2") batch "task-1"
    once.2 = once.
Proof. vm_compute. reflexivity. Qed.

(** ** Conversation directory *)

Lemma available_sample_directory_state : available sample_directory_state.
Proof. intros op. reflexivity. Qed.

Lemma available_duplicated_directory_state : available duplicated_directory_state.
Proof. intros op. reflexivity. Qed.

Lemma last_active_thread_is_resumed_witness :
  get_or_create_user_conversation "alice" "6f1c" duplicated_directory_state = Ok "t1"
  /\ exists s',
       aput sample_serde sample_base64 (engine_config "t0" "alice")
         (bare_checkpoint "c9") loop_metadata PNone (mk_datetime "2024-06-01T00:00:00")
         duplicated_directory_state
       = (Ok (checkpoint_config "t0" "" "c9"), s')
       /\ forall uuid4, get_or_create_user_conversation "alice" uuid4 s' = Ok "t0".
Proof.
  split; [vm_compute; reflexivity | ].
  apply (last_active_thread_is_resumed sample_serde sample_base64
           (engine_config "t0" "alice")
           {["thread_id" := "t0"; "checkpoint_ns" := ""; "user_id" := "alice"]}
           "t0" "" "alice" (bare_checkpoint "c9") loop_metadata PNone
           (mk_datetime "2024-06-01T00:00:00") duplicated_directory_state
           "checkpoint" "=c9" "=loop"); try reflexivity.
  - discriminate.
  - exact available_duplicated_directory_state.
  - intros d Hd Hne. cbn in Hd.
    apply elem_of_cons in Hd as [-> | Hd]; [done | ].
    apply list_elem_of_singleton in Hd as ->. reflexivity.
Defined.

Lemma preview_is_bounded_witness :
  let doc :=
    {| conv_id := "t1";
       conv_userId := "alice";
       conv_lastUpdated := "2024-05-01T10:00:00";
       conv_messages :=
         PList [PDict [("_type", PStr "HumanMessage");
                       ("content", PStr (repeated 101 e_acute));
                       ("type", PStr "human")]];
       conv_checkpointId := "c2";
       conv_metadata := loop_metadata |} in
  str_len (repeated 101 e_acute) = 101
  /\ String.length (repeated 101 e_acute) = 202
  /\ exists summary,
       conversation_summary_of sample_fromisoformat doc = Ok summary
       /\ cs_first_message_preview summary
          = Some {| mp_role := PStr "human";
                    mp_content := PStr (repeated 100 e_acute +:+ "...");
                    mp_timestamp := "2024-05-01T10:00:00" |}
       /\ str_len (repeated 100 e_acute +:+ "...") = 103.
Proof.
  cbv zeta. split; [vm_compute; reflexivity | ]. split; [vm_compute; reflexivity | ].
  eexists. split; [vm_compute; reflexivity | ].
  destruct (preview_is_bounded sample_fromisoformat
              {| conv_id := "t1";
                 conv_userId := "alice";
                 conv_lastUpdated := "2024-05-01T10:00:00";
                 conv_messages :=
                   PList [PDict [("_type", PStr "HumanMessage");
                                 ("content", PStr (repeated 101 e_acute));
                                 ("type", PStr "human")]];
                 conv_checkpointId := "c2";
                 conv_metadata := loop_metadata |}
              {| cs_thread_id := "t1";
                 cs_user_id := "alice";
                 cs_last_updated := mk_datetime "2024-05-01T10:00:00";
                 cs_message_count := 1;
                 cs_first_message_preview :=
                   Some {| mp_role := PStr "human";
                           mp_content := PStr (repeated 100 e_acute +:+ "...");
                           mp_timestamp := "2024-05-01T10:00:00" |} |}
              [("_type", PStr "HumanMessage"); ("content", PStr (repeated 101 e_acute));
               ("type", PStr "human")] [] (repeated 101 e_acute))
    as (shown & Hpreview & _ & _ & Hlong).
  - vm_compute. reflexivity.
  - reflexivity.
  - reflexivity.
  - destruct Hlong as (Hshown & _ & Hlen); [vm_compute; lia | ].
    cbn [cs_first_message_preview] in Hpreview. injection Hpreview as Hsame.
    split; [reflexivity | ]. rewrite Hsame. exact Hlen.
Defined.

(** Characters are counted, not bytes: a text of 60 two-byte characters
    is shown whole, and a text of 120 one-byte characters is cut. *)
Example short_accented_content_is_whole :
  preview_content (PStr (repeated 60 e_acute)) = Ok (PStr (repeated 60 e_acute)).
Proof. vm_compute. reflexivity. Qed.

Example long_content_is_cut :
  preview_content (PStr (repeated 60 "ab")) = Ok (PStr (repeated 50 "ab" +:+ "...")).
Proof. vm_compute. reflexivity. Qed.

Example cleanup_leaves_other_data :
  let s' := (cleanup_old_conversations "alice" duplicated_directory_state).2 in
  conv_id <$> conversations_container s' = ["t1"]
  /\ ck_checkpoint_id <$> checkpoints_container s' = ["c1"; "c2"].
Proof. split; vm_compute; reflexivity. Qed.

Lemma cleanup_idempotent_witness :
  exists s',
    cleanup_old_conversations "alice" duplicated_directory_state = (Ok tt, s')
    /\ length (conversations_of s' "alice") <= 1
    /\ cleanup_old_conversations "alice" s' = (Ok tt, s').
Proof.
  apply (cleanup_idempotent "alice" duplicated_directory_state).
  - exact available_duplicated_directory_state.
  - apply (bool_decide_unpack _). vm_compute. exact I.
Defined.

Lemma deleted_thread_is_gone_witness :
  exists s',
    delete_conversation "t1" sample_directory_state = (Ok true, s')
    /\ aget_tuple sample_serde sample_base64 (thread_config "t1") s' = None
    /\ alist sample_serde sample_base64 (Some (thread_config "t1")) None None None s' = [].
Proof.
  destruct (deleted_thread_is_gone sample_serde sample_base64 "t1" sample_directory_state)
    as (s' & Hrun & Hgone & _).
  - exact available_sample_directory_state.
  - reflexivity.
  - unfold unique_items. apply (bool_decide_unpack _). vm_compute. exact I.
  - exists s'. split; [exact Hrun | ].
    destruct (Hgone (thread_config "t1") {["thread_id" := "t1"]} eq_refl eq_refl)
      as [Hget Hlist].
    split; [exact Hget | apply Hlist].
Defined.

Lemma delete_conversation_not_atomic_witness :
  exists s',
    delete_conversation "t1" (failing checkpoint_queries sample_directory_state)
    = (Ok false, s')
    /\ conversations_container s' = []
    /\ ck_checkpoint_id <$> checkpoints_container s' = ["c1"; "c2"].
Proof.
  destruct (delete_conversation_not_atomic "t1"
              (failing checkpoint_queries sample_directory_state) sample_conversation
              eq_refl eq_refl eq_refl eq_refl)
    as (s' & Hrun & Hconvs & _ & Hcks & _).
  exists s'. split; [exact Hrun | ]. split; [by rewrite Hconvs | by rewrite Hcks].
Defined.

(** ** Statistics *)

Lemma statistics_report_the_store_witness :
  get_total_conversations duplicated_directory_state = (Ok 2, duplicated_directory_state)
  /\ get_all_unique_user_ids duplicated_directory_state
     = (Ok ["alice"], duplicated_directory_state)
  /\ get_all_unique_thread_ids duplicated_directory_state
     = (Ok ["t0"; "t1"], duplicated_directory_state)
  /\ exists users threads,
       get_all_unique_user_ids duplicated_directory_state
       = (Ok users, duplicated_directory_state)
       /\ get_all_unique_thread_ids duplicated_directory_state
          = (Ok threads, duplicated_directory_state)
       /\ StronglySorted (fun a b => String.ltb a b = true) users
       /\ StronglySorted (fun a b => String.ltb a b = true) threads
       /\ length users <= 2
       /\ length threads <= 2.
Proof.
  split; [vm_compute; reflexivity | ]. split; [vm_compute; reflexivity | ].
  split; [vm_compute; reflexivity | ].
  destruct (statistics_report_the_store duplicated_directory_state eq_refl)
    as (users & threads & _ & Hu & Ht & Hsu & Hst & _ & _ & Hlu & Hlt).
  exists users, threads. repeat split; done.
Defined.

(** ** Session handling *)

Example anonymous_session_gets_a_fresh_thread :
  _ensure_thread_id (thread_config "t1") "6f1c" sample_directory_state
  = (Ok (thread_config "6f1c"), sample_directory_state).
Proof. vm_compute. reflexivity. Qed.

Example identified_session_resumes :
  (_ensure_thread_id {| configurable := Some {["user_id" := "alice"]} |} "6f1c"
     duplicated_directory_state).1
  = Ok (session_config "t1" "alice").
Proof. vm_compute. reflexivity. Qed.

(** ** The HTTP routes *)

Example delete_route_on_a_miss :
  (delete_conversation_thread "ghost" (fresh_server sample_directory_state)).1
  = Raises (HTTPException 500 "Error deleting conversation: "
              (Some (HTTPException 404 "Conversation not found" None))).
Proof. vm_compute. reflexivity. Qed.

Example delete_route_on_a_hit :
  (delete_conversation_thread "t1" (fresh_server sample_directory_state)).1
  = Responds [("message", "Conversation deleted successfully")].
Proof. vm_compute. reflexivity. Qed.

Lemma user_listing_has_at_most_one_witness :
  exists entries w',
    get_user_conversations sample_fromisoformat "alice" 50
      (fresh_server duplicated_directory_state) = (Responds entries, w')
    /\ length entries <= 1
    /\ length (conversations_of (store w') "alice") <= 1
    /\ cr_thread_id <$> entries = ["t1"].
Proof.
  destruct (user_listing_has_at_most_one sample_fromisoformat "alice" 50
              (fresh_server duplicated_directory_state))
    as (entries & w' & Hrun & Hlen & Hleft & _).
  - exact available_duplicated_directory_state.
  - apply (bool_decide_unpack _). vm_compute. exact I.
  - intros d Hd. cbn in Hd.
    apply elem_of_cons in Hd as [-> | Hd]; [eexists; vm_compute; reflexivity | ].
    apply list_elem_of_singleton in Hd as ->. eexists. vm_compute. reflexivity.
  - exists entries, w'. split; [exact Hrun | ]. split; [exact Hlen | ].
    split; [apply Hleft; lia | ].
    assert (Hcompute : (get_user_conversations sample_fromisoformat "alice" 50
                          (fresh_server duplicated_directory_state)).1
                       = Responds
                           [{| cr_thread_id := "t1";
                               cr_user_id := "alice";
                               cr_last_updated := "2024-05-01T10:00:00";
                               cr_message_count := 1;
                               cr_first_message_preview :=
                                 Some [("role", PStr "human"); ("content", PStr "Hi");
                                       ("timestamp", PStr "2024-05-01T10:00:00")] |}])
      by (vm_compute; reflexivity).
    rewrite Hrun in Hcompute. cbn in Hcompute. injection Hcompute as ->. reflexivity.
Defined.

Lemma conversation_by_id_route_witness :
  let written :=
    set_conversations
      [conversation_doc_of "6f1c" "alice"
         (chat_checkpoint "c1"
            [PMessage "HumanMessage" "human" (PStr "Hi") (Some (PDict []))
               (Some (PDict [])) (Some PNone) []])
         loop_metadata (mk_datetime "2024-05-01T10:00:00")] empty_state in
  (exists w',
     get_conversation_by_thread "ghost" (fresh_server written)
     = (Raises (HTTPException 404 "Conversation not found" None), w'))
  /\ exists w',
       get_conversation_by_thread "6f1c" (fresh_server written)
       = (Responds {| cr_thread_id := "6f1c";
                      cr_user_id := "alice";
                      cr_last_updated := "2024-05-01T10:00:00";
                      cr_message_count := 1;
                      cr_first_message_preview :=
                        Some [("role", PStr ""); ("content", PStr "Hi");
                              ("timestamp", PStr "")] |}, w').
Proof.
  cbv zeta.
  set (written := set_conversations _ empty_state).
  destruct (conversation_by_id_route "ghost" (fresh_server written) eq_refl)
    as [Hmiss _].
  destruct (conversation_by_id_route "6f1c" (fresh_server written) eq_refl)
    as [_ Hhit].
  split.
  - destruct (Hmiss eq_refl) as (w' & Hrun & _). by exists w'.
  - destruct (Hhit "alice"
                (chat_checkpoint "c1"
                   [PMessage "HumanMessage" "human" (PStr "Hi") (Some (PDict []))
                      (Some (PDict [])) (Some PNone) []])
                loop_metadata (mk_datetime "2024-05-01T10:00:00")
                "HumanMessage" "human" "Hi" (Some (PDict [])) (Some (PDict []))
                (Some PNone) [] [] eq_refl eq_refl) as (w' & shown & Hrun & Hshown & _).
    exists w'. rewrite Hrun. cbn in Hshown. injection Hshown as <-. reflexivity.
Defined.

Example database_summary_during_an_outage :
  (get_database_summary
     (fresh_server (failing conversation_queries duplicated_directory_state))).1
  = Responds {| ds_total_conversations := 0;
                ds_unique_users := [];
                ds_unique_thread_ids := [] |}.
Proof. vm_compute. reflexivity. Qed.

Example database_summary_of_the_store :
  (get_database_summary (fresh_server duplicated_directory_state)).1
  = Responds {| ds_total_conversations := 2;
                ds_unique_users := ["alice"];
                ds_unique_thread_ids := ["t0"; "t1"] |}.
Proof. vm_compute. reflexivity. Qed.

(** ** The statements without a standing hypothesis, at the samples *)

Lemma typed_codec_contract_witness :
  (exists data,
     dumps_typed sample_serde sample_base64 (PStr "hello") = Ok data
     /\ loads_typed sample_serde sample_base64 data = Ok (PStr "hello"))
  /\ exists cause,
       loads_typed sample_serde sample_base64 ("checkpoint", "not base64")
       = Raise (ValueError "Failed to deserialize data: " (Some cause)).
Proof.
  destruct (typed_codec_contract sample_serde sample_base64)
    as (Htyped & _ & _ & Hloads).
  split.
  - apply (Htyped (PStr "hello") "str" "hello"); reflexivity.
  - destruct (Hloads ("checkpoint", "not base64") ""
                (ValueError "Failed to deserialize data: " (Some BinasciiError))
                (or_introl eq_refl)) as [cause Hcause].
    exists cause. rewrite <- Hcause. reflexivity.
Defined.

Lemma aput_is_upsert_witness :
  let s1 :=
    (aput sample_serde sample_base64 (checkpoint_config "t1" "" "c2")
       (bare_checkpoint "c3") loop_metadata PNone (mk_datetime "2024-05-01T10:00:00")
       sample_state).2 in
  let s2 :=
    (aput sample_serde sample_base64 (checkpoint_config "t1" "" "c2")
       (bare_checkpoint "c3") loop_metadata PNone (mk_datetime "2024-05-01T11:00:00")
       s1).2 in
  checkpoints_container s2 = checkpoints_container s1
  /\ unique_items checkpoints (checkpoints_container s1)
  /\ ids_derived (checkpoints_container s1).
Proof.
  cbv zeta.
  pose proof (aput_is_upsert sample_serde sample_base64 (checkpoint_config "t1" "" "c2")
                (bare_checkpoint "c3") loop_metadata PNone
                (mk_datetime "2024-05-01T10:00:00") (mk_datetime "2024-05-01T11:00:00")
                sample_state) as Hput.
  cbv zeta in Hput. destruct Hput as (Hsame & Hunique & Hderived).
  split; [exact Hsame | ]. split.
  - apply Hunique. unfold unique_items. apply (bool_decide_unpack _). vm_compute. exact I.
  - apply Hderived. intros d Hd. cbn in Hd.
    apply elem_of_cons in Hd as [-> | Hd]; [reflexivity | ].
    apply list_elem_of_singleton in Hd as ->. reflexivity.
Defined.


Lemma cleanup_reaches_one_user_witness :
  let written :=
    set_conversations
      [older_conversation; sample_conversation;
       {| conv_id := "t7";
          conv_userId := "bob";
          conv_lastUpdated := "2024-03-01T00:00:00";
          conv_messages := PList [];
          conv_checkpointId := "c0";
          conv_metadata := loop_metadata |}] sample_state in
  let s' := (cleanup_old_conversations "alice" written).2 in
  conv_id <$> conversations_of s' "bob" = ["t7"]
  /\ checkpoints_container s' = checkpoints_container written
  /\ conv_id <$> conversations_of s' "alice" = ["t1"].
Proof.
  cbv zeta.
  set (written := set_conversations _ sample_state).
  pose proof (cleanup_reaches_one_user "alice" written) as Hcleanup.
  cbv zeta in Hcleanup. destruct Hcleanup as (Hothers & Hcks & _).
  split; [ | split; [exact Hcks | vm_compute; reflexivity]].
  rewrite (Hothers "bob"); [vm_compute; reflexivity | discriminate].
Defined.

Lemma ensure_thread_id_cases_witness :
  _ensure_thread_id (thread_config "t1") "6f1c" sample_directory_state
  = (Ok (thread_config "6f1c"), sample_directory_state)
  /\ (exists s',
        _ensure_thread_id {| configurable := Some {["user_id" := "alice"]} |} "6f1c"
          duplicated_directory_state
        = (Ok (session_config "t1" "alice"), s')
        /\ conv_id <$> conversations_of s' "alice" = ["t1"])
  /\ (_ensure_thread_id {| configurable := Some {["user_id" := "alice"]} |} "6f1c"
        (failing conversation_queries duplicated_directory_state)).1
     = Raise CosmosHttpResponseError.
Proof.
  split; [ | split].
  - pose proof (ensure_thread_id_cases (thread_config "t1") "6f1c"
                  sample_directory_state) as Hcases.
    cbv zeta in Hcases. destruct Hcases as (Hanonymous & _ & _).
    rewrite (Hanonymous eq_refl). vm_compute. reflexivity.
  - pose proof (ensure_thread_id_cases {| configurable := Some {["user_id" := "alice"]} |}
                  "6f1c" duplicated_directory_state) as Hcases.
    cbv zeta in Hcases. destruct Hcases as (_ & Hidentified & _).
    destruct (Hidentified "alice" eq_refl) as (s' & Hrun & Hkept).
    + discriminate.
    + exact available_duplicated_directory_state.
    + apply (bool_decide_unpack _). vm_compute. exact I.
    + exists s'. split.
      * rewrite Hrun. vm_compute. reflexivity.
      * rewrite Hkept. vm_compute. reflexivity.
  - pose proof (ensure_thread_id_cases {| configurable := Some {["user_id" := "alice"]} |}
                  "6f1c" (failing conversation_queries duplicated_directory_state))
      as Hcases.
    cbv zeta in Hcases. destruct Hcases as (_ & _ & Hdown).
    rewrite (Hdown "alice" eq_refl); [reflexivity | discriminate | reflexivity].
Defined.

Lemma delete_route_never_answers_404_witness :
  exists w',
    delete_conversation_thread "ghost" (fresh_server sample_directory_state)
    = (Raises (HTTPException 500 "Error deleting conversation: "
                 (Some (HTTPException 404 "Conversation not found" None))), w')
    /\ store w' = sample_directory_state.
Proof.
  destruct (delete_route_never_answers_404 "ghost" (fresh_server sample_directory_state))
    as [_ Hmiss].
  exact (Hmiss eq_refl eq_refl).
Defined.

Lemma database_summary_never_fails_witness :
  exists summary w',
    get_database_summary
      (fresh_server (failing conversation_queries duplicated_directory_state))
    = (Responds summary, w')
    /\ summary = {| ds_total_conversations := 0;
                    ds_unique_users := [];
                    ds_unique_thread_ids := [] |}
    /\ conversations_container (store w')
       = conversations_container duplicated_directory_state.
Proof.
  destruct (database_summary_never_fails
              (fresh_server (failing conversation_queries duplicated_directory_state)))
    as (summary & w' & Hrun & Hconvs & _ & _ & Hdown & _).
  exists summary, w'. split; [exact Hrun | ].
  split; [exact (proj1 (Hdown eq_refl)) | exact Hconvs].
Defined.
